(** * Verification of the Maya FBX batch exporter (fbx_exporter_v008.py)

    The exporter is a script that runs inside a host application.  Its
    functions are embedded here as programs of a small state-and-exception
    monad over a [World]: the file system, the scene of the host and the
    user in front of the dialogs.  Every command the script sends to the
    host, to the file system or to the GUI toolkit is recorded, in order, in
    the trace of the run.  [print] statements are not modelled. *)

From Stdlib Require Import Ascii ZArith Floats.
From stdpp Require Import base strings gmap list pretty.

Open Scope string_scope.
Open Scope list_scope.

(** ** Python strings *)

Module Py.

Definition nl : string := String (Ascii.ascii_of_nat 10) EmptyString.
Definition dquote : string := String (Ascii.ascii_of_nat 34) EmptyString.
Definition backslash : ascii := Ascii.ascii_of_nat 92.

(** [c in s] for a one-character string [c]. *)
Fixpoint contains (c : ascii) (s : string) : bool :=
  match s with
  | EmptyString => false
  | String a s' => if Ascii.eqb a c then true else contains c s'
  end.

(** [s.split(c)]: never empty, [''.split(c) == ['']]. *)
Fixpoint split (c : ascii) (s : string) : list string :=
  match s with
  | EmptyString => [EmptyString]
  | String a s' =>
      if Ascii.eqb a c then EmptyString :: split c s'
      else match split c s' with
           | [] => [String a EmptyString]
           | t :: ts => String a t :: ts
           end
  end.

(** [sep.join(l)]. *)
Definition join (sep : string) (l : list string) : string := String.concat sep l.

(** [s.replace(c, d)] for one-character strings. *)
Fixpoint replace (c d : ascii) (s : string) : string :=
  match s with
  | EmptyString => EmptyString
  | String a s' => String (if Ascii.eqb a c then d else a) (replace c d s')
  end.

(** [s.startswith(p)]. *)
Definition startswith (p s : string) : bool := String.prefix p s.

(** [l[:-1]]. *)
Definition init {A} (l : list A) : list A := removelast l.

(** Truth value of a string, of a list and of an optional value. *)
Definition truthy_str (s : string) : bool :=
  match s with EmptyString => false | _ => true end.

Definition truthy_list {A} (l : list A) : bool :=
  match l with [] => false | _ => true end.

(** Numbers of type [float] are IEEE 754 doubles, with the arithmetic of
    the processor as in Python.  [float n] is the double that a length [n]
    is converted to in a product or quotient with a float (exact below
    2^53; lengths from 2^63 on do not occur). *)
Definition float (n : nat) : PrimFloat.float :=
  PrimFloat.of_uint63 (Uint63.of_Z (Z.of_nat n)).

(** [x in l] for a list of strings. *)
Definition mem (x : string) (l : list string) : bool :=
  bool_decide (x ∈ l).

End Py.

(** ** The platform: [os.path]

    [os.path] belongs to the Python installation, not to the script, and
    differs between platforms: its three functions are taken as an
    interface. *)

Class OsPath := {
  os_path_abspath : string → string;
  os_path_dirname : string → string;
  os_path_basename : string → string;
}.

(** ** The world *)

(** Files and directories that exist, by path. *)
Record FileSystem := {
  fs_files : gset string;
  fs_dirs : gset string;
}.

(** The scene of the host, as far as the script queries or changes it.
    Queries whose answer the script never changes are functions of the names
    they are asked about. *)
Record Scene := {
  (** [cmds.file(query=True, location=True)] *)
  scene_location : string;
  (** the nodes that exist ([cmds.objExists]), animation curves apart *)
  scene_nodes : list string;
  (** nodes that come from a referenced file *)
  scene_referenced : string → bool;
  (** [cmds.ls(selection=True)] *)
  scene_selection : list string;
  (** [cmds.listAttr(node, keyable=True)], [None] when there is none *)
  scene_keyable : string → option (list string);
  (** [cmds.attributeQuery(attr, node=node, attributeType=True)] *)
  scene_attr_type : string → string → string;
  (** [cmds.listConnections(chan, type='animCurve', destination=False)]:
      the animation curves that drive a channel ([[]] for [None]), and the
      curves that are static *)
  scene_anim_curves : string → list string;
  scene_static_curve : string → bool;
  (** [cmds.ls(type='reference')] *)
  scene_references : list string;
  (** [cmds.referenceQuery(ref, filename=True)], [None] for RuntimeError *)
  scene_ref_filename : string → option string;
  (** [cmds.referenceQuery(ref, isLoaded=True)] *)
  scene_ref_loaded : string → bool;
  (** [cmds.referenceQuery(ref, parentNamespace=True)[0]] *)
  scene_ref_parent_namespace : string → string;
  (** [cmds.file(path, query=True, namespace=True)], also for the path
      [None] *)
  scene_file_namespace : option string → string;
  (** namespaces that exist, and the current one *)
  scene_namespaces : list string;
  scene_current_namespace : string;
  (** [cmds.listRelatives(node, shapes=True)] and
      [cmds.listRelatives(node, parent=True)], [None] when there is none *)
  scene_shapes : string → option (list string);
  scene_parent : string → option (list string);
  (** the leaf names the host gives to the nodes it creates: the duplicate
      of a node, and a constraint of a kind on a node *)
  scene_duplicate_leaf : string → string;
  scene_constraint_leaf : string → string → string;
}.

(** The user: [user_clicks k] is the index of the button that closes the
    [k]-th message box of the session, as [QMessageBox.exec_] returns it;
    [user_seen] counts the message boxes shown so far. *)
Record User := {
  user_clicks : nat → nat;
  user_seen : nat;
}.

Record World := {
  fs : FileSystem;
  scene : Scene;
  user : User;
}.

(** ** Events of a run *)

Inductive Event :=
  (** GUI toolkit *)
  | MessageBoxExec (title text : string) (buttons : list string) (clicked : nat)
  | ProcessEvents
  | ProgressShow (title : string)
  | ProgressSetValue (v : PrimFloat.float)
  | ProgressClose
  (** file system *)
  | OsMakedirs (dir : string)
  | OsRemove (path : string)
  (** host commands *)
  | CmdsSelect (nodes : list string)
  | CmdsDelete (nodes : list string)
  | CmdsNamespaceAdd (ns : string)
  | CmdsNamespaceSet (ns : string)
  | CmdsDuplicate (node dup : string)
  | CmdsParentWorld (node : string)
  | CmdsConnectAttr (src dst : string)
  | CmdsParentConstraint (target node cons : string)
  | CmdsScaleConstraint (target node cons : string)
  | CmdsBakeResults (nodes : list string) (time : Z * Z)
  | CmdsSetKeyframe (chan : string) (time : Z)
  | CmdsLoadPlugin (name : string)
  | MelEval (script : string)
  (** [mel.eval] of an export script: the FBX plug-in writes the selected
      nodes to [fbx] *)
  | FbxExport (script fbx : string) (selection : list string).

(** ** The monad of the script *)

Inductive Exn :=
  | RuntimeError | StopIteration | IndexError | TypeError | ValueError
  | OSError | AssertionError | AttributeError
  (** not a Python exception: a loop of the model ran out of fuel *)
  | OutOfFuel.

#[export] Instance Exn_eq_dec : EqDecision Exn.
Proof. solve_decision. Defined.

Inductive Result (A : Type) :=
  | Ok (a : A)
  | Raise (e : Exn).
Arguments Ok {A} a.
Arguments Raise {A} e.

Definition M (A : Type) : Type := World → Result A * World * list Event.

Definition ret {A} (a : A) : M A := λ w, (Ok a, w, []).

Definition bind {A B} (m : M A) (k : A → M B) : M B := λ w,
  match m w with
  | (Ok a, w1, t1) => let '(r, w2, t2) := k a w1 in (r, w2, t1 ++ t2)
  | (Raise e, w1, t1) => (Raise e, w1, t1)
  end.

Notation "'let*' x ':=' m 'in' k" := (bind m (λ x, k))
  (at level 10, x pattern, m at level 100, k at level 200,
   format "'[v' 'let*'  x  ':='  m  'in' '/' k ']'").
Notation "m1 ;; m2" := (bind m1 (λ _, m2))
  (at level 100, m2 at level 200, right associativity,
   format "'[v' m1 ;; '/' m2 ']'").

Definition raise {A} (e : Exn) : M A := λ w, (Raise e, w, []).

(** [try: m except e: h] *)
Definition try_except {A} (m : M A) (e : Exn) (h : M A) : M A := λ w,
  match m w with
  | (Raise e', w1, t1) =>
      if bool_decide (e' = e)
      then let '(r, w2, t2) := h w1 in (r, w2, t1 ++ t2)
      else (Raise e', w1, t1)
  | ok => ok
  end.

Definition emit (ev : Event) : M unit := λ w, (Ok tt, w, [ev]).
Definition gets {A} (f : World → A) : M A := λ w, (Ok (f w), w, []).
Definition modify (f : World → World) : M unit := λ w, (Ok tt, f w, []).

(** The components of the outcome of a run. *)
Definition result_of {A} (o : Result A * World * list Event) : Result A := o.1.1.
Definition world_of {A} (o : Result A * World * list Event) : World := o.1.2.
Definition trace_of {A} (o : Result A * World * list Event) : list Event := o.2.

(** [for x in l: body x] over a list. *)
Fixpoint for_each {A} (l : list A) (body : A → M unit) : M unit :=
  match l with
  | [] => ret tt
  | x :: l' => body x ;; for_each l' body
  end.

(** A loop over a list that carries the variables it assigns. *)
Fixpoint for_fold {A S} (l : list A) (s : S) (body : A → S → M S) : M S :=
  match l with
  | [] => ret s
  | x :: l' => let* s' := body x s in for_fold l' s' body
  end.

Definition set_fs (f : FileSystem → FileSystem) (w : World) : World :=
  {| fs := f (fs w); scene := scene w; user := user w |}.
Definition set_scene (f : Scene → Scene) (w : World) : World :=
  {| fs := fs w; scene := f (scene w); user := user w |}.
Definition set_user (f : User → User) (w : World) : World :=
  {| fs := fs w; scene := scene w; user := f (user w) |}.

(** ** File system commands *)

Module os.

(** [os.path.exists(p)] *)
Definition path_exists (p : string) : M bool :=
  gets (λ w, bool_decide (p ∈ fs_files (fs w)) || bool_decide (p ∈ fs_dirs (fs w))).

(** [os.makedirs(d)]: fails when [d] exists.  The directories it creates
    on the way to [d] are not told apart from [d]: the event and the file
    system record [d] alone.  Its other failures (an empty path, a parent
    that is a file, missing rights) are outside the model. *)
Definition makedirs (d : string) : M unit :=
  let* e := path_exists d in
  if e then raise OSError
  else
    emit (OsMakedirs d);;
    modify (set_fs (λ f, {| fs_files := fs_files f; fs_dirs := {[d]} ∪ fs_dirs f |})).

(** [os.remove(p)]: removes a file, fails on anything else. *)
Definition remove (p : string) : M unit :=
  let* isfile := gets (λ w, bool_decide (p ∈ fs_files (fs w))) in
  if isfile then
    emit (OsRemove p);;
    modify (set_fs (λ f, {| fs_files := fs_files f ∖ {[p]}; fs_dirs := fs_dirs f |}))
  else raise OSError.

End os.

(** ** Message boxes *)

Module _MessageBox.

Record t := {
  title : string;
  text : string;
  buttons : list string;
}.

(** [_add_buttons]: the buttons of the box, with a hidden "Cancel" button
    appended when there is none; "Cancel" is the escape button and the
    default button of the box. *)
Definition _add_buttons (buttons : list string) : list string :=
  let _buttons := buttons in
  if negb (Py.mem "Cancel" _buttons) then _buttons ++ ["Cancel"] else _buttons.

Definition __init__ (text title : string) (buttons : list string) : t :=
  {| title := title; text := text; buttons := _add_buttons buttons |}.

(** [exec_()]: the box is shown and the user closes it with a button. *)
Definition exec_ (self : t) : M nat :=
  let* k := gets (λ w, user_clicks (user w) (user_seen (user w))) in
  modify (set_user (λ u, {| user_clicks := user_clicks u; user_seen := S (user_seen u) |}));;
  emit (MessageBoxExec (title self) (text self) (buttons self) k);;
  ret k.

Definition get_result (self : t) : M string :=
  let* _exec_result := exec_ self in
  match buttons self !! _exec_result with
  | None => raise IndexError
  | Some _result =>
      if bool_decide (_result = "Cancel") then raise RuntimeError
      else ret _result
  end.

End _MessageBox.

Definition _ok_cancel (msg : string) (title : string) : M string :=
  let _box := _MessageBox.__init__ msg title ["Ok"; "Cancel"] in
  _MessageBox.get_result _box.

Definition _notify (msg : string) (title : string) : M string :=
  let _box := _MessageBox.__init__ msg title ["Ok"] in
  _MessageBox.get_result _box.

(** ** The progress bar *)

Module _ProgressBar.

Record t (A : Type) := {
  items : list A;
  n_items : nat;
}.
Arguments items {A} _.
Arguments n_items {A} _.

Definition __init__ {A} (items : list A) (title : string) : M (t A) :=
  emit (ProgressShow title);;
  emit (ProgressSetValue 0%float);;
  ret {| items := items; n_items := length items |}.

(** [next]: the next item and the bar after the step, or StopIteration.
    The event [ProgressSetValue] records the argument given to [setValue],
    a double (the integer 0 of [__init__] as 0.0); the bar, which holds an
    integer, shows its integer part. *)
Definition next {A} (self : t A) : M (A * t A) :=
  emit ProcessEvents;;
  match items self with
  | [] => emit ProgressClose;; raise StopIteration
  | _next :: rest =>
      let _fr := (1 - 1 * Py.float (length rest) / Py.float (n_items self))%float in
      emit (ProgressSetValue (_fr * Py.float 100)%float);;
      ret (_next, {| items := rest; n_items := n_items self |})
  end.

(** [for x in bar: body x]: [next] is called until it raises
    StopIteration. *)
Fixpoint for_in {A} (fuel : nat) (self : t A) (body : A → M unit) : M unit :=
  match fuel with
  | 0 => raise OutOfFuel
  | S fuel' =>
      let* step := try_except (let* r := next self in ret (Some r)) StopIteration (ret None) in
      match step with
      | None => ret tt
      | Some (x, self') => body x;; for_in fuel' self' body
      end
  end.

End _ProgressBar.

(** ** Host commands *)

Module cmds.

(** A name in a namespace: [":export_tmp"] and ["cam"] give
    ["export_tmp:cam"], the root namespace [":"] gives ["cam"]. *)
Definition strip_colon (s : string) : string :=
  match s with
  | String ":" s' => s'
  | _ => s
  end.

Definition qualify (ns leaf : string) : string :=
  match strip_colon ns with
  | EmptyString => leaf
  | n => n +:+ ":" +:+ leaf
  end.

(** The patterns of the script are a namespace followed by [":*"]: such a
    pattern matches the names that start with the namespace and a colon. *)
Fixpoint strip_star (s : string) : option string :=
  match s with
  | EmptyString => None
  | String "*" EmptyString => Some EmptyString
  | String a s' => String a <$> strip_star s'
  end.

Definition ls_match (pattern name : string) : bool :=
  match strip_star (strip_colon pattern) with
  | Some pre => Py.startswith pre name
  | None => bool_decide (strip_colon pattern = name)
  end.

Definition file_query_location : M string :=
  gets (λ w, scene_location (scene w)).

Definition file_query_namespace (path : option string) : M string :=
  gets (λ w, scene_file_namespace (scene w) path).

Definition objExists (node : string) : M bool :=
  gets (λ w, bool_decide (node ∈ scene_nodes (scene w))).

Definition ls_selection : M (list string) :=
  gets (λ w, scene_selection (scene w)).

Definition ls_type_reference : M (list string) :=
  gets (λ w, scene_references (scene w)).

(** [cmds.ls(pattern)] and [cmds.ls(pattern, referencedNodes=True)] *)
Definition ls (pattern : string) (referencedNodes : bool) : M (list string) :=
  gets (λ w,
    List.filter
      (λ n, ls_match pattern n
            && (if referencedNodes then scene_referenced (scene w) n else true))
      (scene_nodes (scene w))).

Definition referenceQuery_filename (ref : string) : M string :=
  let* r := gets (λ w, scene_ref_filename (scene w) ref) in
  match r with
  | Some f => ret f
  | None => raise RuntimeError
  end.

Definition referenceQuery_isLoaded (ref : string) : M bool :=
  gets (λ w, scene_ref_loaded (scene w) ref).

Definition referenceQuery_parentNamespace_0 (ref : string) : M string :=
  gets (λ w, scene_ref_parent_namespace (scene w) ref).

Definition listAttr_keyable (node : string) : M (option (list string)) :=
  gets (λ w, scene_keyable (scene w) node).

Definition attributeQuery_attributeType (attr node : string) : M string :=
  gets (λ w, scene_attr_type (scene w) node attr).

Definition listConnections_animCurve (chan : string) : M (list string) :=
  gets (λ w, scene_anim_curves (scene w) chan).

Definition listRelatives_shapes (node : string) : M (option (list string)) :=
  gets (λ w, scene_shapes (scene w) node).

Definition listRelatives_parent (node : string) : M (option (list string)) :=
  gets (λ w, scene_parent (scene w) node).

(** [cmds.namespace(exists=ns)]: the root namespace always exists. *)
Definition namespace_exists (ns : string) : M bool :=
  gets (λ w, bool_decide (ns = ":") || bool_decide (ns ∈ scene_namespaces (scene w))).

Definition with_nodes (f : list string → list string) (s : Scene) : Scene :=
  {| scene_location := scene_location s;
     scene_nodes := f (scene_nodes s);
     scene_referenced := scene_referenced s;
     scene_selection := scene_selection s;
     scene_keyable := scene_keyable s;
     scene_attr_type := scene_attr_type s;
     scene_anim_curves := scene_anim_curves s;
     scene_static_curve := scene_static_curve s;
     scene_references := scene_references s;
     scene_ref_filename := scene_ref_filename s;
     scene_ref_loaded := scene_ref_loaded s;
     scene_ref_parent_namespace := scene_ref_parent_namespace s;
     scene_file_namespace := scene_file_namespace s;
     scene_namespaces := scene_namespaces s;
     scene_current_namespace := scene_current_namespace s;
     scene_shapes := scene_shapes s;
     scene_parent := scene_parent s;
     scene_duplicate_leaf := scene_duplicate_leaf s;
     scene_constraint_leaf := scene_constraint_leaf s |}.

Definition with_selection (l : list string) (s : Scene) : Scene :=
  {| scene_location := scene_location s;
     scene_nodes := scene_nodes s;
     scene_referenced := scene_referenced s;
     scene_selection := l;
     scene_keyable := scene_keyable s;
     scene_attr_type := scene_attr_type s;
     scene_anim_curves := scene_anim_curves s;
     scene_static_curve := scene_static_curve s;
     scene_references := scene_references s;
     scene_ref_filename := scene_ref_filename s;
     scene_ref_loaded := scene_ref_loaded s;
     scene_ref_parent_namespace := scene_ref_parent_namespace s;
     scene_file_namespace := scene_file_namespace s;
     scene_namespaces := scene_namespaces s;
     scene_current_namespace := scene_current_namespace s;
     scene_shapes := scene_shapes s;
     scene_parent := scene_parent s;
     scene_duplicate_leaf := scene_duplicate_leaf s;
     scene_constraint_leaf := scene_constraint_leaf s |}.

Definition with_anim_curves (f : string → list string) (s : Scene) : Scene :=
  {| scene_location := scene_location s;
     scene_nodes := scene_nodes s;
     scene_referenced := scene_referenced s;
     scene_selection := scene_selection s;
     scene_keyable := scene_keyable s;
     scene_attr_type := scene_attr_type s;
     scene_anim_curves := f;
     scene_static_curve := scene_static_curve s;
     scene_references := scene_references s;
     scene_ref_filename := scene_ref_filename s;
     scene_ref_loaded := scene_ref_loaded s;
     scene_ref_parent_namespace := scene_ref_parent_namespace s;
     scene_file_namespace := scene_file_namespace s;
     scene_namespaces := scene_namespaces s;
     scene_current_namespace := scene_current_namespace s;
     scene_shapes := scene_shapes s;
     scene_parent := scene_parent s;
     scene_duplicate_leaf := scene_duplicate_leaf s;
     scene_constraint_leaf := scene_constraint_leaf s |}.

Definition with_namespaces (l : list string) (cur : string) (s : Scene) : Scene :=
  {| scene_location := scene_location s;
     scene_nodes := scene_nodes s;
     scene_referenced := scene_referenced s;
     scene_selection := scene_selection s;
     scene_keyable := scene_keyable s;
     scene_attr_type := scene_attr_type s;
     scene_anim_curves := scene_anim_curves s;
     scene_static_curve := scene_static_curve s;
     scene_references := scene_references s;
     scene_ref_filename := scene_ref_filename s;
     scene_ref_loaded := scene_ref_loaded s;
     scene_ref_parent_namespace := scene_ref_parent_namespace s;
     scene_file_namespace := scene_file_namespace s;
     scene_namespaces := l;
     scene_current_namespace := cur;
     scene_shapes := scene_shapes s;
     scene_parent := scene_parent s;
     scene_duplicate_leaf := scene_duplicate_leaf s;
     scene_constraint_leaf := scene_constraint_leaf s |}.

Definition with_relatives (shapes parent : string → option (list string))
    (s : Scene) : Scene :=
  {| scene_location := scene_location s;
     scene_nodes := scene_nodes s;
     scene_referenced := scene_referenced s;
     scene_selection := scene_selection s;
     scene_keyable := scene_keyable s;
     scene_attr_type := scene_attr_type s;
     scene_anim_curves := scene_anim_curves s;
     scene_static_curve := scene_static_curve s;
     scene_references := scene_references s;
     scene_ref_filename := scene_ref_filename s;
     scene_ref_loaded := scene_ref_loaded s;
     scene_ref_parent_namespace := scene_ref_parent_namespace s;
     scene_file_namespace := scene_file_namespace s;
     scene_namespaces := scene_namespaces s;
     scene_current_namespace := scene_current_namespace s;
     scene_shapes := shapes;
     scene_parent := parent;
     scene_duplicate_leaf := scene_duplicate_leaf s;
     scene_constraint_leaf := scene_constraint_leaf s |}.

(** [cmds.select(nodes)] replaces the selection. *)
Definition select (nodes : list string) : M unit :=
  emit (CmdsSelect nodes);;
  modify (set_scene (with_selection nodes)).

(** [cmds.delete(nodes)] removes the named nodes from the scene. *)
Definition delete (nodes : list string) : M unit :=
  emit (CmdsDelete nodes);;
  modify (set_scene (with_nodes (List.filter (λ n, negb (Py.mem n nodes))))).

Definition namespace_addNamespace (ns : string) : M unit :=
  emit (CmdsNamespaceAdd ns);;
  modify (set_scene (λ s,
    with_namespaces (scene_namespaces s ++ [ns]) (scene_current_namespace s) s)).

Definition namespace_setNamespace (ns : string) : M unit :=
  emit (CmdsNamespaceSet ns);;
  modify (set_scene (λ s, with_namespaces (scene_namespaces s) ns s)).

(** [cmds.duplicate(node)]: fails with ValueError when no node has the
    name.  Otherwise the copy and the copies of its shapes are new nodes,
    named in the current namespace; the copy has the parent of [node].  The
    result lists the copy first. *)
Definition duplicate (node : string) : M (list string) :=
  let* s := gets scene in
  (if bool_decide (node ∈ scene_nodes s) then ret tt else raise ValueError);;
  let ns := scene_current_namespace s in
  let dup := qualify ns (scene_duplicate_leaf s node) in
  let dup_shapes :=
    List.map (λ x, qualify ns (scene_duplicate_leaf s x)) <$> scene_shapes s node in
  emit (CmdsDuplicate node dup);;
  modify (set_scene (λ s,
    with_nodes (λ l, l ++ dup :: default [] dup_shapes)
      (with_relatives
         (λ n, if bool_decide (n = dup) then dup_shapes else scene_shapes s n)
         (λ n, if bool_decide (n = dup) then scene_parent s node else scene_parent s n)
         s)));;
  ret [dup].

(** [cmds.parent(node, world=True)] *)
Definition parent_world (node : string) : M unit :=
  emit (CmdsParentWorld node);;
  modify (set_scene (λ s,
    with_relatives (scene_shapes s)
      (λ n, if bool_decide (n = node) then None else scene_parent s n) s)).

Definition connectAttr (src dst : string) : M unit :=
  emit (CmdsConnectAttr src dst).

(** [cmds.parentConstraint(target, node, maintainOffset=False)] and
    [cmds.scaleConstraint(target, node, maintainOffset=False)]: the
    constraint is a new node, named in the current namespace. *)
Definition parentConstraint (target node : string) : M (list string) :=
  let* s := gets scene in
  let cons := qualify (scene_current_namespace s)
                (scene_constraint_leaf s "parentConstraint" node) in
  emit (CmdsParentConstraint target node cons);;
  modify (set_scene (with_nodes (λ l, l ++ [cons])));;
  ret [cons].

Definition scaleConstraint (target node : string) : M (list string) :=
  let* s := gets scene in
  let cons := qualify (scene_current_namespace s)
                (scene_constraint_leaf s "scaleConstraint" node) in
  emit (CmdsScaleConstraint target node cons);;
  modify (set_scene (with_nodes (λ l, l ++ [cons])));;
  ret [cons].

Definition bakeResults (nodes : list string) (time : Z * Z) : M unit :=
  emit (CmdsBakeResults nodes time).

(** [cmds.setKeyframe(chan, time=t, insert=True)] *)
Definition setKeyframe (chan : string) (time : Z) : M unit :=
  emit (CmdsSetKeyframe chan time).

Definition loadPlugin (name : string) : M unit :=
  emit (CmdsLoadPlugin name).

End cmds.

Module mel.

(** [mel.eval(script)].  The one command the script evaluates this way,
    [DeleteAllStaticChannels], removes the static animation curves.
    Animation curves are present in the scene of the model only as the
    drivers of channels ([scene_anim_curves]), not among [scene_nodes]:
    removing them takes them off the channels they drive. *)
Definition eval (script : string) : M unit :=
  emit (MelEval script);;
  if bool_decide (script = "DeleteAllStaticChannels") then
    modify (set_scene (λ s,
      cmds.with_anim_curves
        (λ chan, List.filter (λ c, negb (scene_static_curve s c))
                   (scene_anim_curves s chan)) s))
  else ret tt.

(** [mel.eval(script)] for the export script of [_fbx_export_selection],
    which ends in [FBXExport -f "fbx" -s;]: the plug-in writes the selection
    to the file [fbx]. *)
Definition eval_FBXExport (script fbx : string) : M unit :=
  let* sel := cmds.ls_selection in
  emit (FbxExport script fbx sel);;
  modify (set_fs (λ f, {| fs_files := {[fbx]} ∪ fs_files f; fs_dirs := fs_dirs f |})).

End mel.

(** ** The script *)

(** [_Path]: a path on disk. *)
Module _Path.

Record t := {
  path : string;
  dir : string;
  filename : string;
  extn : option string;
  basename : string;
}.

Definition __init__ `{OsPath} (path : string) : t :=
  let filename := os_path_basename path in
  if Py.contains "." filename then
    let _tokens := Py.split "." filename in
    {| path := path; dir := os_path_dirname path; filename := filename;
       extn := Some (List.last _tokens "");
       basename := Py.join "." (Py.init _tokens) |}
  else
    {| path := path; dir := os_path_dirname path; filename := filename;
       extn := None; basename := filename |}.

End _Path.

Definition _abs_path `{OsPath} (path : string) : string :=
  Py.replace Py.backslash "/" (os_path_abspath path).

(** [_lprint]: with [verbose=0] nothing is printed and no argument is
    converted to a string; otherwise [str] is applied to each argument. *)
Definition _lprint (args : list (M string)) (verbose : Z) : M unit :=
  if (verbose =? 0)%Z then ret tt
  else for_each args (λ a, a;; ret tt).

Definition _set_namespace (namespace : string) (clean : bool) : M unit :=
  let _namespace := namespace in
  (if Py.startswith ":" _namespace then ret tt else raise AssertionError);;
  (if clean then
     let* _nodes := cmds.ls (_namespace +:+ ":*") false in
     if Py.truthy_list _nodes then cmds.delete _nodes else ret tt
   else ret tt);;
  let* ex := cmds.namespace_exists _namespace in
  (if negb ex then cmds.namespace_addNamespace _namespace else ret tt);;
  cmds.namespace_setNamespace _namespace.

(** [_fbx_export_selection]: the FBX export of the selected nodes. *)
Definition fbx_script (fbx : string) : string :=
  Py.join Py.nl [
    "FBXResetExport;";
    "FBXExportFileVersion -v " +:+ Py.dquote +:+ "FBX201400" +:+ Py.dquote +:+ ";";
    "FBXExportSmoothingGroups -v true;";
    "FBXExportShapes -v true;";
    "FBXExportSkins -v true;";
    "FBXExportTangents -v true;";
    "FBXExportSmoothMesh -v false;";
    "FBXExportBakeComplexAnimation -v true;";
    "FBXExport -f " +:+ Py.dquote +:+ fbx +:+ Py.dquote +:+ " -s;"
  ].

Definition _fbx_export_selection `{OsPath} (fbx : string) (range_ : Z * Z)
    (add_border_keys : bool) : M unit :=
  let* _nodes := cmds.ls_selection in
  let '(_start, _end) := range_ in
  (if add_border_keys then
     mel.eval "DeleteAllStaticChannels";;
     for_each _nodes (λ _node,
       let* keyable := cmds.listAttr_keyable _node in
       let _attrs := default [] keyable in
       for_each _attrs (λ _attr,
         if Py.contains "." _attr then ret tt
         else
           let _chan := _node +:+ "." +:+ _attr in
           let* curves := cmds.listConnections_animCurve _chan in
           if negb (Py.truthy_list curves) then ret tt
           else
             cmds.setKeyframe _chan _start;;
             cmds.setKeyframe _chan _end))
   else ret tt);;
  let _dir := os_path_dirname fbx in
  let* e := os.path_exists _dir in
  (if negb e then os.makedirs _dir else ret tt);;
  let _mel := fbx_script fbx in
  cmds.loadPlugin "fbxmaya";;
  mel.eval_FBXExport _mel fbx.

(** [_Camera]: a camera of the scene, its transform and its shape. *)
Module _Camera.

Record t := {
  tfm : string;
  shp : string;
}.

Definition __init__ (tfm : string) : M t :=
  let* shapes := cmds.listRelatives_shapes tfm in
  match shapes with
  | None => raise TypeError
  | Some [] => raise IndexError
  | Some (shp :: _) => ret {| tfm := tfm; shp := shp |}
  end.

Definition name (self : t) : string :=
  if Py.contains ":" (tfm self) then hd "" (Py.split ":" (tfm self))
  else tfm self.

Definition find_nodes (self : t) : list string :=
  [tfm self; shp self].

End _Camera.

(** [_Rig]: a file referenced into the scene. *)
Module _Rig.

Record t := {
  ref_node : string;
}.

Definition __init__ (ref_node : string) : t :=
  {| ref_node := ref_node |}.

Definition _file (self : t) : M (option string) :=
  try_except
    (let* f := cmds.referenceQuery_filename (ref_node self) in ret (Some f))
    RuntimeError
    (ret None).

Definition namespace (self : t) : M string :=
  let* f := _file self in
  cmds.file_query_namespace f.

Definition name (self : t) : M string :=
  namespace self.

Definition find_nodes (self : t) : M (list string) :=
  let* ns := namespace self in
  cmds.ls (ns +:+ ":*") true.

End _Rig.

(** The two kinds of exportable; [isinstance] is a match. *)
Inductive Exportable :=
  | Camera (c : _Camera.t)
  | Rig (r : _Rig.t).

Module _Exportable.

Definition name (self : Exportable) : M string :=
  match self with
  | Camera c => ret (_Camera.name c)
  | Rig r => _Rig.name r
  end.

Definition find_nodes (self : Exportable) : M (list string) :=
  match self with
  | Camera c => ret (_Camera.find_nodes c)
  | Rig r => _Rig.find_nodes r
  end.

(** [nodes or self.find_nodes()]: an override that is [None] or empty is
    not used. *)
Definition export_fbx `{OsPath} (self : Exportable) (fbx : string)
    (range_ : Z * Z) (nodes : option (list string)) (add_border_keys : bool)
    : M unit :=
  let* _nodes :=
    match nodes with
    | Some (n :: ns) => ret (n :: ns)
    | _ => find_nodes self
    end in
  cmds.select _nodes;;
  _fbx_export_selection fbx range_ add_border_keys.

Definition __repr__ (self : Exportable) : M string :=
  let* n := name self in
  ret ("<" +:+ match self with Camera _ => "Camera" | Rig _ => "Rig" end
       +:+ ":" +:+ n +:+ ">").

End _Exportable.

(** [_Camera.export_fbx_in_world_space] *)
Definition export_fbx_in_world_space `{OsPath} (self : _Camera.t) (fbx : string)
    (range_ : Z * Z) (add_border_keys cleanup : bool) : M unit :=
  _set_namespace ":export_tmp" true;;
  let* dups := cmds.duplicate (_Camera.tfm self) in
  let* dup0 := match dups with [] => raise IndexError | d :: _ => ret d end in
  let* _dup := _Camera.__init__ dup0 in
  let* par := cmds.listRelatives_parent (_Camera.tfm _dup) in
  (if Py.truthy_list (default [] par)
   then cmds.parent_world (_Camera.tfm _dup) else ret tt);;
  let* keyable := cmds.listAttr_keyable (_Camera.shp self) in
  match keyable with
  | None => raise TypeError
  | Some attrs =>
      for_each attrs (λ _attr,
        let* _type := cmds.attributeQuery_attributeType _attr (_Camera.shp self) in
        if Py.mem _type ["message"] then ret tt
        else cmds.connectAttr (_Camera.shp self +:+ "." +:+ _attr)
                              (_Camera.shp _dup +:+ "." +:+ _attr));;
      let* pcs := cmds.parentConstraint (_Camera.tfm self) (_Camera.tfm _dup) in
      let* _p_cons := match pcs with [] => raise IndexError | c :: _ => ret c end in
      let* scs := cmds.scaleConstraint (_Camera.tfm self) (_Camera.tfm _dup) in
      let* _s_cons := match scs with [] => raise IndexError | c :: _ => ret c end in
      cmds.bakeResults [_Camera.tfm _dup; _Camera.shp _dup] range_;;
      cmds.delete [_p_cons; _s_cons];;
      mel.eval "DeleteAllStaticChannels";;
      _Exportable.export_fbx (Camera _dup) fbx range_ None add_border_keys;;
      (if cleanup then _set_namespace ":export_tmp" true else ret tt);;
      _set_namespace ":" false
  end.

(** [_export_fbxs].  The parent dialog only places the progress bar on the
    screen and is left out; [roots] is [None] by default. *)
Definition fbx_path `{OsPath} (dir_ _cur_scene name : string) : string :=
  _abs_path (dir_ +:+ "/A_" +:+ _Path.basename (_Path.__init__ _cur_scene)
             +:+ "_" +:+ name +:+ ".fbx").

Definition create_dir_msg (dir_ : string) : string :=
  "Create dir?" +:+ Py.nl +:+ Py.nl +:+ dir_.

Definition replace_msg (_to_delete : list string) : string :=
  "Replace " +:+ pretty (length _to_delete) +:+ " existing fbxs?"
  +:+ Py.nl +:+ Py.nl +:+ "   " +:+ Py.join (Py.nl +:+ "   ") _to_delete.

Definition no_roots_msg (namespace : string) (_possible_nodes : list string) : string :=
  "No root nodes exist in " +:+ namespace +:+ ":" +:+ Py.nl +:+ Py.nl +:+ "   "
  +:+ Py.join (Py.nl +:+ "   ") _possible_nodes
  +:+ Py.nl +:+ Py.nl +:+ "Nothing was exported.".

(** The body of the export loop, for one exportable and its path. *)
Definition export_one `{OsPath} (range_ : Z * Z)
    (add_border_keys bake_cams_in_world : bool) (roots : option (list string))
    (item : Exportable * string) : M unit :=
  let '(_exp, _fbx) := item in
  match _exp, bake_cams_in_world, roots with
  | Camera c, true, _ =>
      export_fbx_in_world_space c _fbx range_ add_border_keys true
  | Rig r, _, Some (root :: roots') =>
      let roots := root :: roots' in
      let* _possible_nodes :=
        for_fold roots [] (λ _root acc,
          let* ns := _Rig.namespace r in
          ret (acc ++ [ns +:+ ":" +:+ _root])) in
      let* _nodes :=
        for_fold _possible_nodes [] (λ _node acc,
          let* e := cmds.objExists _node in
          ret (if e then acc ++ [_node] else acc)) in
      if negb (Py.truthy_list _nodes) then
        let* ns := _Rig.namespace r in
        _notify (no_roots_msg ns _possible_nodes) "Warning";;
        ret tt
      else
        _Exportable.export_fbx _exp _fbx range_ (Some _nodes) add_border_keys
  | _, _, _ =>
      _Exportable.export_fbx _exp _fbx range_ None add_border_keys
  end.

Definition _export_fbxs `{OsPath} (exportables : list Exportable) (dir_ : string)
    (range_ : Z * Z) (add_border_keys bake_cams_in_world : bool)
    (roots : option (list string)) : M unit :=
  let* _cur_scene := cmds.file_query_location in
  (* Find export paths *)
  let* (_to_delete, _exports) :=
    for_fold exportables ([], []) (fun _exp '(_to_delete, _exports) =>
      let* name := _Exportable.name _exp in
      let _fbx := fbx_path dir_ _cur_scene name in
      let _exports := _exports ++ [(_exp, _fbx)] in
      let* e := os.path_exists _fbx in
      ret (if e then _to_delete ++ [_fbx] else _to_delete, _exports)) in
  if negb (Py.truthy_list _exports) then
    _notify "Nothing selected to export" "Confirm";;
    ret tt
  else
    (* Make sure export path exists *)
    let* e := os.path_exists dir_ in
    (if negb e then
       _ok_cancel (create_dir_msg dir_) "Confirm";;
       os.makedirs dir_
     else ret tt);;
    (* Warn on overwrite *)
    (if Py.truthy_list _to_delete then
       _ok_cancel (replace_msg _to_delete) "Confirm";;
       for_each _to_delete os.remove
     else ret tt);;
    (* Execute export *)
    let _title := "Exporting " +:+ pretty (length _exports) +:+ " fbxs" in
    let* bar := _ProgressBar.__init__ _exports _title in
    _ProgressBar.for_in (S (length _exports)) bar
      (export_one range_ add_border_keys bake_cams_in_world roots).

(** [_find_rigs] *)
Fixpoint has_root (_ref : _Rig.t) (roots : list string) : M bool :=
  match roots with
  | [] => ret false
  | _root :: roots' =>
      let* ns := _Rig.namespace _ref in
      let _node := ns +:+ ":" +:+ _root in
      let* e := cmds.objExists _node in
      if e then ret true else has_root _ref roots'
  end.

(** The body of the loop of [_find_rigs], for one reference node. *)
Definition find_rigs_body (roots : list string) (verbose : Z)
    (_ref_node : string) (_refs : list _Rig.t) : M (list _Rig.t) :=
  let* made :=
    try_except (ret (Some (_Rig.__init__ _ref_node))) ValueError (ret None) in
  match made with
  | None => ret _refs
  | Some _ref =>
      _lprint [ret "TESTING"; _Exportable.__repr__ (Rig _ref)] verbose;;
      let* f := _Rig._file _ref in
      if negb (Py.truthy_str (default "" f)) then
        _lprint [ret " - NO FILE"; _Exportable.__repr__ (Rig _ref)] verbose;;
        ret _refs
      else
      let* loaded := cmds.referenceQuery_isLoaded _ref_node in
      if negb loaded then
        _lprint [ret " - NOT LOADED"; _Exportable.__repr__ (Rig _ref)] verbose;;
        ret _refs
      else
      let* parent_ns := cmds.referenceQuery_parentNamespace_0 _ref_node in
      if Py.truthy_str parent_ns then
        _lprint [ret " - HAS PARENT"; _Exportable.__repr__ (Rig _ref)] verbose;;
        ret _refs
      else
      (* Test for root node *)
      let* _ref_has_root := has_root _ref roots in
      if negb _ref_has_root then
        _lprint [ret " - NO ROOT"] verbose;;
        ret _refs
      else
        _lprint [ret " - IS RIG"] verbose;;
        ret (_refs ++ [_ref])
  end.

Definition _find_rigs (roots : list string) (verbose : Z) : M (list _Rig.t) :=
  let* ref_nodes := cmds.ls_type_reference in
  for_fold ref_nodes [] (find_rigs_body roots verbose).

(** ** The settings of the dialog *)

Module _FbxExporterUi.

(** A value stored in the [QSettings] object. *)
Inductive QVariant :=
  | VBool (b : bool)
  | VString (s : string).

(** The widgets that [getattr] finds on the interface object. *)
Inductive Widget :=
  | QCheckBox (checked : bool)
  | QLineEdit (text : string)
  | QSpinBox (value : Z)
  | QOther.

(** The state of the form and of its settings object. *)
Record t := {
  path : string;
  roots : string;
  start : Z;
  end_ : Z;
  show_default_cams : bool;
  bake_cams_in_world : bool;
  add_border_keys : bool;
  _settings : gmap string QVariant;
}.

Definition _save_attrs : list string :=
  ["add_border_keys"; "bake_cams_in_world"; "path"; "show_default_cams"; "roots"].

Definition getattr (self : t) (attr : string) : option Widget :=
  if bool_decide (attr = "path") then Some (QLineEdit (path self))
  else if bool_decide (attr = "roots") then Some (QLineEdit (roots self))
  else if bool_decide (attr = "start") then Some (QSpinBox (start self))
  else if bool_decide (attr = "end") then Some (QSpinBox (end_ self))
  else if bool_decide (attr = "show_default_cams")
       then Some (QCheckBox (show_default_cams self))
  else if bool_decide (attr = "bake_cams_in_world")
       then Some (QCheckBox (bake_cams_in_world self))
  else if bool_decide (attr = "add_border_keys")
       then Some (QCheckBox (add_border_keys self))
  else if Py.mem attr ["main_layout"; "browse"; "exportables"; "export"]
       then Some QOther
  else None.

(** [getattr(self, attr).setChecked(b)] *)
Definition setChecked (attr : string) (b : bool) (self : t) : t :=
  {| path := path self; roots := roots self;
     start := start self; end_ := end_ self;
     show_default_cams :=
       if bool_decide (attr = "show_default_cams") then b else show_default_cams self;
     bake_cams_in_world :=
       if bool_decide (attr = "bake_cams_in_world") then b else bake_cams_in_world self;
     add_border_keys :=
       if bool_decide (attr = "add_border_keys") then b else add_border_keys self;
     _settings := _settings self |}.

(** [getattr(self, attr).setText(s)] *)
Definition setText (attr : string) (s : string) (self : t) : t :=
  {| path := if bool_decide (attr = "path") then s else path self;
     roots := if bool_decide (attr = "roots") then s else roots self;
     start := start self; end_ := end_ self;
     show_default_cams := show_default_cams self;
     bake_cams_in_world := bake_cams_in_world self;
     add_border_keys := add_border_keys self;
     _settings := _settings self |}.

(** [self._settings.setValue(key, val)] *)
Definition setValue (key : string) (val : QVariant) (self : t) : t :=
  {| path := path self; roots := roots self;
     start := start self; end_ := end_ self;
     show_default_cams := show_default_cams self;
     bake_cams_in_world := bake_cams_in_world self;
     add_border_keys := add_border_keys self;
     _settings := <[key := val]> (_settings self) |}.

(** The settings object of a later session, read back from the INI file: a
    boolean comes back as the string ['true'] or ['false']. *)
Definition from_ini (val : QVariant) : QVariant :=
  match val with
  | VBool true => VString "true"
  | VBool false => VString "false"
  | VString s => VString s
  end.

Definition reopen (settings : gmap string QVariant) : gmap string QVariant :=
  from_ini <$> settings.

Definition with_settings (settings : gmap string QVariant) (self : t) : t :=
  {| path := path self; roots := roots self;
     start := start self; end_ := end_ self;
     show_default_cams := show_default_cams self;
     bake_cams_in_world := bake_cams_in_world self;
     add_border_keys := add_border_keys self;
     _settings := settings |}.

(** A loop over the saved attributes that may raise. *)
Fixpoint for_attrs (attrs : list string) (self : t)
    (body : string → t → Result t) : Result t :=
  match attrs with
  | [] => Ok self
  | a :: attrs' =>
      match body a self with
      | Ok self' => for_attrs attrs' self' body
      | Raise e => Raise e
      end
  end.

Definition save_settings (self : t) : Result t :=
  for_attrs _save_attrs self (λ _attr self,
    match getattr self _attr with
    | None => Raise AttributeError
    | Some (QCheckBox checked) => Ok (setValue _attr (VBool checked) self)
    | Some (QLineEdit text) => Ok (setValue _attr (VString text) self)
    | Some _ => Raise ValueError
    end).

(** [{'true': True, 'false': False}.get(_val, _val)] *)
Definition true_false_get (_val : QVariant) : QVariant :=
  match _val with
  | VString s =>
      if bool_decide (s = "true") then VBool true
      else if bool_decide (s = "false") then VBool false
      else _val
  | VBool _ => _val
  end.

Definition load_settings (self : t) : Result t :=
  for_attrs _save_attrs self (λ _attr self,
    match getattr self _attr with
    | None => Raise AttributeError
    | Some _elem =>
        match _settings self !! _attr with
        | None => Ok self
        | Some _val =>
            match _elem with
            | QCheckBox _ =>
                match true_false_get _val with
                | VBool b => Ok (setChecked _attr b self)
                | VString _ => Ok self
                end
            | QLineEdit _ =>
                match _val with
                | VString s => Ok (setText _attr s self)
                | VBool _ => Raise TypeError
                end
            | _ => Raise ValueError
            end
        end
    end).

End _FbxExporterUi.

(** ** Specification-side definitions *)

(** The value the bar is given when [remaining] of [total] items are left:
    the double [(1.0 - 1.0*remaining/total)*100]. *)
Definition bar_value (remaining total : nat) : PrimFloat.float :=
  ((1 - 1 * Py.float remaining / Py.float total) * Py.float 100)%float.

(** The loop as the specification describes it: at every step the event
    queue is pumped; while items remain, the next item of the list is taken,
    the bar is given its value for the items left and the body runs on the
    item; when none remains, the dialog is closed. *)
Fixpoint pumped_loop {A} (total : nat) (l : list A)
    (body : A → M unit) : M unit :=
  match l with
  | [] => emit ProcessEvents;; emit ProgressClose
  | x :: rest =>
      emit ProcessEvents;;
      emit (ProgressSetValue (bar_value (length rest) total));;
      body x;;
      pumped_loop total rest body
  end.

(** The exact percentage of [completed] items out of [total] is [percent]:
    [100 * completed = percent * total]. *)
Definition is_percentage (completed total : nat) (percent : Z) : Prop :=
  (100 * Z.of_nat completed = percent * Z.of_nat total)%Z.

(** A run of the bar over ten items with a body that does nothing. *)
Definition ten_items : list nat := seq 0 10.

(** The button the user clicks on the next message box, the world once the
    box is closed, and what [get_result] makes of the click. *)
Definition next_click (w : World) : nat := user_clicks (user w) (user_seen (user w)).

Definition after_click (w : World) : World :=
  set_user (λ u, {| user_clicks := user_clicks u; user_seen := S (user_seen u) |}) w.

Definition clicked_result (buttons : list string) (k : nat) : Result string :=
  match buttons !! k with
  | None => Raise IndexError
  | Some b => if bool_decide (b = "Cancel") then Raise RuntimeError else Ok b
  end.

(** ** A platform and a scene to run the script on *)

(** [posixpath], for a process whose working directory is [cwd]. *)
Module posixpath.

Definition basename (p : string) : string :=
  List.last (Py.split "/" p) "".

Fixpoint rstrip_slash_rev (l : list string) : list string :=
  match l with
  | EmptyString :: l' => rstrip_slash_rev l'
  | _ => l
  end.

(** [head = p[:p.rfind('/')+1]], stripped of its trailing slashes unless it
    consists of slashes only. *)
Definition dirname (p : string) : string :=
  let comps := Py.init (Py.split "/" p) in
  match comps with
  | [] => ""
  | _ =>
      match rstrip_slash_rev (rev comps) with
      | [] => Py.join "/" comps +:+ "/"
      | kept => Py.join "/" (rev kept)
      end
  end.

Definition normpath_step (initial_slashes : nat) (new_comps : list string)
    (comp : string) : list string :=
  if bool_decide (comp = "") || bool_decide (comp = ".") then new_comps
  else if negb (bool_decide (comp = ".."))
          || (bool_decide (initial_slashes = 0%nat) && negb (Py.truthy_list new_comps))
          || bool_decide (List.last new_comps "" = "..") && Py.truthy_list new_comps
  then new_comps ++ [comp]
  else Py.init new_comps.

Definition normpath (path : string) : string :=
  if bool_decide (path = "") then "."
  else
    let initial_slashes :=
      if Py.startswith "/" path then
        if Py.startswith "//" path && negb (Py.startswith "///" path)
        then 2%nat else 1%nat
      else 0%nat in
    let comps := fold_left (normpath_step initial_slashes) (Py.split "/" path) [] in
    let path := Py.join "" (replicate initial_slashes "/") +:+ Py.join "/" comps in
    if bool_decide (path = "") then "." else path.

Definition abspath (cwd path : string) : string :=
  if Py.startswith "/" path then normpath path
  else normpath (cwd +:+ "/" +:+ path).

End posixpath.

Definition posix (cwd : string) : OsPath :=
  {| os_path_abspath := posixpath.abspath cwd;
     os_path_dirname := posixpath.dirname;
     os_path_basename := posixpath.basename |}.

(** A shot: a camera under a group, the default camera, two rigs that are
    referenced, a reference whose file name is empty and the shared
    reference node, which has no file. *)
Module Shot.

Definition leaf (name : string) : string := List.last (Py.split ":" name) "".

Definition maya : Scene :=
  {| scene_location := "/proj/shots/sh010.ma";
     scene_nodes :=
       ["persp"; "perspShape"; "camGroup"; "shotcam"; "shotcamShape";
        "hero:JNT_Grp"; "hero:body"; "hero:notes"; "prop:geo"; "ghost:JNT_Grp"];
     scene_referenced := λ n,
       Py.startswith "hero:" n && negb (bool_decide (n = "hero:notes"))
       || Py.startswith "prop:" n;
     scene_selection := ["persp"];
     scene_keyable := λ n,
       if bool_decide (leaf n = "shotcamShape") then Some ["focalLength"; "lensLink"]
       else if bool_decide (n = "hero:notes") then None
       else Some ["translateX"; "rotateY"; "blend.weight"];
     scene_attr_type := λ n a,
       if bool_decide (a = "lensLink") then "message" else "double";
     scene_anim_curves := λ chan,
       if bool_decide (chan = "hero:JNT_Grp.translateX") then ["JNT_Grp_translateX"]
       else if bool_decide (chan = "hero:JNT_Grp.blend.weight") then ["JNT_Grp_weight"]
       else if bool_decide (chan = "hero:body.rotateY") then ["body_rotateY"]
       else if bool_decide (chan = "export_tmp:shotcam.translateX")
            then ["shotcam_translateX"]
       else [];
     scene_static_curve := λ c, bool_decide (c = "body_rotateY");
     scene_references := ["heroRN"; "propRN"; "ghostRN"; "sharedReferenceNode"];
     scene_ref_filename := λ r,
       if bool_decide (r = "heroRN") then Some "/assets/hero.ma"
       else if bool_decide (r = "propRN") then Some "/assets/prop.ma"
       else if bool_decide (r = "ghostRN") then Some ""
       else None;
     scene_ref_loaded := λ _, true;
     scene_ref_parent_namespace := λ _, "";
     scene_file_namespace := λ f,
       if bool_decide (f = Some "/assets/hero.ma") then "hero"
       else if bool_decide (f = Some "/assets/prop.ma") then "prop"
       else "ghost";
     scene_namespaces := ["hero"; "prop"; "ghost"];
     scene_current_namespace := ":";
     scene_shapes := λ n,
       if bool_decide (n = "shotcam") then Some ["shotcamShape"]
       else if bool_decide (n = "persp") then Some ["perspShape"]
       else None;
     scene_parent := λ n,
       if bool_decide (n = "shotcam") then Some ["camGroup"] else None;
     scene_duplicate_leaf := leaf;
     scene_constraint_leaf := λ kind n, leaf n +:+ "_" +:+ kind +:+ "1" |}.

Definition disk : FileSystem :=
  {| fs_files := {["/out/A_sh010_prop.fbx"]};
     fs_dirs := {["/"; "/out"]} |}.

(** A user who closes every message box with its first button, Ok. *)
Definition says_ok : User := {| user_clicks := λ _, 0%nat; user_seen := 0 |}.

(** A user who confirms the first message box and cancels the second. *)
Definition cancels_second : User :=
  {| user_clicks := λ k, if bool_decide (k = 1%nat) then 1%nat else 0%nat;
     user_seen := 0 |}.

(** A user who cancels the first message box. *)
Definition cancels_first : User :=
  {| user_clicks := λ k, if bool_decide (k = 0%nat) then 1%nat else 0%nat;
     user_seen := 0 |}.

Definition world : World := {| fs := disk; scene := maya; user := says_ok |}.

Definition platform : OsPath := posix "/home/artist".

Definition shotcam : _Camera.t :=
  {| _Camera.tfm := "shotcam"; _Camera.shp := "shotcamShape" |}.
Definition hero : _Rig.t := _Rig.__init__ "heroRN".
Definition prop : _Rig.t := _Rig.__init__ "propRN".
Definition ghost : _Rig.t := _Rig.__init__ "ghostRN".

End Shot.

(** ** Specification-side definitions for rig enumeration *)

(** One of the root nodes exists under the namespace of the reference. *)
Definition has_root_node (w : World) (roots : list string) (ref_node : string) : Prop :=
  ∃ root, root ∈ roots
    ∧ (scene_file_namespace (scene w) (scene_ref_filename (scene w) ref_node)
       +:+ ":" +:+ root) ∈ scene_nodes (scene w).

(** The conditions under which a reference is listed as a rig: as the
    specification words them, and with the file path required to be a
    non-empty string. *)
Definition listed_as_rig_spec (w : World) (roots : list string) (ref_node : string) : Prop :=
  (∃ _rig : _Rig.t, _rig = _Rig.__init__ ref_node)
  ∧ (∃ f, scene_ref_filename (scene w) ref_node = Some f)
  ∧ scene_ref_loaded (scene w) ref_node = true
  ∧ scene_ref_parent_namespace (scene w) ref_node = ""
  ∧ has_root_node w roots ref_node.

Definition listed_as_rig (w : World) (roots : list string) (ref_node : string) : Prop :=
  (∃ _rig : _Rig.t, _rig = _Rig.__init__ ref_node)
  ∧ (∃ f, scene_ref_filename (scene w) ref_node = Some f ∧ f ≠ "")
  ∧ scene_ref_loaded (scene w) ref_node = true
  ∧ scene_ref_parent_namespace (scene w) ref_node = ""
  ∧ has_root_node w roots ref_node.

(** ** Specification-side definitions for the border keys *)

(** A channel is driven when an animation curve is connected to it once the
    static channels have been deleted. *)
Definition driven (w : World) (chan : string) : bool :=
  Py.truthy_list
    (List.filter (λ c, negb (scene_static_curve (scene w) c))
       (scene_anim_curves (scene w) chan)).

(** The channels that get border keys: the driven channels [node.attr] of
    the selected nodes, for their keyable attributes without a dot in the
    name. *)
Definition border_chans (w : World) : list string :=
  flat_map (λ node,
    flat_map (λ attr,
      if Py.contains "." attr then []
      else if driven w (node +:+ "." +:+ attr) then [node +:+ "." +:+ attr]
      else [])
      (default [] (scene_keyable (scene w) node)))
    (scene_selection (scene w)).

Definition border_keys (_start _end : Z) (chans : list string) : list Event :=
  flat_map (λ chan, [CmdsSetKeyframe chan _start; CmdsSetKeyframe chan _end]) chans.

(** The shot with the rig's root node selected. *)
Definition shot_root_selected : World :=
  set_scene (cmds.with_selection ["hero:JNT_Grp"]) Shot.world.

(** The world once [DeleteAllStaticChannels] has run, once a directory has
    been made and once a file has been written. *)
Definition static_deleted (w : World) : World :=
  set_scene (λ s,
    cmds.with_anim_curves
      (λ chan, List.filter (λ c, negb (scene_static_curve s c))
                 (scene_anim_curves s chan)) s) w.

Definition made_dir (d : string) (w : World) : World :=
  set_fs (λ f, {| fs_files := fs_files f; fs_dirs := {[d]} ∪ fs_dirs f |}) w.

Definition written (fbx : string) (w : World) : World :=
  set_fs (λ f, {| fs_files := {[fbx]} ∪ fs_files f; fs_dirs := fs_dirs f |}) w.

Definition path_exists_in (w : World) (p : string) : bool :=
  bool_decide (p ∈ fs_files (fs w)) || bool_decide (p ∈ fs_dirs (fs w)).

(** Events other than a selection and an export. *)
Definition selects_or_exports (ev : Event) : Prop :=
  match ev with
  | CmdsSelect _ | FbxExport _ _ _ => True
  | _ => False
  end.

(** The list that [export_fbx] selects: the override when it is given and
    not empty, the node list of the exportable otherwise. *)
Definition chosen_nodes (nodes : option (list string)) (node_list : list string)
    : list string :=
  match nodes with
  | Some (n :: ns) => n :: ns
  | _ => node_list
  end.

(** ** Specification-side definitions for the export *)

(** The namespace of a rig and the name of an exportable, in a world. *)
Definition rig_namespace (w : World) (r : _Rig.t) : string :=
  scene_file_namespace (scene w) (scene_ref_filename (scene w) (_Rig.ref_node r)).

Definition export_name (w : World) (e : Exportable) : string :=
  match e with
  | Camera c => _Camera.name c
  | Rig r => rig_namespace w r
  end.

(** The nodes [namespace:root] for the given root names, and those of a
    list of nodes that exist. *)
Definition possible_nodes (w : World) (r : _Rig.t) (roots : list string) : list string :=
  List.map (λ root, rig_namespace w r +:+ ":" +:+ root) roots.

Definition existing_nodes (w : World) (l : list string) : list string :=
  List.filter (λ n, bool_decide (n ∈ scene_nodes (scene w))) l.

(** The warning that no root node exists for a rig. *)
Definition no_roots_warning (w : World) (r : _Rig.t) (roots : list string) : Event :=
  MessageBoxExec "Warning"
    (no_roots_msg (rig_namespace w r) (possible_nodes w r roots))
    ["Ok"; "Cancel"] (next_click w).

(** The export is invoked by an event of the trace. *)
Definition is_export (ev : Event) : Prop :=
  match ev with
  | FbxExport _ _ _ => True
  | _ => False
  end.

(** The files that the FBX writer was asked to write, in order. *)
Definition exported_files (t : list Event) : list string :=
  flat_map (λ ev, match ev with FbxExport _ fbx _ => [fbx] | _ => [] end) t.

(** The shot with a user who confirms the first message box and cancels
    the second. *)
Definition shot_cancel_second : World :=
  set_user (λ _, Shot.cancels_second) Shot.world.

(** ** Specification-side definitions for the export in world space *)

(** The nodes of the temporary namespace. *)
Definition tmp_nodes (w : World) : list string :=
  List.filter (cmds.ls_match ":export_tmp:*") (scene_nodes (scene w)).

(** The world once nodes have been deleted, and once a namespace has been
    entered (and created when it did not exist). *)
Definition deleted (l : list string) (w : World) : World :=
  set_scene (cmds.with_nodes (List.filter (λ n, negb (Py.mem n l)))) w.

Definition namespace_known (w : World) (ns : string) : bool :=
  bool_decide (ns = ":") || bool_decide (ns ∈ scene_namespaces (scene w)).

Definition namespace_entered (ns : string) (w : World) : World :=
  set_scene (λ s,
    cmds.with_namespaces
      (if namespace_known w ns then scene_namespaces s else scene_namespaces s ++ [ns])
      ns s) w.

(** The nodes that match a pattern, the effect of [_set_namespace] and its
    trace. *)
Definition matching (pattern : string) (w : World) : list string :=
  List.filter (cmds.ls_match pattern) (scene_nodes (scene w)).

Definition namespace_cleaned (ns : string) (clean : bool) (w : World) : World :=
  if clean then
    match matching (ns +:+ ":*") w with
    | [] => w
    | l => deleted l w
    end
  else w.

Definition set_namespace_trace (ns : string) (clean : bool) (w : World) : list Event :=
  (if clean then
     match matching (ns +:+ ":*") w with
     | [] => []
     | l => [CmdsDelete l]
     end
   else [])
  ++ (if namespace_known w ns then [] else [CmdsNamespaceAdd ns])
  ++ [CmdsNamespaceSet ns].

(** The connections from the shape of a camera to the shape of its
    duplicate: one for each keyable attribute that is not of type
    [message]. *)
Definition connections (w : World) (shp dup_shp : string) (attrs : list string)
    : list Event :=
  flat_map (λ attr,
    if Py.mem (scene_attr_type (scene w) shp attr) ["message"] then []
    else [CmdsConnectAttr (shp +:+ "." +:+ attr) (dup_shp +:+ "." +:+ attr)])
    attrs.

(** The world once [export_fbx] has run on the chosen nodes. *)
Definition exported `{OsPath} (fbx : string) (add_border_keys : bool)
    (chosen : list string) (w : World) : World :=
  let w1 := set_scene (cmds.with_selection chosen) w in
  let w2 := if add_border_keys then static_deleted w1 else w1 in
  written fbx
    (if path_exists_in w1 (os_path_dirname fbx) then w2
     else made_dir (os_path_dirname fbx) w2).

(** The events of [_fbx_export_selection] before the export itself. *)
Definition export_prelude `{OsPath} (fbx : string) (s e : Z) (add_border_keys : bool)
    (w : World) : list Event :=
  (if add_border_keys
   then MelEval "DeleteAllStaticChannels" :: border_keys s e (border_chans w)
   else [])
  ++ (if path_exists_in w (os_path_dirname fbx) then []
      else [OsMakedirs (os_path_dirname fbx)]).

(** The duplicate of a camera in the temporary namespace, the shape of the
    duplicate and its two constraints. *)
Definition dup_tfm (w : World) (c : _Camera.t) : string :=
  cmds.qualify ":export_tmp" (scene_duplicate_leaf (scene w) (_Camera.tfm c)).

Definition dup_shapes (w : World) (c : _Camera.t) : option (list string) :=
  List.map (λ x, cmds.qualify ":export_tmp" (scene_duplicate_leaf (scene w) x))
    <$> scene_shapes (scene w) (_Camera.tfm c).

Definition dup_shp (w : World) (c : _Camera.t) : string :=
  hd "" (default [] (dup_shapes w c)).

Definition dup_constraint (w : World) (c : _Camera.t) (kind : string) : string :=
  cmds.qualify ":export_tmp" (scene_constraint_leaf (scene w) kind (dup_tfm w c)).

(** The world once a node has been duplicated, parented to the world, and
    given a constraint. *)
Definition duplicated (node : string) (w : World) : World :=
  let s := scene w in
  let ns := scene_current_namespace s in
  let dup := cmds.qualify ns (scene_duplicate_leaf s node) in
  let dup_shapes :=
    List.map (λ x, cmds.qualify ns (scene_duplicate_leaf s x)) <$> scene_shapes s node in
  set_scene (λ s,
    cmds.with_nodes (λ l, l ++ dup :: default [] dup_shapes)
      (cmds.with_relatives
         (λ n, if bool_decide (n = dup) then dup_shapes else scene_shapes s n)
         (λ n, if bool_decide (n = dup) then scene_parent s node else scene_parent s n)
         s)) w.

Definition parented_world (node : string) (w : World) : World :=
  set_scene (λ s,
    cmds.with_relatives (scene_shapes s)
      (λ n, if bool_decide (n = node) then None else scene_parent s n) s) w.

Definition constrained (cons : string) (w : World) : World :=
  set_scene (cmds.with_nodes (λ l, l ++ [cons])) w.

(** The worlds of the export in world space: when the temporary namespace
    has been entered, when the duplicate has been made and put under the
    world, and when it has been baked and its constraints deleted. *)
Definition world_tmp (w : World) : World :=
  namespace_entered ":export_tmp" (namespace_cleaned ":export_tmp" true w).

Definition world_dup (w : World) (c : _Camera.t) : World :=
  let w2 := duplicated (_Camera.tfm c) (world_tmp w) in
  if Py.truthy_list (default [] (scene_parent (scene w) (_Camera.tfm c)))
  then parented_world (dup_tfm w c) w2 else w2.

Definition world_baked (w : World) (c : _Camera.t) : World :=
  static_deleted
    (deleted [dup_constraint w c "parentConstraint"; dup_constraint w c "scaleConstraint"]
       (constrained (dup_constraint w c "scaleConstraint")
          (constrained (dup_constraint w c "parentConstraint") (world_dup w c)))).

Definition world_exported `{OsPath} (w : World) (c : _Camera.t) (fbx : string)
    (add_border_keys : bool) : World :=
  exported fbx add_border_keys [dup_tfm w c; dup_shp w c] (world_baked w c).

Definition world_final `{OsPath} (w : World) (c : _Camera.t) (fbx : string)
    (add_border_keys cleanup : bool) : World :=
  let w8 := world_exported w c fbx add_border_keys in
  namespace_entered ":"
    (if cleanup
     then namespace_entered ":export_tmp" (namespace_cleaned ":export_tmp" true w8)
     else w8).

(** The events of the export of a camera in world space, in order. *)
Definition world_space_trace `{OsPath} (w : World) (c : _Camera.t) (fbx : string)
    (s e : Z) (add_border_keys cleanup : bool) (attrs : list string) : list Event :=
  set_namespace_trace ":export_tmp" true w
  ++ [CmdsDuplicate (_Camera.tfm c) (dup_tfm w c)]
  ++ (if Py.truthy_list (default [] (scene_parent (scene w) (_Camera.tfm c)))
      then [CmdsParentWorld (dup_tfm w c)] else [])
  ++ connections w (_Camera.shp c) (dup_shp w c) attrs
  ++ [CmdsParentConstraint (_Camera.tfm c) (dup_tfm w c)
        (dup_constraint w c "parentConstraint");
      CmdsScaleConstraint (_Camera.tfm c) (dup_tfm w c)
        (dup_constraint w c "scaleConstraint");
      CmdsBakeResults [dup_tfm w c; dup_shp w c] (s, e);
      CmdsDelete [dup_constraint w c "parentConstraint";
                  dup_constraint w c "scaleConstraint"];
      MelEval "DeleteAllStaticChannels";
      CmdsSelect [dup_tfm w c; dup_shp w c]]
  ++ export_prelude fbx s e add_border_keys
       (set_scene (cmds.with_selection [dup_tfm w c; dup_shp w c]) (world_baked w c))
  ++ [CmdsLoadPlugin "fbxmaya";
      FbxExport (fbx_script fbx) fbx [dup_tfm w c; dup_shp w c]]
  ++ (if cleanup
      then set_namespace_trace ":export_tmp" true (world_exported w c fbx add_border_keys)
      else [])
  ++ [CmdsNamespaceSet ":"].

(** The parts of the scene that no command of the script changes. *)
Definition same_host (w w' : World) : Prop :=
  scene_location (scene w') = scene_location (scene w)
  ∧ scene_referenced (scene w') = scene_referenced (scene w)
  ∧ scene_keyable (scene w') = scene_keyable (scene w)
  ∧ scene_attr_type (scene w') = scene_attr_type (scene w)
  ∧ scene_static_curve (scene w') = scene_static_curve (scene w)
  ∧ scene_references (scene w') = scene_references (scene w)
  ∧ scene_ref_filename (scene w') = scene_ref_filename (scene w)
  ∧ scene_ref_loaded (scene w') = scene_ref_loaded (scene w)
  ∧ scene_ref_parent_namespace (scene w') = scene_ref_parent_namespace (scene w)
  ∧ scene_file_namespace (scene w') = scene_file_namespace (scene w)
  ∧ scene_duplicate_leaf (scene w') = scene_duplicate_leaf (scene w)
  ∧ scene_constraint_leaf (scene w') = scene_constraint_leaf (scene w).

(** The exportables with their paths, and the paths that exist before the
    export. *)
Definition export_paths `{OsPath} (w : World) (dir_ : string)
    (exportables : list Exportable) : list (Exportable * string) :=
  List.map (λ e, (e, fbx_path dir_ (scene_location (scene w)) (export_name w e)))
    exportables.

Definition to_delete `{OsPath} (w : World) (dir_ : string)
    (exportables : list Exportable) : list string :=
  List.filter (path_exists_in w) (List.map snd (export_paths w dir_ exportables)).

(** Kinds of events. *)
Definition is_remove (ev : Event) : Prop :=
  match ev with OsRemove _ => True | _ => False end.

Definition is_makedirs (ev : Event) : Prop :=
  match ev with OsMakedirs _ => True | _ => False end.

Definition is_confirmation (ev : Event) : Prop :=
  match ev with MessageBoxExec title _ _ _ => title = "Confirm" | _ => False end.

Definition changes_files (ev : Event) : Prop :=
  match ev with
  | OsMakedirs _ | OsRemove _ | FbxExport _ _ _ => True
  | _ => False
  end.

(** Every event of a kind is preceded in the trace by the event [g]. *)
Definition preceded_by (g : Event) (P : Event → Prop) (t : list Event) : Prop :=
  ∀ pre ev post, t = pre ++ ev :: post → P ev → g ∈ pre.

(** All the events of all the runs of a computation have a property. *)
Definition emits {A} (P : Event → Prop) (m : M A) : Prop :=
  ∀ w, Forall P (trace_of (m w)).

(** The two confirmations of the export. *)
Definition create_dir_box (dir_ : string) (clicked : nat) : Event :=
  MessageBoxExec "Confirm" (create_dir_msg dir_) ["Ok"; "Cancel"] clicked.

Definition replace_box (_to_delete : list string) (clicked : nat) : Event :=
  MessageBoxExec "Confirm" (replace_msg _to_delete) ["Ok"; "Cancel"] clicked.

(** The two parts of [_export_fbxs] that follow the search for the paths:
    the confirmations, and the loop over the exports. *)
Definition confirm_phase (dir_ : string) (_to_delete : list string) : M unit :=
  let* e := os.path_exists dir_ in
  (if negb e then
     _ok_cancel (create_dir_msg dir_) "Confirm";;
     os.makedirs dir_
   else ret tt);;
  (if Py.truthy_list _to_delete then
     _ok_cancel (replace_msg _to_delete) "Confirm";;
     for_each _to_delete os.remove
   else ret tt).

Definition export_loop `{OsPath} (range_ : Z * Z) (add_border_keys bake : bool)
    (roots : option (list string)) (_exports : list (Exportable * string)) : M unit :=
  let _title := "Exporting " +:+ pretty (length _exports) +:+ " fbxs" in
  let* bar := _ProgressBar.__init__ _exports _title in
  _ProgressBar.for_in (S (length _exports)) bar
    (export_one range_ add_border_keys bake roots).

(** A trace without a removal and without a confirmation. *)
Definition quiet_loop (t : list Event) : Prop :=
  Forall (λ ev, ¬ is_remove ev ∧ ¬ is_confirmation ev) t.

(** The shot with a user who cancels the first message box. *)
Definition shot_cancel_first : World :=
  set_user (λ _, Shot.cancels_first) Shot.world.

(** The shot with a camera that an earlier export in world space has left
    in the temporary namespace. *)
Definition shot_left_behind : World :=
  set_scene (λ s,
    cmds.with_nodes (λ l, l ++ ["export_tmp:shotcam"; "export_tmp:shotcamShape"])
      (cmds.with_relatives
         (λ n, if bool_decide (n = "export_tmp:shotcam")
               then Some ["export_tmp:shotcamShape"] else scene_shapes s n)
         (scene_parent s) s)) Shot.world.

(** ** Specification-side definitions for the export of a list *)

(** An exportable is skipped when it is a rig, root names are given and
    none of the root nodes exists. *)
Definition skipped (w : World) (roots : option (list string)) (e : Exportable) : bool :=
  match e, roots with
  | Rig r, Some (root :: roots') =>
      negb (Py.truthy_list (existing_nodes w (possible_nodes w r (root :: roots'))))
  | _, _ => false
  end.

(** The paths of the exportables that are not skipped, in order. *)
Definition expected_files `{OsPath} (w : World) (dir_ : string)
    (roots : option (list string)) (exportables : list Exportable) : list string :=
  List.map (λ e, fbx_path dir_ (scene_location (scene w)) (export_name w e))
    (List.filter (λ e, negb (skipped w roots e)) exportables).

(** The scene has the same nodes and the same answers of the host. *)
Definition same_scene (w w' : World) : Prop :=
  same_host w w'
  ∧ ∀ n, n ∈ scene_nodes (scene w') ↔ n ∈ scene_nodes (scene w).

(** ** Further functions of the script *)

(** [_get_ns]: the namespace of a node, read off its name. *)
Definition _get_ns (node : string) : string :=
  hd "" (Py.split ":" (List.last (Py.split "|" node) "")).

(** [_restore_sel]: the decorator; [func] is the call of the decorated
    function on the arguments given. *)
Definition _restore_sel {A} (func : M A) : M A :=
  let* _sel := cmds.ls_selection in
  let* _result := func in
  let* _sel :=
    for_fold _sel [] (λ _node acc,
      let* e := cmds.objExists _node in
      ret (if e then acc ++ [_node] else acc)) in
  (if Py.truthy_list _sel then cmds.select _sel else ret tt);;
  ret _result.

(** [cmds.ls(type='camera')]: the scene does not record the types of its
    nodes; [is_camera] is the test of the host for a camera shape. *)
Definition cmds_ls_type_camera (is_camera : string → bool) : M (list string) :=
  gets (λ w, List.filter is_camera (scene_nodes (scene w))).

(** [_find_cams] *)
Definition _find_cams (is_camera : string → bool) (default : bool)
    : M (list _Camera.t) :=
  let* shapes := cmds_ls_type_camera is_camera in
  for_fold shapes [] (λ _shp _cams,
    let* parents := cmds.listRelatives_parent _shp in
    let* _tfm := match parents with
                 | None => raise TypeError
                 | Some [] => raise IndexError
                 | Some (p :: _) => ret p
                 end in
    if negb default && Py.mem _tfm ["persp"; "top"; "front"; "side"] then ret _cams
    else
      let* _cam := _Camera.__init__ _tfm in
      ret (_cams ++ [_cam])).

(** A camera that [_find_cams] is to list for a camera shape of the scene:
    its transform is the first parent of the shape, not one of the default
    cameras unless these are asked for, and its shape is the first shape of
    the transform. *)
Definition camera_of (w : World) (default : bool) (shp : string) (c : _Camera.t)
    : Prop :=
  (∃ rest, scene_parent (scene w) shp = Some (_Camera.tfm c :: rest))
  ∧ (default = false → _Camera.tfm c ∉ ["persp"; "top"; "front"; "side"])
  ∧ ∃ rest, scene_shapes (scene w) (_Camera.tfm c) = Some (_Camera.shp c :: rest).

(** [re.split('[ ,]', s)]: the pieces of [s] between the characters that
    are a space or a comma; never empty, [re.split('[ ,]', '') == ['']]. *)
Module re.

Fixpoint split_space_comma (s : string) : list string :=
  match s with
  | EmptyString => [EmptyString]
  | String a s' =>
      if Ascii.eqb a " " || Ascii.eqb a "," then EmptyString :: split_space_comma s'
      else match split_space_comma s' with
           | [] => [String a EmptyString]
           | t :: ts => String a t :: ts
           end
  end.

End re.

(** [_FbxExporter]: the dialog.  Its state is the form; [selected] is the
    data of the selected items of the list of exportables. *)
Module _FbxExporter.

(** [_callback__export]: the form once the settings are saved, and the run
    of the export. *)
Definition _callback__export `{OsPath} (ui : _FbxExporterUi.t)
    (selected : list Exportable) (w : World)
    : Result (_FbxExporterUi.t * (Result unit * World * list Event)) :=
  match _FbxExporterUi.save_settings ui with
  | Raise e => Raise e
  | Ok ui =>
      let _dir := _abs_path (_FbxExporterUi.path ui) in
      let _start := _FbxExporterUi.start ui in
      let _end := _FbxExporterUi.end_ ui in
      let _bake_cams_in_world := _FbxExporterUi.bake_cams_in_world ui in
      let _add_border_keys := _FbxExporterUi.add_border_keys ui in
      let _exportables := selected in
      let _roots := re.split_space_comma (_FbxExporterUi.roots ui) in
      Ok (ui, _export_fbxs _exportables _dir (_start, _end) _add_border_keys
                _bake_cams_in_world (Some _roots) w)
  end.

End _FbxExporter.

(** ** Specification-side definitions for the further properties *)

(** An event of the export stays on the targets: a file written or removed
    is one of the target paths, written by the export script of that path,
    and a call of [os.makedirs] has as its argument the export directory or
    the directory of a target path. *)
Definition on_targets `{OsPath} (dir_ : string) (targets : list string)
    (ev : Event) : Prop :=
  match ev with
  | FbxExport script p _ => p ∈ targets ∧ script = fbx_script p
  | OsRemove p => p ∈ targets
  | OsMakedirs d => d = dir_ ∨ ∃ p, p ∈ targets ∧ d = os_path_dirname p
  | _ => True
  end.

(** * Properties *)

(** ** The monad *)

Lemma bind_ok {A B} (m : M A) (k : A → M B) w a w1 t1 :
  m w = (Ok a, w1, t1) →
  bind m k w = (result_of (k a w1), world_of (k a w1), t1 ++ trace_of (k a w1)).
Proof.
  intros Hm. unfold bind. rewrite Hm.
  destruct (k a w1) as [[r w2] t2]. reflexivity.
Qed.

Lemma bind_raise {A B} (m : M A) (k : A → M B) w e w1 t1 :
  m w = (Raise e, w1, t1) → bind m k w = (Raise e, w1, t1).
Proof. intros Hm. unfold bind. rewrite Hm. reflexivity. Qed.

Lemma outcome_eta {A} (o : Result A * World * list Event) :
  o = (result_of o, world_of o, trace_of o).
Proof. destruct o as [[r w] t]. reflexivity. Qed.

(** ** The progress bar *)

Lemma for_in_pumped {A} (body : A → M unit) (total : nat) :
  ∀ (l : list A) (w : World),
    _ProgressBar.for_in (S (length l))
      {| _ProgressBar.items := l; _ProgressBar.n_items := total |} body w
    = pumped_loop total l body w.
Proof.
  induction l as [|x rest IH]; intros w.
  - reflexivity.
  - change (pumped_loop total (x :: rest) body w)
      with ((emit ProcessEvents;;
             emit (ProgressSetValue (bar_value (length rest) total));;
             body x;; pumped_loop total rest body) w).
    change (_ProgressBar.for_in (S (length (x :: rest))) ?b body)
      with (let* step := try_except (let* r := _ProgressBar.next b in ret (Some r))
                           StopIteration (ret None) in
            match step with
            | None => ret tt
            | Some (y, b') => body y;; _ProgressBar.for_in (S (length rest)) b' body
            end).
    unfold try_except, bind, emit, ret, _ProgressBar.next.
    cbn -[_ProgressBar.for_in pumped_loop bar_value Py.float PrimFloat.sub
          PrimFloat.mul PrimFloat.div].
    fold (bar_value (length rest) total).
    destruct (body x w) as [[[[]|e] w1] t1]; [|reflexivity].
    rewrite (IH w1).
    destruct (pumped_loop total rest body w1) as [[r w2] t2].
    reflexivity.
Qed.

(** C9 (as amended): the loop over the progress bar pumps the event queue
    at every step, runs the body on each item of the list once and in list
    order, gives the bar at each item the double
    [(1.0 - 1.0*remaining/total)*100] for the items that remain, and closes
    the dialog at the step that finds no item left.  For four items the
    values are 25, 50, 75 and 100. *)
Theorem progress_bar_loop {A} (items : list A) (title : string)
    (body : A → M unit) (w : World) :
  (let* bar := _ProgressBar.__init__ items title in
   _ProgressBar.for_in (S (length items)) bar body) w
  = (emit (ProgressShow title);;
     emit (ProgressSetValue 0%float);;
     pumped_loop (length items) items body) w
  ∧ List.map (λ remaining, bar_value remaining 4) [3; 2; 1; 0]%nat
    = [25; 50; 75; 100]%float.
Proof.
  split; [|reflexivity].
  unfold _ProgressBar.__init__.
  unfold bind, emit, ret.
  cbn -[_ProgressBar.for_in pumped_loop].
  rewrite (for_in_pumped body (length items) items w).
  destruct (pumped_loop (length items) items body w) as [[r w1] t1].
  reflexivity.
Qed.

(** C9 as the specification states it fails: over ten items, one item of
    ten is 10 percent, and the value the bar is given at the first item is
    the double 0x1.3ffffffffffffp+3 (9.9999999999999982), below 10. *)
Lemma progress_value_below_percentage :
  let o := (let* bar := _ProgressBar.__init__ ten_items "Progress" in
            _ProgressBar.for_in 11 bar (λ _, ret tt)) Shot.world in
  is_percentage 1 (length ten_items) 10
  ∧ ∃ v, trace_of o !! 3%nat = Some (ProgressSetValue v)
         ∧ v = 0x1.3ffffffffffffp+3%float
         ∧ (v <? 10)%float = true.
Proof.
  cbv zeta. split; [reflexivity|].
  eexists. split; [vm_compute; reflexivity|]. split; reflexivity.
Qed.

Lemma bind_ret_l {A B} (a : A) (k : A → M B) w : bind (ret a) k w = k a w.
Proof. unfold bind, ret. destruct (k a w) as [[r w2] t2]. reflexivity. Qed.

Lemma bind_gets {A B} (f : World → A) (k : A → M B) w :
  bind (gets f) k w = k (f w) w.
Proof. unfold bind, gets. destruct (k (f w) w) as [[r w2] t2]. reflexivity. Qed.

Lemma bind_modify {B} (f : World → World) (k : unit → M B) w :
  bind (modify f) k w = k tt (f w).
Proof. unfold bind, modify. destruct (k tt (f w)) as [[r w2] t2]. reflexivity. Qed.

Lemma bind_emit {B} (ev : Event) (k : unit → M B) w :
  bind (emit ev) k w
  = (result_of (k tt w), world_of (k tt w), ev :: trace_of (k tt w)).
Proof. unfold bind, emit. destruct (k tt w) as [[r w2] t2]. reflexivity. Qed.

Lemma bind_raise_l {A B} (e : Exn) (k : A → M B) w :
  bind (raise e) k w = (Raise e, w, []).
Proof. reflexivity. Qed.

Lemma bind_assoc {A B C} (m : M A) (k1 : A → M B) (k2 : B → M C) w :
  bind (bind m k1) k2 w = bind m (λ a, bind (k1 a) k2) w.
Proof.
  unfold bind. destruct (m w) as [[[a|e] w1] t1]; [|reflexivity].
  destruct (k1 a w1) as [[[b|e] w2] t2]; [|reflexivity].
  destruct (k2 b w2) as [[r w3] t3]. rewrite app_assoc. reflexivity.
Qed.

Lemma bind_run {A B} (m : M A) (k : A → M B) w :
  bind m k w
  = match result_of (m w) with
    | Ok a =>
        (result_of (k a (world_of (m w))), world_of (k a (world_of (m w))),
         trace_of (m w) ++ trace_of (k a (world_of (m w))))
    | Raise e => (Raise e, world_of (m w), trace_of (m w))
    end.
Proof.
  unfold bind. destruct (m w) as [[[a|e] w1] t1]; [|reflexivity].
  cbn. destruct (k a w1) as [[r w2] t2]. reflexivity.
Qed.

(** ** Dialogs *)

Lemma get_result_run (box : _MessageBox.t) (w : World) :
  _MessageBox.get_result box w
  = (clicked_result (_MessageBox.buttons box) (next_click w), after_click w,
     [MessageBoxExec (_MessageBox.title box) (_MessageBox.text box)
        (_MessageBox.buttons box) (next_click w)]).
Proof.
  unfold _MessageBox.get_result, _MessageBox.exec_, clicked_result, bind, gets,
    modify, emit, ret, raise. cbn.
  fold (next_click w). fold (after_click w).
  destruct (_MessageBox.buttons box !! next_click w) as [b|]; [|reflexivity].
  destruct (bool_decide (b = "Cancel")); reflexivity.
Qed.

Lemma _notify_run (msg title : string) (w : World) :
  _notify msg title w
  = (clicked_result ["Ok"; "Cancel"] (next_click w), after_click w,
     [MessageBoxExec title msg ["Ok"; "Cancel"] (next_click w)]).
Proof. unfold _notify. rewrite get_result_run. reflexivity. Qed.

Lemma _ok_cancel_run (msg title : string) (w : World) :
  _ok_cancel msg title w
  = (clicked_result ["Ok"; "Cancel"] (next_click w), after_click w,
     [MessageBoxExec title msg ["Ok"; "Cancel"] (next_click w)]).
Proof. unfold _ok_cancel. rewrite get_result_run. reflexivity. Qed.

(** ** Nothing selected (C10) *)

(** C10 (as amended): with an empty list of exportables the export shows
    the notification that nothing is selected and stops: this message box
    is the only event of the run, so no directory is created, no file is
    removed and nothing is exported, and the file system and the scene are
    as before.  The call returns when the user closes the box with Ok; it
    raises RuntimeError when the user closes the box with the hidden Cancel
    button, and it does not return for any other click. *)
Theorem export_nothing_selected `{OsPath} (dir_ : string) (range_ : Z * Z)
    (add_border_keys bake_cams_in_world : bool) (roots : option (list string))
    (w : World) :
  let o := _export_fbxs [] dir_ range_ add_border_keys bake_cams_in_world roots w in
  trace_of o
    = [MessageBoxExec "Confirm" "Nothing selected to export" ["Ok"; "Cancel"]
         (next_click w)]
  ∧ fs (world_of o) = fs w
  ∧ scene (world_of o) = scene w
  ∧ (next_click w = 0%nat → result_of o = Ok tt)
  ∧ (next_click w = 1%nat → result_of o = Raise RuntimeError)
  ∧ (next_click w ≠ 0%nat → ∃ e, result_of o = Raise e).
Proof.
  unfold _export_fbxs, cmds.file_query_location.
  rewrite bind_gets. cbn [for_fold]. rewrite bind_ret_l.
  cbn [Py.truthy_list negb].
  rewrite bind_run, _notify_run.
  unfold clicked_result.
  destruct (next_click w) as [|[|k]]; cbn; repeat split; try congruence; eauto.
Qed.

(** C10 as the specification states it fails, in the shot: with nothing to
    export and a user who closes the notification with the hidden Cancel
    button, the call does not return but raises RuntimeError. *)
Lemma nothing_selected_cancelled :
  let o := _export_fbxs (H := Shot.platform) [] "/out" (1, 24)%Z true true None
             shot_cancel_first in
  trace_of o
    = [MessageBoxExec "Confirm" "Nothing selected to export" ["Ok"; "Cancel"] 1]
  ∧ result_of o = Raise RuntimeError.
Proof. vm_compute. split; reflexivity. Qed.

(** ** Settings *)

Section Settings.
Import _FbxExporterUi.

Lemma save_settings_run (ui : t) :
  save_settings ui
  = Ok (with_settings
          (<["roots" := VString (roots ui)]>
             (<["show_default_cams" := VBool (show_default_cams ui)]>
                (<["path" := VString (path ui)]>
                   (<["bake_cams_in_world" := VBool (bake_cams_in_world ui)]>
                      (<["add_border_keys" := VBool (add_border_keys ui)]>
                         (_settings ui)))))) ui).
Proof. reflexivity. Qed.

Lemma getattr_add_border_keys (ui : t) :
  getattr ui "add_border_keys" = Some (QCheckBox (add_border_keys ui)).
Proof. reflexivity. Qed.

Lemma getattr_bake_cams_in_world (ui : t) :
  getattr ui "bake_cams_in_world" = Some (QCheckBox (bake_cams_in_world ui)).
Proof. reflexivity. Qed.

Lemma getattr_show_default_cams (ui : t) :
  getattr ui "show_default_cams" = Some (QCheckBox (show_default_cams ui)).
Proof. reflexivity. Qed.

Lemma getattr_path (ui : t) : getattr ui "path" = Some (QLineEdit (path ui)).
Proof. reflexivity. Qed.

Lemma getattr_roots (ui : t) : getattr ui "roots" = Some (QLineEdit (roots ui)).
Proof. reflexivity. Qed.

Lemma load_settings_run (ui0 : t) (v1 v2 v3 : QVariant) (b1 b2 b3 : bool) (p r : string) :
  _settings ui0 !! "add_border_keys" = Some v1 → true_false_get v1 = VBool b1 →
  _settings ui0 !! "bake_cams_in_world" = Some v2 → true_false_get v2 = VBool b2 →
  _settings ui0 !! "path" = Some (VString p) →
  _settings ui0 !! "show_default_cams" = Some v3 → true_false_get v3 = VBool b3 →
  _settings ui0 !! "roots" = Some (VString r) →
  load_settings ui0
  = Ok {| path := p; roots := r; start := start ui0; end_ := end_ ui0;
          show_default_cams := b3; bake_cams_in_world := b2; add_border_keys := b1;
          _settings := _settings ui0 |}.
Proof.
  intros H1 E1 H2 E2 H3 H4 E4 H5.
  unfold load_settings, _save_attrs.
  cbn -[lookup getattr]. rewrite getattr_add_border_keys, H1, E1.
  cbn -[lookup getattr]. rewrite getattr_bake_cams_in_world, H2, E2.
  cbn -[lookup getattr]. rewrite getattr_path, H3.
  cbn -[lookup getattr]. rewrite getattr_show_default_cams, H4, E4.
  cbn -[lookup getattr]. rewrite getattr_roots, H5.
  reflexivity.
Qed.

Lemma true_false_get_bool (b : bool) : true_false_get (VBool b) = VBool b.
Proof. reflexivity. Qed.

Lemma true_false_get_from_ini (b : bool) : true_false_get (from_ini (VBool b)) = VBool b.
Proof. destruct b; reflexivity. Qed.

(** C8: saving writes the five keys [add_border_keys], [bake_cams_in_world],
    [path], [show_default_cams] and [roots], and no other; loading what was
    saved, in the same session or from the INI file in a later one, into a
    form in any state sets the three checkboxes and the two text fields to
    the saved values. *)
Theorem settings_round_trip (ui ui0 : t) :
  ∃ saved : t,
    save_settings ui = Ok saved
    ∧ dom (_settings saved) = list_to_set _save_attrs ∪ dom (_settings ui)
    ∧ (∀ k, k ∉ _save_attrs → _settings saved !! k = _settings ui !! k)
    ∧ (∃ loaded : t,
         load_settings (with_settings (_settings saved) ui0) = Ok loaded
         ∧ add_border_keys loaded = add_border_keys ui
         ∧ bake_cams_in_world loaded = bake_cams_in_world ui
         ∧ path loaded = path ui
         ∧ show_default_cams loaded = show_default_cams ui
         ∧ roots loaded = roots ui)
    ∧ (∃ loaded : t,
         load_settings (with_settings (reopen (_settings saved)) ui0) = Ok loaded
         ∧ add_border_keys loaded = add_border_keys ui
         ∧ bake_cams_in_world loaded = bake_cams_in_world ui
         ∧ path loaded = path ui
         ∧ show_default_cams loaded = show_default_cams ui
         ∧ roots loaded = roots ui).
Proof.
  eexists. split; [apply save_settings_run|].
  cbn [_settings with_settings].
  split; [|split; [|split]].
  - rewrite !dom_insert_L. unfold _save_attrs. cbn [list_to_set].
    apply set_eq. intros x.
    rewrite !elem_of_union, !elem_of_singleton, elem_of_empty. tauto.
  - intros k Hk. unfold _save_attrs in Hk.
    rewrite !lookup_insert_ne; [reflexivity|..]; intros <-; apply Hk;
      repeat first [ apply list_elem_of_here | apply list_elem_of_further ].
  - eexists. split.
    + eapply load_settings_run; cbn [_settings with_settings];
        first [ apply true_false_get_bool
              | rewrite ?lookup_insert_ne by done; rewrite lookup_insert_eq;
                reflexivity ].
    + cbn. auto.
  - eexists. split.
    + eapply (load_settings_run _ (from_ini _) (from_ini _) (from_ini _));
        cbn [_settings with_settings]; unfold reopen;
        first [ apply true_false_get_from_ini
              | rewrite lookup_fmap; rewrite ?lookup_insert_ne by done;
                rewrite lookup_insert_eq; reflexivity ].
    + cbn. auto.
Qed.

End Settings.

Lemma bind_query {A B} (m : M A) (k : A → M B) w a :
  m w = (Ok a, w, []) → bind m k w = k a w.
Proof.
  intros Hm. unfold bind. rewrite Hm.
  destruct (k a w) as [[r w2] t2]. reflexivity.
Qed.

Lemma try_except_ok {A} (m h : M A) (e : Exn) w a w1 t1 :
  m w = (Ok a, w1, t1) → try_except m e h w = (Ok a, w1, t1).
Proof. intros Hm. unfold try_except. rewrite Hm. reflexivity. Qed.

(** ** Rig enumeration *)

Lemma _Rig_file_run (r : _Rig.t) (w : World) :
  _Rig._file r w = (Ok (scene_ref_filename (scene w) (_Rig.ref_node r)), w, []).
Proof.
  unfold _Rig._file, try_except, cmds.referenceQuery_filename, bind, gets, ret, raise.
  destruct (scene_ref_filename (scene w) (_Rig.ref_node r)); reflexivity.
Qed.

Lemma _Rig_namespace_run (r : _Rig.t) (w : World) :
  _Rig.namespace r w
  = (Ok (scene_file_namespace (scene w)
           (scene_ref_filename (scene w) (_Rig.ref_node r))), w, []).
Proof.
  unfold _Rig.namespace. rewrite (bind_query _ _ _ _ (_Rig_file_run r w)).
  reflexivity.
Qed.

Lemma has_root_run (r : _Rig.t) (roots : list string) (w : World) :
  ∃ b : bool,
    has_root r roots w = (Ok b, w, [])
    ∧ (b = true ↔ has_root_node w roots (_Rig.ref_node r)).
Proof.
  induction roots as [|root roots IH].
  - exists false. split; [reflexivity|].
    split; [discriminate|]. intros (root & Hin & _). inversion Hin.
  - cbn [has_root]. rewrite (bind_query _ _ _ _ (_Rig_namespace_run r w)).
    unfold cmds.objExists. rewrite bind_gets.
    set (node := _ +:+ ":" +:+ root).
    destruct (bool_decide_reflect (node ∈ scene_nodes (scene w))) as [Hin|Hnin].
    + exists true. split; [reflexivity|]. split; [|reflexivity].
      intros _. exists root. split; [apply list_elem_of_here|exact Hin].
    + destruct IH as (b & Hrun & Hb). exists b. rewrite Hrun.
      split; [reflexivity|]. rewrite Hb. unfold has_root_node.
      split.
      * intros (root' & Hr & Hn). exists root'.
        split; [apply list_elem_of_further; exact Hr|exact Hn].
      * intros (root' & Hr & Hn). exists root'. split; [|exact Hn].
        apply elem_of_cons in Hr as [->|Hr]; [|exact Hr].
        contradiction.
Qed.


Lemma find_rigs_body_run (roots : list string) (w : World) (r : string)
    (acc : list _Rig.t) :
  ∃ b : bool,
    find_rigs_body roots 0 r acc w
    = (Ok (if b then acc ++ [_Rig.__init__ r] else acc), w, [])
    ∧ (b = true ↔ listed_as_rig w roots r).
Proof.
  unfold find_rigs_body.
  rewrite (bind_query _ _ _ (Some (_Rig.__init__ r)))
    by (apply try_except_ok; reflexivity).
  unfold _lprint. cbn [Z.eqb]. rewrite bind_ret_l.
  rewrite (bind_query _ _ _ _ (_Rig_file_run (_Rig.__init__ r) w)).
  cbn [_Rig.ref_node _Rig.__init__].
  unfold listed_as_rig.
  destruct (scene_ref_filename (scene w) r) as [f|] eqn:Hf.
  2:{ exists false. split; [reflexivity|]. split; [discriminate|].
      intros (_ & (f & Hf' & _) & _). discriminate. }
  destruct f as [|c f].
  { exists false. split; [reflexivity|]. split; [discriminate|].
    intros (_ & (f & Hf' & Hne) & _). congruence. }
  cbn [default from_option id Py.truthy_str negb].
  unfold cmds.referenceQuery_isLoaded. rewrite bind_gets.
  destruct (scene_ref_loaded (scene w) r) eqn:Hl.
  2:{ exists false. split; [reflexivity|]. split; [discriminate|].
      intros (_ & _ & Hl' & _). discriminate. }
  cbn [negb]. unfold cmds.referenceQuery_parentNamespace_0. rewrite bind_gets.
  destruct (scene_ref_parent_namespace (scene w) r) as [|c' p] eqn:Hp.
  2:{ exists false. split; [reflexivity|]. split; [discriminate|].
      intros (_ & _ & _ & Hp' & _). discriminate. }
  cbn [Py.truthy_str].
  destruct (has_root_run (_Rig.__init__ r) roots w) as (b & Hrun & Hb).
  rewrite (bind_query _ _ _ _ Hrun).
  exists b. split.
  - destruct b; reflexivity.
  - rewrite Hb. cbn [_Rig.ref_node _Rig.__init__]. split.
    + intros Hroot. split; [eauto|]. split; [|auto].
      exists (String c f). split; [reflexivity|discriminate].
    + intros (_ & _ & _ & _ & Hroot). exact Hroot.
Qed.

Lemma find_rigs_loop (roots : list string) (w : World) :
  ∀ (refs : list string) (acc : list _Rig.t),
    ∃ rigs : list _Rig.t,
      for_fold refs acc (find_rigs_body roots 0) w = (Ok rigs, w, [])
      ∧ ∀ ref_node, _Rig.__init__ ref_node ∈ rigs
          ↔ _Rig.__init__ ref_node ∈ acc
            ∨ (ref_node ∈ refs ∧ listed_as_rig w roots ref_node).
Proof.
  induction refs as [|r refs IH]; intros acc.
  - exists acc. split; [reflexivity|]. intros ref_node. split; [auto|].
    intros [H|[H _]]; [exact H|inversion H].
  - cbn [for_fold].
    destruct (find_rigs_body_run roots w r acc) as (b & Hrun & Hb).
    rewrite (bind_query _ _ _ _ Hrun).
    destruct (IH (if b then acc ++ [_Rig.__init__ r] else acc)) as (rigs & Hloop & Hiff).
    exists rigs. split; [exact Hloop|].
    intros ref_node. rewrite Hiff, elem_of_cons. destruct b.
    + rewrite elem_of_app, list_elem_of_singleton.
      assert (Hrig : listed_as_rig w roots r) by (apply Hb; reflexivity).
      split.
      * intros [[H|H]|H]; [auto| |tauto].
        injection H as ->. auto.
      * intros [H|[[->|H] Hl]]; auto.
    + assert (Hrig : ¬ listed_as_rig w roots r) by (rewrite <- Hb; discriminate).
      split.
      * intros [H|H]; [auto|tauto].
      * intros [H|[[->|H] Hl]]; [auto|contradiction|auto].
Qed.

(** C4 (as amended): the rigs that [_find_rigs] returns are the reference
    nodes of the scene for which a [_Rig] can be built, the file path query
    answers with a non-empty path, the reference is loaded and has no parent
    namespace, and one of the root nodes exists under its namespace; the
    enumeration changes nothing and always returns. *)
Theorem find_rigs_lists_rigs (roots : list string) (w : World) :
  ∃ rigs : list _Rig.t,
    _find_rigs roots 0 w = (Ok rigs, w, [])
    ∧ ∀ ref_node : string,
        _Rig.__init__ ref_node ∈ rigs
        ↔ ref_node ∈ scene_references (scene w) ∧ listed_as_rig w roots ref_node.
Proof.
  unfold _find_rigs, cmds.ls_type_reference. rewrite bind_gets.
  destruct (find_rigs_loop roots w (scene_references (scene w)) [])
    as (rigs & Hrun & Hiff).
  exists rigs. split; [exact Hrun|].
  intros ref_node. rewrite Hiff. split.
  - intros [H|H]; [inversion H|exact H].
  - auto.
Qed.

(** C4 as the specification states it fails: the reference [ghostRN] of the
    shot meets every condition of the claim (its file path query succeeds,
    with the empty path) and is not listed. *)
Lemma find_rigs_empty_path_not_listed :
  ∃ rigs : list _Rig.t,
    _find_rigs ["JNT_Grp"; "Bind_Joint_GRP"] 0 Shot.world = (Ok rigs, Shot.world, [])
    ∧ "ghostRN" ∈ scene_references (scene Shot.world)
    ∧ listed_as_rig_spec Shot.world ["JNT_Grp"; "Bind_Joint_GRP"] "ghostRN"
    ∧ _Rig.__init__ "ghostRN" ∉ rigs.
Proof.
  exists [Shot.hero]. split; [vm_compute; reflexivity|].
  split; [|split].
  - apply (bool_decide_unpack _). vm_compute. exact I.
  - unfold listed_as_rig_spec. repeat split; eauto.
    exists "JNT_Grp". split; apply (bool_decide_unpack _); vm_compute; exact I.
  - intros H. apply list_elem_of_singleton in H. discriminate H.
Qed.

Lemma bind_ok2 {A B} (m : M A) (k : A → M B) w a w1 t1 r w2 t2 :
  m w = (Ok a, w1, t1) → k a w1 = (r, w2, t2) →
  bind m k w = (r, w2, t1 ++ t2).
Proof. intros Hm Hk. unfold bind. rewrite Hm, Hk. reflexivity. Qed.

(** Steps through a bind whose first computation is known to succeed. *)
Ltac mstep H := eapply bind_ok2; [exact H|].

(** ** Border keys *)

Lemma for_each_emits {A} (body : A → M unit) (f : A → list Event) (w : World) :
  (∀ x, body x w = (Ok tt, w, f x)) →
  ∀ l, for_each l body w = (Ok tt, w, flat_map f l).
Proof.
  intros Hbody. induction l as [|x l IH]; [reflexivity|].
  cbn [for_each flat_map]. rewrite bind_run, Hbody. cbn.
  rewrite IH. reflexivity.
Qed.

Lemma border_keys_app (s e : Z) (l1 l2 : list string) :
  border_keys s e (l1 ++ l2) = border_keys s e l1 ++ border_keys s e l2.
Proof. unfold border_keys. apply flat_map_app. Qed.

Lemma border_keys_flat_map {A} (s e : Z) (f : A → list string) (l : list A) :
  border_keys s e (flat_map f l) = flat_map (λ x, border_keys s e (f x)) l.
Proof.
  induction l as [|x l IH]; [reflexivity|].
  cbn [flat_map]. rewrite border_keys_app, IH. reflexivity.
Qed.

Lemma border_loop_run (s e : Z) (w : World) :
  let w1 := static_deleted w in
  for_each (scene_selection (scene w)) (λ _node,
    let* keyable := cmds.listAttr_keyable _node in
    let _attrs := default [] keyable in
    for_each _attrs (λ _attr,
      if Py.contains "." _attr then ret tt
      else
        let _chan := _node +:+ "." +:+ _attr in
        let* curves := cmds.listConnections_animCurve _chan in
        if negb (Py.truthy_list curves) then ret tt
        else
          cmds.setKeyframe _chan s;;
          cmds.setKeyframe _chan e)) w1
  = (Ok tt, w1, border_keys s e (border_chans w)).
Proof.
  intros w1. unfold border_chans. rewrite border_keys_flat_map.
  apply for_each_emits. intros node.
  unfold cmds.listAttr_keyable. rewrite bind_gets.
  change (scene_keyable (scene w1) node) with (scene_keyable (scene w) node).
  cbv zeta. rewrite border_keys_flat_map.
  apply for_each_emits. intros attr.
  destruct (Py.contains "." attr); [reflexivity|].
  unfold cmds.listConnections_animCurve. rewrite bind_gets.
  change (Py.truthy_list (scene_anim_curves (scene w1) (node +:+ "." +:+ attr)))
    with (driven w (node +:+ "." +:+ attr)).
  destruct (driven w (node +:+ "." +:+ attr)); reflexivity.
Qed.

Lemma mel_eval_static_run (w : World) :
  mel.eval "DeleteAllStaticChannels" w
  = (Ok tt, static_deleted w, [MelEval "DeleteAllStaticChannels"]).
Proof. reflexivity. Qed.

Lemma makedirs_run (d : string) (w : World) :
  path_exists_in w d = false →
  os.makedirs d w = (Ok tt, made_dir d w, [OsMakedirs d]).
Proof.
  intros He. unfold os.makedirs, os.path_exists. rewrite bind_gets.
  fold (path_exists_in w d). rewrite He. reflexivity.
Qed.

(** The run of [_fbx_export_selection]: the border keys when they are asked
    for, the directory of the file when it is missing, and the export. *)
Lemma _fbx_export_selection_run `{OsPath} (fbx : string) (s e : Z)
    (add_border_keys : bool) (w : World) :
  _fbx_export_selection fbx (s, e) add_border_keys w
  = let w1 := if add_border_keys then static_deleted w else w in
    let dir := os_path_dirname fbx in
    (Ok tt,
     written fbx (if path_exists_in w dir then w1 else made_dir dir w1),
     (if add_border_keys
      then MelEval "DeleteAllStaticChannels" :: border_keys s e (border_chans w)
      else [])
     ++ (if path_exists_in w dir then [] else [OsMakedirs dir])
     ++ [CmdsLoadPlugin "fbxmaya";
         FbxExport (fbx_script fbx) fbx (scene_selection (scene w))]).
Proof.
  unfold _fbx_export_selection, cmds.ls_selection. rewrite bind_gets.
  set (w1 := if add_border_keys then static_deleted w else w).
  assert (Hex : ∀ p, path_exists_in w1 p = path_exists_in w p).
  { intros p. unfold w1. destruct add_border_keys; reflexivity. }
  assert (Hsel : scene_selection (scene w1) = scene_selection (scene w)).
  { unfold w1. destruct add_border_keys; reflexivity. }
  cbv zeta. fold w1.
  eapply (bind_ok2 _ _ _ tt w1).
  { unfold w1. destruct add_border_keys; [|reflexivity].
    eapply (bind_ok2 _ _ _ _ _ [_]); [apply mel_eval_static_run|].
    apply border_loop_run. }
  cbv zeta. unfold os.path_exists at 1. rewrite bind_gets.
  fold (path_exists_in w1 (os_path_dirname fbx)). rewrite Hex.
  destruct (path_exists_in w (os_path_dirname fbx)) eqn:He; cbn [negb].
  - rewrite bind_ret_l. unfold cmds.loadPlugin, mel.eval_FBXExport, cmds.ls_selection.
    rewrite bind_emit, bind_gets, bind_emit, Hsel. reflexivity.
  - eapply (bind_ok2 _ _ _ _ _ [_]);
      [apply makedirs_run; rewrite Hex; exact He|].
    unfold cmds.loadPlugin, mel.eval_FBXExport, cmds.ls_selection.
    rewrite bind_emit, bind_gets, bind_emit.
    change (scene_selection (scene (made_dir (os_path_dirname fbx) w1)))
      with (scene_selection (scene w1)).
    rewrite Hsel. reflexivity.
Qed.


Lemma border_chans_spec (w : World) (chan : string) :
  chan ∈ border_chans w
  ↔ ∃ node attr,
      node ∈ scene_selection (scene w)
      ∧ attr ∈ default [] (scene_keyable (scene w) node)
      ∧ Py.contains "." attr = false
      ∧ chan = node +:+ "." +:+ attr
      ∧ driven w chan = true.
Proof.
  unfold border_chans. rewrite list_elem_of_In, in_flat_map. split.
  - intros (node & Hnode & Hin). apply in_flat_map in Hin as (attr & Hattr & Hin).
    exists node, attr. rewrite !list_elem_of_In.
    destruct (Py.contains "." attr); [inversion Hin|].
    destruct (driven w (node +:+ "." +:+ attr)) eqn:Hd; [|inversion Hin].
    destruct Hin as [<-|[]]. auto.
  - intros (node & attr & Hnode & Hattr & Hdot & -> & Hd).
    apply list_elem_of_In in Hnode, Hattr.
    exists node. split; [exact Hnode|].
    apply in_flat_map. exists attr. split; [exact Hattr|].
    rewrite Hdot, Hd. left. reflexivity.
Qed.

Lemma border_keys_spec (s e : Z) (chans : list string) (chan : string) (t : Z) :
  CmdsSetKeyframe chan t ∈ border_keys s e chans
  ↔ (t = s ∨ t = e) ∧ chan ∈ chans.
Proof.
  unfold border_keys. rewrite !list_elem_of_In, in_flat_map. split.
  - intros (c & Hc & [Heq|[Heq|[]]]); injection Heq as -> ->; auto.
  - intros [[->| ->] Hc]; exists chan; (split; [exact Hc|]); cbn; auto.
Qed.

(** C5 (as amended): with border keys enabled the export of the selection
    deletes the static channels, then inserts a key at the start frame and
    a key at the end frame on every driven channel [node.attr] of a
    selected node whose keyable attribute [attr] has no dot in its name, on
    no other channel and at no other frame, and only then loads the plug-in
    and invokes the FBX writer. *)
Theorem border_keys_inserted `{OsPath} (fbx : string) (s e : Z) (w : World) :
  let o := _fbx_export_selection fbx (s, e) true w in
  result_of o = Ok tt
  ∧ (∃ mk,
       trace_of o
       = MelEval "DeleteAllStaticChannels" :: border_keys s e (border_chans w)
         ++ mk
         ++ [CmdsLoadPlugin "fbxmaya";
             FbxExport (fbx_script fbx) fbx (scene_selection (scene w))]
       ∧ (mk = [] ∨ mk = [OsMakedirs (os_path_dirname fbx)]))
  ∧ (∀ chan t,
       CmdsSetKeyframe chan t ∈ trace_of o
       ↔ (t = s ∨ t = e)
         ∧ ∃ node attr,
             node ∈ scene_selection (scene w)
             ∧ attr ∈ default [] (scene_keyable (scene w) node)
             ∧ Py.contains "." attr = false
             ∧ chan = node +:+ "." +:+ attr
             ∧ driven w chan = true).
Proof.
  cbv zeta. rewrite _fbx_export_selection_run. cbv zeta.
  cbn [result_of world_of trace_of fst snd app].
  split; [reflexivity|]. split.
  - eexists. split; [reflexivity|].
    destruct (path_exists_in w (os_path_dirname fbx)); auto.
  - intros chan t. rewrite <- border_chans_spec, <- border_keys_spec.
    rewrite elem_of_cons, !elem_of_app.
    split.
    + intros [Heq|[Hin|[Hin|Hin]]]; [discriminate|exact Hin| |].
      * destruct (path_exists_in w (os_path_dirname fbx)); [inversion Hin|].
        apply list_elem_of_singleton in Hin. discriminate.
      * apply elem_of_cons in Hin as [Heq|Hin]; [discriminate|].
        apply list_elem_of_singleton in Hin. discriminate.
    + auto.
Qed.

(** C5 as the specification states it fails: in the shot, the selected root
    node of the rig has the keyable attribute [blend.weight], driven by an
    animation curve, and no key is inserted on it. *)
Lemma border_keys_skip_dotted_attribute :
  let o := @_fbx_export_selection Shot.platform "/out/A_sh010_hero.fbx"
             (1, 24)%Z true shot_root_selected in
  "hero:JNT_Grp" ∈ scene_selection (scene shot_root_selected)
  ∧ scene_keyable (scene shot_root_selected) "hero:JNT_Grp"
    = Some ["translateX"; "rotateY"; "blend.weight"]
  ∧ scene_anim_curves (scene (world_of o)) "hero:JNT_Grp.blend.weight"
    = ["JNT_Grp_weight"]
  ∧ ∀ t, CmdsSetKeyframe "hero:JNT_Grp.blend.weight" t ∉ trace_of o.
Proof.
  cbv zeta. split; [apply list_elem_of_here|].
  split; [reflexivity|]. split; [vm_compute; reflexivity|].
  intros t Hin. vm_compute in Hin.
  repeat (apply elem_of_cons in Hin as [Hin|Hin]; [discriminate Hin|]).
  inversion Hin.
Qed.

(** ** Node lists *)

Lemma find_nodes_run (self : Exportable) (w : World) :
  _Exportable.find_nodes self w
  = (Ok match self with
        | Camera c => [_Camera.tfm c; _Camera.shp c]
        | Rig r =>
            List.filter
              (λ n, cmds.ls_match
                      (scene_file_namespace (scene w)
                         (scene_ref_filename (scene w) (_Rig.ref_node r)) +:+ ":*") n
                    && scene_referenced (scene w) n)
              (scene_nodes (scene w))
        end, w, []).
Proof.
  destruct self as [c|r]; [reflexivity|].
  unfold _Exportable.find_nodes, _Rig.find_nodes.
  rewrite (bind_query _ _ _ _ (_Rig_namespace_run r w)). reflexivity.
Qed.

Lemma border_keys_quiet (s e : Z) (chans : list string) :
  Forall (λ ev, ¬ selects_or_exports ev) (border_keys s e chans).
Proof.
  induction chans as [|c chans IH]; [constructor|].
  cbn. repeat constructor; auto.
Qed.

Lemma select_run (nodes : list string) (w : World) :
  cmds.select nodes w
  = (Ok tt, set_scene (cmds.with_selection nodes) w, [CmdsSelect nodes]).
Proof. reflexivity. Qed.

Lemma export_fbx_run `{OsPath} (self : Exportable) (fbx : string) (s e : Z)
    (nodes : option (list string)) (add_border_keys : bool) (w : World) :
  ∃ node_list keys w',
    _Exportable.find_nodes self w = (Ok node_list, w, [])
    ∧ _Exportable.export_fbx self fbx (s, e) nodes add_border_keys w
      = (Ok tt, w',
         CmdsSelect (chosen_nodes nodes node_list) :: keys
         ++ [CmdsLoadPlugin "fbxmaya";
             FbxExport (fbx_script fbx) fbx (chosen_nodes nodes node_list)])
    ∧ Forall (λ ev, ¬ selects_or_exports ev) keys
    ∧ scene_selection (scene w') = chosen_nodes nodes node_list.
Proof.
  set (node_list := match self with
                    | Camera c => [_Camera.tfm c; _Camera.shp c]
                    | Rig r =>
                        List.filter
                          (λ n, cmds.ls_match
                                  (scene_file_namespace (scene w)
                                     (scene_ref_filename (scene w) (_Rig.ref_node r))
                                   +:+ ":*") n
                                && scene_referenced (scene w) n)
                          (scene_nodes (scene w))
                    end).
  set (chosen := chosen_nodes nodes node_list).
  set (w1 := set_scene (cmds.with_selection chosen) w).
  set (dir := os_path_dirname fbx).
  exists node_list,
    ((if add_border_keys
      then MelEval "DeleteAllStaticChannels" :: border_keys s e (border_chans w1)
      else [])
     ++ (if path_exists_in w1 dir then [] else [OsMakedirs dir])),
    (written fbx
       (if path_exists_in w1 dir
        then (if add_border_keys then static_deleted w1 else w1)
        else made_dir dir (if add_border_keys then static_deleted w1 else w1))).
  split; [apply find_nodes_run|].
  assert (Hchoose :
    match nodes with
    | Some (n :: ns) => ret (n :: ns)
    | _ => _Exportable.find_nodes self
    end w = (Ok chosen, w, [])).
  { unfold chosen, chosen_nodes. destruct nodes as [[|n ns]|];
      first [apply find_nodes_run | reflexivity]. }
  unfold _Exportable.export_fbx.
  rewrite (bind_query _ _ _ _ Hchoose).
  split; [|split].
  - eapply (bind_ok2 _ _ _ _ _ [_]); [apply select_run|].
    rewrite _fbx_export_selection_run. cbv zeta.
    rewrite app_assoc. reflexivity.
  - apply Forall_app. split.
    + destruct add_border_keys; [|constructor].
      constructor; [auto|apply border_keys_quiet].
    + destruct (path_exists_in _ _); repeat constructor; auto.
  - destruct add_border_keys, (path_exists_in _ _); reflexivity.
Qed.

(** C7 (as amended): every exportable produces its node list: the
    transform and the shape for a camera; for a rig, the referenced nodes of
    the scene that match [ns:*], where [ns] is the namespace that the host
    gives for the file of the reference, which is also what the rig's
    [namespace] returns.  And [export_fbx] selects this list, or the
    caller's override list when one is given and is not empty, then invokes
    the FBX writer on that selection, with no other selection or export in
    between. *)
Theorem exportable_node_list `{OsPath} (self : Exportable) (fbx : string)
    (s e : Z) (nodes : option (list string)) (add_border_keys : bool) (w : World) :
  ∃ node_list keys w',
    _Exportable.find_nodes self w = (Ok node_list, w, [])
    ∧ match self with
      | Camera c => node_list = [_Camera.tfm c; _Camera.shp c]
      | Rig r =>
          let ns :=
            scene_file_namespace (scene w)
              (scene_ref_filename (scene w) (_Rig.ref_node r)) in
          _Rig.namespace r w = (Ok ns, w, [])
          ∧ ∀ n, n ∈ node_list
              ↔ n ∈ scene_nodes (scene w)
                ∧ scene_referenced (scene w) n = true
                ∧ cmds.ls_match (ns +:+ ":*") n = true
      end
    ∧ let chosen :=
        match nodes with
        | Some (n :: ns) => n :: ns
        | Some [] | None => node_list
        end in
      _Exportable.export_fbx self fbx (s, e) nodes add_border_keys w
      = (Ok tt, w',
         CmdsSelect chosen :: keys
         ++ [CmdsLoadPlugin "fbxmaya"; FbxExport (fbx_script fbx) fbx chosen])
      ∧ Forall (λ ev, ¬ selects_or_exports ev) keys
      ∧ scene_selection (scene w') = chosen.
Proof.
  destruct (export_fbx_run self fbx s e nodes add_border_keys w)
    as (node_list & keys & w' & Hfind & Hrun & Hkeys & Hsel).
  exists node_list, keys, w'. split; [exact Hfind|].
  split.
  2:{ cbv zeta. unfold chosen_nodes in Hrun, Hsel.
      destruct nodes as [[|n ns]|]; auto. }
  rewrite find_nodes_run in Hfind. injection Hfind as <-.
  destruct self as [c|r]; [reflexivity|]. cbv zeta.
  split; [apply _Rig_namespace_run|].
  intros n. rewrite list_elem_of_In, filter_In, <- list_elem_of_In.
  rewrite andb_true_iff. tauto.
Qed.

(** C7 as the specification states it fails, in the shot: the caller gives
    the empty list as the override for the shot camera, and the export
    selects and writes the transform and the shape of the camera, not the
    empty list. *)
Lemma empty_override_selects_node_list :
  let o := _Exportable.export_fbx (H := Shot.platform) (Camera Shot.shotcam)
             "/out/A_sh010_shotcam.fbx" (1, 24)%Z (Some []) false Shot.world in
  result_of o = Ok tt
  ∧ trace_of o
    = [CmdsSelect ["shotcam"; "shotcamShape"];
       CmdsLoadPlugin "fbxmaya";
       FbxExport (fbx_script "/out/A_sh010_shotcam.fbx")
         "/out/A_sh010_shotcam.fbx" ["shotcam"; "shotcamShape"]]
  ∧ CmdsSelect [] ∉ trace_of o.
Proof.
  cbv zeta. split; [vm_compute; reflexivity|].
  assert (Ht : trace_of
                 (_Exportable.export_fbx (H := Shot.platform) (Camera Shot.shotcam)
                    "/out/A_sh010_shotcam.fbx" (1, 24)%Z (Some []) false Shot.world)
               = [CmdsSelect ["shotcam"; "shotcamShape"];
                  CmdsLoadPlugin "fbxmaya";
                  FbxExport (fbx_script "/out/A_sh010_shotcam.fbx")
                    "/out/A_sh010_shotcam.fbx" ["shotcam"; "shotcamShape"]])
    by (vm_compute; reflexivity).
  split; [exact Ht|]. rewrite Ht. intros Hin.
  repeat (apply elem_of_cons in Hin as [Hin|Hin]; [discriminate Hin|]).
  inversion Hin.
Qed.

(** ** Rigs without root nodes *)

Lemma possible_nodes_run (w : World) (r : _Rig.t) (roots acc : list string) :
  for_fold roots acc (λ _root acc,
    let* ns := _Rig.namespace r in
    ret (acc ++ [ns +:+ ":" +:+ _root])) w
  = (Ok (acc ++ possible_nodes w r roots), w, []).
Proof.
  revert acc. induction roots as [|root roots IH]; intros acc.
  - cbn. rewrite app_nil_r. reflexivity.
  - cbn [for_fold]. rewrite (bind_query _ _ _ (acc ++ [rig_namespace w r +:+ ":" +:+ root])).
    + rewrite IH, <- app_assoc. reflexivity.
    + rewrite (bind_query _ _ _ _ (_Rig_namespace_run r w)). reflexivity.
Qed.

Lemma existing_nodes_run (w : World) (l acc : list string) :
  for_fold l acc (λ _node acc,
    let* e := cmds.objExists _node in
    ret (if e then acc ++ [_node] else acc)) w
  = (Ok (acc ++ existing_nodes w l), w, []).
Proof.
  revert acc. induction l as [|n l IH]; intros acc.
  - cbn. rewrite app_nil_r. reflexivity.
  - cbn [for_fold].
    rewrite (bind_query _ _ _
               (if bool_decide (n ∈ scene_nodes (scene w)) then acc ++ [n] else acc))
      by (unfold cmds.objExists; rewrite bind_gets; reflexivity).
    rewrite IH. cbn [existing_nodes List.filter].
    destruct (bool_decide (n ∈ scene_nodes (scene w))); [|reflexivity].
    rewrite <- app_assoc. reflexivity.
Qed.

Lemma existing_nodes_nil (w : World) (l : list string) :
  existing_nodes w l = [] ↔ ∀ n, n ∈ l → n ∉ scene_nodes (scene w).
Proof.
  induction l as [|x l IH]; cbn [existing_nodes List.filter].
  - split; [|reflexivity]. intros _ n Hn. inversion Hn.
  - destruct (bool_decide_reflect (x ∈ scene_nodes (scene w))) as [Hx|Hx].
    + split; [discriminate|]. intros Hall. exfalso.
      apply (Hall x); [apply list_elem_of_here|exact Hx].
    + fold (existing_nodes w l). rewrite IH. split.
      * intros Hall n Hn. apply elem_of_cons in Hn as [->|Hn]; auto.
      * intros Hall n Hn. apply Hall, list_elem_of_further, Hn.
Qed.

(** The run of the loop body on a rig when root names are given. *)
Lemma export_one_rig_run `{OsPath} (range_ : Z * Z) (add_border_keys bake : bool)
    (root : string) (roots' : list string) (r : _Rig.t) (fbx : string) (w : World) :
  export_one range_ add_border_keys bake (Some (root :: roots')) (Rig r, fbx) w
  = match existing_nodes w (possible_nodes w r (root :: roots')) with
    | [] =>
        (match clicked_result ["Ok"; "Cancel"] (next_click w) with
         | Ok _ => Ok tt
         | Raise e => Raise e
         end, after_click w, [no_roots_warning w r (root :: roots')])
    | n :: ns =>
        _Exportable.export_fbx (Rig r) fbx range_ (Some (n :: ns)) add_border_keys w
    end.
Proof.
  unfold export_one. destruct bake.
  all: rewrite (bind_query _ _ _ _ (possible_nodes_run w r (root :: roots') []));
    rewrite (bind_query _ _ _ _ (existing_nodes_run w _ []));
    cbn [app];
    destruct (existing_nodes w (possible_nodes w r (root :: roots'))) as [|n ns];
    cbn [Py.truthy_list negb]; [|reflexivity];
    rewrite (bind_query _ _ _ _ (_Rig_namespace_run r w));
    rewrite bind_run, _notify_run; cbn [result_of world_of trace_of fst snd];
    unfold no_roots_warning, rig_namespace;
    destruct (clicked_result ["Ok"; "Cancel"] (next_click w)); reflexivity.
Qed.


Lemma for_in_cons {A} (body : A → M unit) (total : nat) (x : A) (rest : list A)
    (w : World) :
  _ProgressBar.for_in (S (S (length rest)))
    {| _ProgressBar.items := x :: rest; _ProgressBar.n_items := total |} body w
  = (emit ProcessEvents;;
     emit (ProgressSetValue (bar_value (length rest) total));;
     body x;;
     _ProgressBar.for_in (S (length rest))
       {| _ProgressBar.items := rest; _ProgressBar.n_items := total |} body) w.
Proof.
  change (_ProgressBar.for_in (S (S (length rest))) ?b body)
    with (let* step := try_except (let* r := _ProgressBar.next b in ret (Some r))
                         StopIteration (ret None) in
          match step with
          | None => ret tt
          | Some (y, b') => body y;; _ProgressBar.for_in (S (length rest)) b' body
          end).
  unfold try_except, bind, emit, ret, _ProgressBar.next.
  cbn -[_ProgressBar.for_in bar_value Py.float PrimFloat.sub PrimFloat.mul
        PrimFloat.div].
  fold (bar_value (length rest) total).
  destruct (body x w) as [[[[]|e] w1] t1]; [|reflexivity].
  destruct (_ProgressBar.for_in _ _ _ w1) as [[r w2] t2]. reflexivity.
Qed.

(** C3 (as amended): in the export loop, with at least one root name given,
    a rig none of whose root nodes exists gets a warning that lists the
    nodes looked for, and the FBX writer is not called for it: the step of
    the loop for the rig pumps the events, sets the bar and shows the
    warning, nothing else.  When the user closes the warning with Ok the
    loop goes on with the remaining exportables; when the user closes it
    with another button the export stops with an error, RuntimeError for the
    hidden Cancel button. *)
Theorem rig_without_roots_skipped `{OsPath} (range_ : Z * Z)
    (add_border_keys bake : bool) (root : string) (roots' : list string)
    (r : _Rig.t) (fbx : string) (rest : list (Exportable * string))
    (total : nat) (w : World) :
  (∀ x, x ∈ root :: roots' →
        (rig_namespace w r +:+ ":" +:+ x) ∉ scene_nodes (scene w)) →
  let roots := Some (root :: roots') in
  let body := export_one range_ add_border_keys bake roots in
  let bar items := {| _ProgressBar.items := items; _ProgressBar.n_items := total |} in
  let warning :=
    MessageBoxExec "Warning"
      (no_roots_msg (rig_namespace w r)
         (List.map (λ x, rig_namespace w r +:+ ":" +:+ x) (root :: roots')))
      ["Ok"; "Cancel"] (next_click w) in
  let step :=
    [ProcessEvents; ProgressSetValue (bar_value (length rest) total); warning] in
  let o := _ProgressBar.for_in (S (S (length rest))) (bar ((Rig r, fbx) :: rest)) body w in
  let o' := _ProgressBar.for_in (S (length rest)) (bar rest) body (after_click w) in
  Forall (λ ev, ¬ is_export ev) step
  ∧ (next_click w = 0%nat →
       body (Rig r, fbx) w = (Ok tt, after_click w, [warning])
       ∧ o = (result_of o', world_of o', step ++ trace_of o'))
  ∧ (next_click w ≠ 0%nat →
       ∃ e, o = (Raise e, after_click w, step)
            ∧ (next_click w = 1%nat → e = RuntimeError)).
Proof.
  intros Hnone roots body bar warning step o o'.
  assert (Hex : existing_nodes w (possible_nodes w r (root :: roots')) = []).
  { apply existing_nodes_nil. intros n Hn. unfold possible_nodes in Hn.
    apply list_elem_of_In, in_map_iff in Hn as (x & <- & Hx).
    apply Hnone, list_elem_of_In, Hx. }
  assert (Hbody : body (Rig r, fbx) w
    = (match clicked_result ["Ok"; "Cancel"] (next_click w) with
       | Ok _ => Ok tt
       | Raise e => Raise e
       end, after_click w, [warning])).
  { pose proof (export_one_rig_run range_ add_border_keys bake root roots' r fbx w)
      as Hrun.
    rewrite Hex in Hrun. exact Hrun. }
  split.
  { repeat constructor; intros []. }
  split.
  - intros Hclick.
    assert (Hok : body (Rig r, fbx) w = (Ok tt, after_click w, [warning]))
      by (rewrite Hbody, Hclick; reflexivity).
    split; [exact Hok|].
    unfold o, bar. rewrite for_in_cons.
    rewrite !bind_emit. rewrite bind_run, Hok.
    cbn [result_of world_of trace_of fst snd app]. reflexivity.
  - intros Hclick. unfold o, bar. rewrite for_in_cons.
    rewrite !bind_emit. rewrite bind_run, Hbody.
    cbn [result_of world_of trace_of fst snd app].
    unfold clicked_result.
    destruct (next_click w) as [|[|k]]; [contradiction|..]; cbn.
    + eexists. split; [reflexivity|reflexivity].
    + eexists. split; [reflexivity|discriminate].
Qed.

Lemma rig_without_roots_skipped_witness :
  export_one (H := Shot.platform) (1, 24)%Z true true (Some ["JNT_Grp"])
    (Rig Shot.prop, "/out/A_sh010_prop.fbx") Shot.world
  = (Ok tt, after_click Shot.world,
     [MessageBoxExec "Warning" (no_roots_msg "prop" ["prop:JNT_Grp"])
        ["Ok"; "Cancel"] 0]).
Proof.
  refine (proj1 (proj1 (proj2
    (rig_without_roots_skipped (H := Shot.platform) (1, 24)%Z true true
       "JNT_Grp" [] Shot.prop "/out/A_sh010_prop.fbx" [] 1 Shot.world _)) eq_refl)).
  intros x Hx. apply list_elem_of_singleton in Hx. subst x.
  apply (bool_decide_eq_false_1 _). vm_compute. reflexivity.
Defined.

(** C3 as the specification states it fails, in the shot.  The user
    confirms the replacement and closes the warning for the rig [prop],
    which has no root node, with the hidden Cancel button: the export stops
    with an error and the rig [hero], whose root node exists, is not
    exported.  And with an empty list of root names the rig [prop], which
    then has none of the given root nodes, is exported without a
    warning. *)
Lemma warning_cancelled_stops_export :
  let o := _export_fbxs (H := Shot.platform) [Rig Shot.prop; Rig Shot.hero] "/out"
             (1, 24)%Z true true (Some ["JNT_Grp"]) shot_cancel_second in
  let o' := _export_fbxs (H := Shot.platform) [Rig Shot.prop] "/out"
              (1, 24)%Z true true (Some []) Shot.world in
  (result_of o = Raise RuntimeError
   ∧ last (trace_of o)
     = Some (MessageBoxExec "Warning"
               (no_roots_msg "prop" ["prop:JNT_Grp"]) ["Ok"; "Cancel"] 1)
   ∧ exported_files (trace_of o) = []
   ∧ existing_nodes shot_cancel_second
       (possible_nodes shot_cancel_second Shot.hero ["JNT_Grp"]) = ["hero:JNT_Grp"])
  ∧ (result_of o' = Ok tt
     ∧ exported_files (trace_of o') = ["/out/A_sh010_prop.fbx"]
     ∧ List.filter
         (λ ev, match ev with
                | MessageBoxExec title _ _ _ => bool_decide (title = "Warning")
                | _ => false
                end) (trace_of o') = []).
Proof. vm_compute. repeat split. Qed.

Lemma bind_ok3 {A B} (m : M A) (k : A → M B) w a w1 t1 r w2 t2 t :
  m w = (Ok a, w1, t1) → t = t1 ++ t2 → k a w1 = (r, w2, t2) →
  bind m k w = (r, w2, t).
Proof. intros Hm -> Hk. apply (bind_ok2 _ _ _ _ _ _ _ _ _ Hm Hk). Qed.

(** ** Export in world space *)

Lemma ls_run (pattern : string) (w : World) :
  cmds.ls pattern false w = (Ok (matching pattern w), w, []).
Proof.
  unfold cmds.ls, gets, matching. do 3 f_equal.
  apply filter_ext. intros n. apply andb_true_r.
Qed.

Lemma delete_run (l : list string) (w : World) :
  cmds.delete l w = (Ok tt, deleted l w, [CmdsDelete l]).
Proof. reflexivity. Qed.

Lemma _set_namespace_run (ns : string) (clean : bool) (w : World) :
  Py.startswith ":" ns = true →
  _set_namespace ns clean w
  = (Ok tt, namespace_entered ns (namespace_cleaned ns clean w),
     set_namespace_trace ns clean w).
Proof.
  intros Hns. unfold _set_namespace. rewrite Hns, bind_ret_l.
  unfold set_namespace_trace.
  eapply (bind_ok2 _ _ _ tt (namespace_cleaned ns clean w)).
  { unfold namespace_cleaned. destruct clean; [|reflexivity].
    rewrite (bind_query _ _ _ _ (ls_run _ w)).
    destruct (matching (ns +:+ ":*") w); [reflexivity|]. apply delete_run. }
  unfold cmds.namespace_exists. rewrite bind_gets.
  assert (Hk : (bool_decide (ns = ":")
                || bool_decide (ns ∈ scene_namespaces (scene (namespace_cleaned ns clean w))))
               = namespace_known w ns).
  { unfold namespace_known, namespace_cleaned. destruct clean; [|reflexivity].
    destruct (matching (ns +:+ ":*") w); reflexivity. }
  rewrite Hk. unfold namespace_entered.
  replace (namespace_known (namespace_cleaned ns clean w) ns)
    with (namespace_known w ns) by (symmetry; exact Hk).
  destruct (namespace_known w ns); reflexivity.
Qed.


Lemma export_fbx_run_world `{OsPath} (self : Exportable) (fbx : string) (s e : Z)
    (nodes : option (list string)) (add_border_keys : bool) (w : World)
    (node_list : list string) :
  _Exportable.find_nodes self w = (Ok node_list, w, []) →
  let chosen := chosen_nodes nodes node_list in
  _Exportable.export_fbx self fbx (s, e) nodes add_border_keys w
  = (Ok tt, exported fbx add_border_keys chosen w,
     CmdsSelect chosen
     :: export_prelude fbx s e add_border_keys (set_scene (cmds.with_selection chosen) w)
     ++ [CmdsLoadPlugin "fbxmaya"; FbxExport (fbx_script fbx) fbx chosen]).
Proof.
  intros Hfind chosen.
  assert (Hchoose :
    match nodes with
    | Some (n :: ns) => ret (n :: ns)
    | _ => _Exportable.find_nodes self
    end w = (Ok chosen, w, [])).
  { unfold chosen, chosen_nodes. destruct nodes as [[|n ns]|];
      first [exact Hfind | reflexivity]. }
  unfold _Exportable.export_fbx.
  rewrite (bind_query _ _ _ _ Hchoose).
  eapply (bind_ok2 _ _ _ _ _ [_]); [apply select_run|].
  rewrite _fbx_export_selection_run. cbv zeta.
  unfold export_prelude, exported. rewrite app_assoc. reflexivity.
Qed.

Lemma export_prelude_quiet `{OsPath} (fbx : string) (s e : Z) (abk : bool) (w : World) :
  Forall (λ ev, ¬ selects_or_exports ev) (export_prelude fbx s e abk w).
Proof.
  unfold export_prelude. apply Forall_app. split.
  - destruct abk; [|constructor].
    constructor; [auto|apply border_keys_quiet].
  - destruct (path_exists_in _ _); repeat constructor; auto.
Qed.


Lemma duplicate_run (node : string) (w : World) :
  node ∈ scene_nodes (scene w) →
  cmds.duplicate node w
  = (Ok [cmds.qualify (scene_current_namespace (scene w))
           (scene_duplicate_leaf (scene w) node)],
     duplicated node w,
     [CmdsDuplicate node
        (cmds.qualify (scene_current_namespace (scene w))
           (scene_duplicate_leaf (scene w) node))]).
Proof.
  intros Hin. unfold cmds.duplicate. rewrite bind_gets.
  rewrite (bool_decide_eq_true_2 _ Hin), bind_ret_l. reflexivity.
Qed.

Lemma duplicate_missing (node : string) (w : World) :
  node ∉ scene_nodes (scene w) →
  cmds.duplicate node w = (Raise ValueError, w, []).
Proof.
  intros Hout. unfold cmds.duplicate. rewrite bind_gets.
  rewrite (bool_decide_eq_false_2 _ Hout). reflexivity.
Qed.

Lemma parentConstraint_run (target node : string) (w : World) :
  cmds.parentConstraint target node w
  = (let cons := cmds.qualify (scene_current_namespace (scene w))
                   (scene_constraint_leaf (scene w) "parentConstraint" node) in
     (Ok [cons], constrained cons w, [CmdsParentConstraint target node cons])).
Proof. reflexivity. Qed.

Lemma scaleConstraint_run (target node : string) (w : World) :
  cmds.scaleConstraint target node w
  = (let cons := cmds.qualify (scene_current_namespace (scene w))
                   (scene_constraint_leaf (scene w) "scaleConstraint" node) in
     (Ok [cons], constrained cons w, [CmdsScaleConstraint target node cons])).
Proof. reflexivity. Qed.


Lemma world_tmp_facts (w : World) :
  scene_current_namespace (scene (world_tmp w)) = ":export_tmp"
  ∧ same_host w (world_tmp w)
  ∧ scene_shapes (scene (world_tmp w)) = scene_shapes (scene w)
  ∧ scene_parent (scene (world_tmp w)) = scene_parent (scene w)
  ∧ fs (world_tmp w) = fs w
  ∧ user (world_tmp w) = user w.
Proof.
  unfold world_tmp, namespace_entered, namespace_cleaned, same_host.
  destruct (matching _ w); cbn; repeat split.
Qed.

Lemma world_dup_facts (w : World) (c : _Camera.t) :
  scene_current_namespace (scene (world_dup w c)) = ":export_tmp"
  ∧ same_host w (world_dup w c)
  ∧ scene_shapes (scene (world_dup w c)) (dup_tfm w c) = dup_shapes w c
  ∧ fs (world_dup w c) = fs w
  ∧ user (world_dup w c) = user w.
Proof.
  unfold world_dup, duplicated, parented_world, dup_shapes, dup_tfm, world_tmp,
    namespace_entered, namespace_cleaned, same_host.
  destruct (matching _ w), (Py.truthy_list _); cbn;
    rewrite ?bool_decide_eq_true_2 by reflexivity; repeat split.
Qed.


Lemma world_baked_facts (w : World) (c : _Camera.t) :
  same_host w (world_baked w c)
  ∧ scene_current_namespace (scene (world_baked w c)) = ":export_tmp"
  ∧ fs (world_baked w c) = fs w
  ∧ user (world_baked w c) = user w.
Proof.
  unfold world_baked, static_deleted, deleted, constrained, world_dup, duplicated,
    parented_world, dup_shapes, dup_tfm, world_tmp, namespace_entered,
    namespace_cleaned, same_host.
  destruct (matching _ w), (Py.truthy_list _); cbn; repeat split.
Qed.

Lemma connect_loop_run (w0 w : World) (shp dshp : string) (attrs : list string) :
  scene_attr_type (scene w) = scene_attr_type (scene w0) →
  for_each attrs (λ _attr,
    let* _type := cmds.attributeQuery_attributeType _attr shp in
    if Py.mem _type ["message"] then ret tt
    else cmds.connectAttr (shp +:+ "." +:+ _attr) (dshp +:+ "." +:+ _attr)) w
  = (Ok tt, w, connections w0 shp dshp attrs).
Proof.
  intros Htype. unfold connections. apply for_each_emits. intros attr.
  unfold cmds.attributeQuery_attributeType. rewrite bind_gets, Htype.
  destruct (Py.mem _ _); reflexivity.
Qed.

Lemma set_namespace_root_run (w : World) :
  _set_namespace ":" false w = (Ok tt, namespace_entered ":" w, [CmdsNamespaceSet ":"]).
Proof. rewrite _set_namespace_run by reflexivity. reflexivity. Qed.

Lemma world_space_run `{OsPath} (c : _Camera.t) (fbx : string) (s e : Z)
    (add_border_keys cleanup : bool) (w : World) (shp0 : string)
    (shps attrs : list string) :
  _Camera.tfm c ∈ scene_nodes (scene (world_tmp w)) →
  scene_shapes (scene w) (_Camera.tfm c) = Some (shp0 :: shps) →
  scene_keyable (scene w) (_Camera.shp c) = Some attrs →
  export_fbx_in_world_space c fbx (s, e) add_border_keys cleanup w
  = (Ok tt, world_final w c fbx add_border_keys cleanup,
     world_space_trace w c fbx s e add_border_keys cleanup attrs).
Proof.
  intros Hcam Hshapes Hkeyable.
  destruct (world_tmp_facts w) as (Hns1 & Hhost1 & Hsh1 & Hpar1 & _).
  destruct (world_dup_facts w c) as (Hns3 & Hhost3 & Hsh3 & _).
  unfold same_host in Hhost1, Hhost3.
  destruct Hhost1 as (_&_&_&_&_&_&_&_&_&_&Hleaf1&_).
  destruct Hhost3 as (_&_&Hkey3&Htype3&_&_&_&_&_&_&_&Hcons3).
  unfold export_fbx_in_world_space, world_space_trace.
  (* enter the temporary namespace *)
  eapply bind_ok2; [apply _set_namespace_run; reflexivity|].
  fold (world_tmp w).
  (* duplicate *)
  eapply (bind_ok2 _ _ _ [dup_tfm w c] (duplicated (_Camera.tfm c) (world_tmp w))).
  { rewrite (duplicate_run _ _ Hcam), Hns1, Hleaf1. reflexivity. }
  rewrite bind_ret_l.
  eapply (bind_ok2 _ _ _
            {| _Camera.tfm := dup_tfm w c; _Camera.shp := dup_shp w c |}
            (duplicated (_Camera.tfm c) (world_tmp w)) []).
  { unfold _Camera.__init__, cmds.listRelatives_shapes. rewrite bind_gets.
    unfold duplicated. cbn [scene set_scene cmds.with_nodes cmds.with_relatives scene_shapes].
    rewrite Hns1, Hleaf1, Hsh1. fold (dup_tfm w c).
    rewrite bool_decide_eq_true_2 by reflexivity.
    unfold dup_shp, dup_shapes. rewrite Hshapes. reflexivity. }
  cbn [app _Camera.tfm _Camera.shp].
  (* parent to the world *)
  unfold cmds.listRelatives_parent. rewrite bind_gets.
  assert (Hpar2 : scene_parent (scene (duplicated (_Camera.tfm c) (world_tmp w))) (dup_tfm w c)
                  = scene_parent (scene w) (_Camera.tfm c)).
  { unfold duplicated. cbn [scene set_scene cmds.with_nodes cmds.with_relatives scene_parent].
    rewrite Hns1, Hleaf1, Hpar1. fold (dup_tfm w c).
    rewrite bool_decide_eq_true_2 by reflexivity. reflexivity. }
  rewrite Hpar2.
  eapply (bind_ok2 _ _ _ tt (world_dup w c)).
  { unfold world_dup.
    destruct (Py.truthy_list (default [] (scene_parent (scene w) (_Camera.tfm c))));
      reflexivity. }
  (* connect the shapes *)
  unfold cmds.listAttr_keyable. rewrite bind_gets, Hkey3, Hkeyable.
  eapply bind_ok2; [apply (connect_loop_run w); exact Htype3|].
  (* constrain, bake, delete the constraints *)
  eapply (bind_ok2 _ _ _ [dup_constraint w c "parentConstraint"]
            (constrained (dup_constraint w c "parentConstraint") (world_dup w c))
            [CmdsParentConstraint (_Camera.tfm c) (dup_tfm w c)
               (dup_constraint w c "parentConstraint")]).
  { rewrite parentConstraint_run, Hns3, Hcons3. reflexivity. }
  rewrite bind_ret_l.
  eapply (bind_ok2 _ _ _ [dup_constraint w c "scaleConstraint"]
            (constrained (dup_constraint w c "scaleConstraint")
               (constrained (dup_constraint w c "parentConstraint") (world_dup w c)))
            [CmdsScaleConstraint (_Camera.tfm c) (dup_tfm w c)
               (dup_constraint w c "scaleConstraint")]).
  { rewrite scaleConstraint_run.
    change (scene_current_namespace (scene (constrained ?x ?y)))
      with (scene_current_namespace (scene y)).
    change (scene_constraint_leaf (scene (constrained ?x ?y)))
      with (scene_constraint_leaf (scene y)).
    rewrite Hns3, Hcons3. reflexivity. }
  rewrite bind_ret_l.
  eapply (bind_ok2 _ _ _ tt _ [_]); [reflexivity|].
  eapply (bind_ok2 _ _ _ tt _ [_]); [apply delete_run|].
  eapply (bind_ok2 _ _ _ tt _ [_]); [apply mel_eval_static_run|].
  fold (world_baked w c).
  (* export the duplicate *)
  eapply (bind_ok3 _ _ _ tt (world_exported w c fbx add_border_keys)).
  { apply (export_fbx_run_world
             (Camera {| _Camera.tfm := dup_tfm w c; _Camera.shp := dup_shp w c |})
             fbx s e None add_border_keys (world_baked w c)
             [dup_tfm w c; dup_shp w c]).
    reflexivity. }
  { cbn [chosen_nodes app]. rewrite <- app_assoc. reflexivity. }
  (* clean up and leave the temporary namespace *)
  eapply (bind_ok2 _ _ _ tt
            (if cleanup
             then namespace_entered ":export_tmp"
                    (namespace_cleaned ":export_tmp" true
                       (world_exported w c fbx add_border_keys))
             else world_exported w c fbx add_border_keys)
            (if cleanup
             then set_namespace_trace ":export_tmp" true
                    (world_exported w c fbx add_border_keys)
             else [])).
  { destruct cleanup; [apply _set_namespace_run|]; reflexivity. }
  rewrite set_namespace_root_run. reflexivity.
Qed.


Lemma tmp_name_matches (leaf : string) :
  cmds.ls_match ":export_tmp:*" (cmds.qualify ":export_tmp" leaf) = true.
Proof.
  unfold cmds.ls_match, cmds.qualify. cbn.
  destruct leaf; reflexivity.
Qed.

Lemma cleaned_keeps (w : World) (n : string) :
  n ∈ scene_nodes (scene w) →
  cmds.ls_match ":export_tmp:*" n = false →
  n ∈ scene_nodes (scene (namespace_cleaned ":export_tmp" true w)).
Proof.
  intros Hin Hn. unfold namespace_cleaned.
  destruct (matching (":export_tmp" +:+ ":*") w) as [|x l] eqn:Hm; [exact Hin|].
  unfold deleted. cbn [scene set_scene cmds.with_nodes scene_nodes].
  apply list_elem_of_In, filter_In. split; [apply list_elem_of_In, Hin|].
  apply negb_true_iff, bool_decide_eq_false_2. rewrite <- Hm.
  intros Hx. apply list_elem_of_In, filter_In in Hx as [_ Hx].
  change (":export_tmp" +:+ ":*") with ":export_tmp:*" in Hx. congruence.
Qed.

Lemma world_tmp_keeps (w : World) (n : string) :
  n ∈ scene_nodes (scene w) → cmds.ls_match ":export_tmp:*" n = false →
  n ∈ scene_nodes (scene (world_tmp w)).
Proof. intros Hin Hn. apply (cleaned_keeps w n Hin Hn). Qed.

Lemma cleaned_no_tmp (w : World) :
  tmp_nodes (namespace_cleaned ":export_tmp" true w) = [].
Proof.
  unfold namespace_cleaned.
  change (matching (":export_tmp" +:+ ":*") w) with (tmp_nodes w).
  destruct (tmp_nodes w) as [|x l] eqn:Hm; [exact Hm|].
  unfold tmp_nodes, deleted. cbn [scene set_scene cmds.with_nodes scene_nodes].
  rewrite <- Hm.
  destruct (List.filter _ (List.filter _ _)) as [|y l'] eqn:Hf; [reflexivity|].
  assert (Hy : In y (y :: l')) by (left; reflexivity).
  rewrite <- Hf in Hy. apply filter_In in Hy as [Hy Hmatch].
  apply filter_In in Hy as [Hy Hnot].
  apply negb_true_iff, bool_decide_eq_false_1 in Hnot. exfalso. apply Hnot.
  apply list_elem_of_In, filter_In. split; assumption.
Qed.

Lemma world_final_nodes `{OsPath} (w : World) (c : _Camera.t) (fbx : string)
    (add_border_keys cleanup : bool) :
  (∀ n, n ∈ scene_nodes (scene w) → cmds.ls_match ":export_tmp:*" n = false →
        n ∈ scene_nodes (scene (world_final w c fbx add_border_keys cleanup)))
  ∧ (cleanup = true → tmp_nodes (world_final w c fbx add_border_keys cleanup) = []).
Proof.
  split.
  - intros n Hin Hn.
    assert (H1 : n ∈ scene_nodes (scene (world_tmp w))).
    { apply (cleaned_keeps w n Hin Hn). }
    assert (H3 : n ∈ scene_nodes (scene (world_dup w c))).
    { unfold world_dup, duplicated, parented_world.
      destruct (Py.truthy_list _);
        cbn [scene set_scene cmds.with_nodes cmds.with_relatives scene_nodes];
        apply elem_of_app; left; exact H1. }
    assert (H7 : n ∈ scene_nodes (scene (world_baked w c))).
    { unfold world_baked, static_deleted, deleted, constrained.
      cbn [scene set_scene cmds.with_nodes cmds.with_anim_curves scene_nodes].
      apply list_elem_of_In, filter_In. split.
      - apply list_elem_of_In. apply elem_of_app. left. apply elem_of_app. left. exact H3.
      - apply negb_true_iff, bool_decide_eq_false_2. intros Hc.
        apply elem_of_cons in Hc as [->|Hc].
        + unfold dup_constraint in Hn. rewrite tmp_name_matches in Hn. discriminate.
        + apply list_elem_of_singleton in Hc as ->.
          unfold dup_constraint in Hn. rewrite tmp_name_matches in Hn. discriminate. }
    assert (H8 : n ∈ scene_nodes (scene (world_exported w c fbx add_border_keys))).
    { unfold world_exported, exported, written, made_dir, static_deleted.
      destruct (path_exists_in _ _), add_border_keys; exact H7. }
    unfold world_final. cbv zeta. destruct cleanup; [|exact H8].
    apply (cleaned_keeps _ n H8 Hn).
  - intros ->. unfold world_final. cbv zeta.
    apply (cleaned_no_tmp (world_exported w c fbx add_border_keys)).
Qed.


(** C6 (as amended): for a camera of the scene outside the namespace
    [:export_tmp], with a shape that has keyable attributes, the export in
    world space runs these commands in this order: it empties and enters
    the namespace [:export_tmp]; duplicates the camera; parents the
    duplicate to the world when the camera has a parent; connects each
    keyable attribute of the original shape that is not of type [message]
    to the shape of the duplicate; parent-constrains and scale-constrains
    the duplicate to the original; bakes the duplicate over the range;
    deletes the two constraints and the static channels; selects and exports
    the duplicate; with cleanup, deletes the nodes of [:export_tmp]; and
    returns to the root namespace.  The transform and the shape of the
    original camera are still in the scene, and with cleanup no node is left
    in [:export_tmp]. *)
Theorem world_space_export `{OsPath} (c : _Camera.t) (fbx : string) (s e : Z)
    (add_border_keys cleanup : bool) (w : World) (shp0 : string)
    (shps attrs : list string) :
  _Camera.tfm c ∈ scene_nodes (scene w) →
  _Camera.shp c ∈ scene_nodes (scene w) →
  cmds.ls_match ":export_tmp:*" (_Camera.tfm c) = false →
  cmds.ls_match ":export_tmp:*" (_Camera.shp c) = false →
  scene_shapes (scene w) (_Camera.tfm c) = Some (shp0 :: shps) →
  scene_keyable (scene w) (_Camera.shp c) = Some attrs →
  let o := export_fbx_in_world_space c fbx (s, e) add_border_keys cleanup w in
  let dup := dup_tfm w c in
  let dshp := dup_shp w c in
  let p_cons := dup_constraint w c "parentConstraint" in
  let s_cons := dup_constraint w c "scaleConstraint" in
  result_of o = Ok tt
  ∧ (∃ prelude w_exported,
       trace_of o
       = set_namespace_trace ":export_tmp" true w
         ++ [CmdsDuplicate (_Camera.tfm c) dup]
         ++ (if Py.truthy_list (default [] (scene_parent (scene w) (_Camera.tfm c)))
             then [CmdsParentWorld dup] else [])
         ++ connections w (_Camera.shp c) dshp attrs
         ++ [CmdsParentConstraint (_Camera.tfm c) dup p_cons;
             CmdsScaleConstraint (_Camera.tfm c) dup s_cons;
             CmdsBakeResults [dup; dshp] (s, e);
             CmdsDelete [p_cons; s_cons];
             MelEval "DeleteAllStaticChannels";
             CmdsSelect [dup; dshp]]
         ++ prelude
         ++ [CmdsLoadPlugin "fbxmaya"; FbxExport (fbx_script fbx) fbx [dup; dshp]]
         ++ (if cleanup then set_namespace_trace ":export_tmp" true w_exported else [])
         ++ [CmdsNamespaceSet ":"]
       ∧ Forall (λ ev, ¬ selects_or_exports ev) prelude)
  ∧ _Camera.tfm c ∈ scene_nodes (scene (world_of o))
  ∧ _Camera.shp c ∈ scene_nodes (scene (world_of o))
  ∧ (cleanup = true → tmp_nodes (world_of o) = []).
Proof.
  intros Htfm Hshp Htfm_out Hshp_out Hshapes Hkeyable. cbv zeta.
  rewrite (world_space_run c fbx s e add_border_keys cleanup w shp0 shps attrs
             (world_tmp_keeps w _ Htfm Htfm_out) Hshapes Hkeyable).
  cbn [result_of world_of trace_of fst snd].
  split; [reflexivity|]. split.
  - eexists _, _. split; [reflexivity|]. apply export_prelude_quiet.
  - destruct (world_final_nodes w c fbx add_border_keys cleanup) as [Hkeep Hclean].
    split; [apply Hkeep; assumption|]. split; [apply Hkeep; assumption|exact Hclean].
Qed.

Lemma world_space_export_witness :
  result_of
    (export_fbx_in_world_space (H := Shot.platform) Shot.shotcam
       "/out/A_sh010_shotcam.fbx" (1, 24)%Z true true Shot.world)
  = Ok tt
  ∧ "shotcam" ∈ scene_nodes
      (scene (world_of
         (export_fbx_in_world_space (H := Shot.platform) Shot.shotcam
            "/out/A_sh010_shotcam.fbx" (1, 24)%Z true true Shot.world))).
Proof.
  assert (Htfm : "shotcam" ∈ scene_nodes (scene Shot.world))
    by (apply (bool_decide_unpack _); vm_compute; exact I).
  assert (Hshp : "shotcamShape" ∈ scene_nodes (scene Shot.world))
    by (apply (bool_decide_unpack _); vm_compute; exact I).
  destruct (world_space_export (H := Shot.platform) Shot.shotcam
              "/out/A_sh010_shotcam.fbx" 1 24 true true Shot.world
              "shotcamShape" [] ["focalLength"; "lensLink"]
              Htfm Hshp eq_refl eq_refl eq_refl eq_refl)
    as (Hok & _ & Hkeep & _).
  split; [exact Hok|exact Hkeep].
Defined.

(** C6 as the specification states it fails, in the shot.  The camera
    [persp] has no parent, and its duplicate is not parented to the world.
    The shape of the shot camera has the keyable attribute [lensLink], of
    type [message], and the export does not connect it to the duplicate.
    And for a camera that an earlier export left in [:export_tmp], the
    export first deletes the camera and then fails to duplicate it: nothing
    is exported and the camera is no longer in the scene. *)
Lemma world_space_skips_message_attribute :
  let persp := {| _Camera.tfm := "persp"; _Camera.shp := "perspShape" |} in
  let o1 := export_fbx_in_world_space (H := Shot.platform) persp
              "/out/A_sh010_persp.fbx" (1, 24)%Z true true Shot.world in
  let o2 := export_fbx_in_world_space (H := Shot.platform) Shot.shotcam
              "/out/A_sh010_shotcam.fbx" (1, 24)%Z true true Shot.world in
  let left := {| _Camera.tfm := "export_tmp:shotcam";
                 _Camera.shp := "export_tmp:shotcamShape" |} in
  let o3 := export_fbx_in_world_space (H := Shot.platform) left
              "/out/A_sh010_export_tmp.fbx" (1, 24)%Z true true shot_left_behind in
  (scene_parent (scene Shot.world) "persp" = None
   ∧ result_of o1 = Ok tt
   ∧ ∀ node, CmdsParentWorld node ∉ trace_of o1)
  ∧ (scene_keyable (scene Shot.world) "shotcamShape" = Some ["focalLength"; "lensLink"]
     ∧ result_of o2 = Ok tt
     ∧ ∀ dst, CmdsConnectAttr "shotcamShape.lensLink" dst ∉ trace_of o2)
  ∧ ("export_tmp:shotcam" ∈ scene_nodes (scene shot_left_behind)
     ∧ result_of o3 = Raise ValueError
     ∧ exported_files (trace_of o3) = []
     ∧ "export_tmp:shotcam" ∉ scene_nodes (scene (world_of o3))).
Proof.
  cbv zeta. split; [|split].
  - split; [reflexivity|]. split; [vm_compute; reflexivity|].
    intros node Hin. vm_compute in Hin.
    repeat (apply elem_of_cons in Hin as [Hin|Hin]; [discriminate Hin|]).
    inversion Hin.
  - split; [reflexivity|]. split; [vm_compute; reflexivity|].
    intros dst Hin. vm_compute in Hin.
    repeat (apply elem_of_cons in Hin as [Hin|Hin]; [discriminate Hin|]).
    inversion Hin.
  - split; [apply (bool_decide_unpack _); vm_compute; exact I|].
    split; [vm_compute; reflexivity|]. split; [vm_compute; reflexivity|].
    apply (bool_decide_eq_false_1 _). vm_compute. reflexivity.
Qed.

(** ** Events of a computation *)

Lemma emits_ret {A} (P : Event → Prop) (a : A) : emits P (ret a).
Proof. intros w. constructor. Qed.

Lemma emits_raise {A} (P : Event → Prop) (e : Exn) : emits P (raise (A := A) e).
Proof. intros w. constructor. Qed.

Lemma emits_gets {A} (P : Event → Prop) (f : World → A) : emits P (gets f).
Proof. intros w. constructor. Qed.

Lemma emits_modify (P : Event → Prop) (f : World → World) : emits P (modify f).
Proof. intros w. constructor. Qed.

Lemma emits_emit (P : Event → Prop) (ev : Event) : P ev → emits P (emit ev).
Proof. intros HP w. constructor; [exact HP|constructor]. Qed.

Lemma emits_bind {A B} (P : Event → Prop) (m : M A) (k : A → M B) :
  emits P m → (∀ a, emits P (k a)) → emits P (bind m k).
Proof.
  intros Hm Hk w. specialize (Hm w). unfold bind.
  destruct (m w) as [[[a|e] w1] t1]; [|exact Hm].
  specialize (Hk a w1). destruct (k a w1) as [[r w2] t2].
  apply Forall_app. split; assumption.
Qed.

Lemma emits_try_except {A} (P : Event → Prop) (m h : M A) (e : Exn) :
  emits P m → emits P h → emits P (try_except m e h).
Proof.
  intros Hm Hh w. specialize (Hm w). unfold try_except.
  destruct (m w) as [[[a|e'] w1] t1]; [exact Hm|].
  destruct (bool_decide (e' = e)); [|exact Hm].
  specialize (Hh w1). destruct (h w1) as [[r w2] t2].
  apply Forall_app. split; assumption.
Qed.

Lemma emits_for_each {A} (P : Event → Prop) (body : A → M unit) (l : list A) :
  (∀ x, emits P (body x)) → emits P (for_each l body).
Proof.
  intros Hbody. induction l as [|x l IH]; [apply emits_ret|].
  cbn [for_each]. apply emits_bind; [apply Hbody|intros _; exact IH].
Qed.

Lemma emits_for_fold {A S} (P : Event → Prop) (body : A → S → M S) (l : list A) :
  (∀ x s, emits P (body x s)) → ∀ s, emits P (for_fold l s body).
Proof.
  intros Hbody. induction l as [|x l IH]; intros s; [apply emits_ret|].
  cbn [for_fold]. apply emits_bind; [apply Hbody|exact IH].
Qed.

Lemma emits_for_in {A} (P : Event → Prop) (body : A → M unit) :
  P ProcessEvents → P ProgressClose → (∀ v, P (ProgressSetValue v)) →
  (∀ x, emits P (body x)) →
  ∀ fuel bar, emits P (_ProgressBar.for_in fuel bar body).
Proof.
  intros Hpe Hclose Hset Hbody. induction fuel as [|fuel IH]; intros bar.
  - apply emits_raise.
  - cbn [_ProgressBar.for_in]. apply emits_bind.
    + apply emits_try_except; [|apply emits_ret].
      apply emits_bind; [|intros; apply emits_ret].
      unfold _ProgressBar.next. apply emits_bind; [apply emits_emit, Hpe|intros _].
      destruct (_ProgressBar.items bar).
      * apply emits_bind; [apply emits_emit, Hclose|intros; apply emits_raise].
      * apply emits_bind; [apply emits_emit, Hset|intros; apply emits_ret].
    + intros [[x bar']|]; [|apply emits_ret].
      apply emits_bind; [apply Hbody|intros _; apply IH].
Qed.

Create HintDb script.
#[export] Hint Unfold
  os.path_exists os.makedirs os.remove
  _MessageBox.get_result _MessageBox.exec_ _ok_cancel _notify
  cmds.file_query_location cmds.file_query_namespace cmds.objExists
  cmds.ls_selection cmds.ls_type_reference cmds.ls cmds.referenceQuery_filename
  cmds.referenceQuery_isLoaded cmds.referenceQuery_parentNamespace_0
  cmds.listAttr_keyable cmds.attributeQuery_attributeType
  cmds.listConnections_animCurve cmds.listRelatives_shapes
  cmds.listRelatives_parent cmds.namespace_exists cmds.select cmds.delete
  cmds.namespace_addNamespace cmds.namespace_setNamespace cmds.duplicate
  cmds.parent_world cmds.connectAttr cmds.parentConstraint cmds.scaleConstraint
  cmds.bakeResults cmds.setKeyframe cmds.loadPlugin mel.eval mel.eval_FBXExport
  _set_namespace _fbx_export_selection _Camera.__init__ _Rig._file _Rig.namespace
  _Rig.name _Rig.find_nodes _Exportable.name _Exportable.find_nodes
  _Exportable.export_fbx export_fbx_in_world_space export_one : script.

(** Proves [emits P m] for a computation of the script, given that the
    events it emits pass [tac]. *)
Ltac emits_script tac :=
  repeat first
    [ apply emits_ret | apply emits_raise | apply emits_gets | apply emits_modify
    | apply emits_emit; tac
    | apply emits_bind; [|intros]
    | apply emits_try_except
    | apply emits_for_each; intros
    | apply emits_for_fold; intros
    | match goal with
      | |- emits _ (if ?b then _ else _) => destruct b
      | |- emits _ (match ?x with _ => _ end) => destruct x
      | |- emits _ (let '(_, _) := ?x in _) => destruct x
      end
    | progress autounfold with script ].

Lemma export_one_emits `{OsPath} (P : Event → Prop) (range_ : Z * Z)
    (add_border_keys bake : bool) (roots : option (list string))
    (item : Exportable * string) :
  (∀ ev, ¬ is_remove ev → ¬ is_confirmation ev → P ev) →
  emits P (export_one range_ add_border_keys bake roots item).
Proof.
  intros HP.
  emits_script ltac:(apply HP; cbn; first [tauto | discriminate]).
Qed.


(** ** The phases of the export *)

Lemma name_run (e : Exportable) (w : World) :
  _Exportable.name e w = (Ok (export_name w e), w, []).
Proof.
  destruct e as [c|r]; [reflexivity|].
  unfold _Exportable.name, _Rig.name. apply _Rig_namespace_run.
Qed.

Lemma find_paths_run `{OsPath} (w : World) (dir_ : string)
    (exportables : list Exportable) :
  ∀ (d0 : list string) (e0 : list (Exportable * string)),
    for_fold exportables (d0, e0) (fun _exp '(_to_delete, _exports) =>
      let* name := _Exportable.name _exp in
      let _fbx := fbx_path dir_ (scene_location (scene w)) name in
      let _exports := _exports ++ [(_exp, _fbx)] in
      let* e := os.path_exists _fbx in
      ret (if e then _to_delete ++ [_fbx] else _to_delete, _exports)) w
    = (Ok (d0 ++ to_delete w dir_ exportables, e0 ++ export_paths w dir_ exportables),
       w, []).
Proof.
  induction exportables as [|x l IH]; intros d0 e0.
  - cbn. rewrite !app_nil_r. reflexivity.
  - cbn [for_fold].
    eapply (bind_ok2 _ _ _ _ w []).
    { rewrite (bind_query _ _ _ _ (name_run x w)). cbv zeta.
      unfold os.path_exists. rewrite bind_gets. reflexivity. }
    rewrite IH. unfold to_delete, export_paths. cbn [List.map List.filter snd].
    fold (path_exists_in w (fbx_path dir_ (scene_location (scene w)) (export_name w x))).
    destruct (path_exists_in w _); rewrite <- !app_assoc; reflexivity.
Qed.

Lemma remove_run (p : string) (w : World) :
  os.remove p w
  = if bool_decide (p ∈ fs_files (fs w))
    then (Ok tt,
          set_fs (λ f, {| fs_files := fs_files f ∖ {[p]}; fs_dirs := fs_dirs f |}) w,
          [OsRemove p])
    else (Raise OSError, w, []).
Proof.
  unfold os.remove. rewrite bind_gets.
  destruct (bool_decide (p ∈ fs_files (fs w))); reflexivity.
Qed.

Lemma remove_all_run (l : list string) (w : World) :
  ∃ done : list string,
    let o := for_each l os.remove w in
    trace_of o = List.map OsRemove done
    ∧ (∀ f, f ∈ done → f ∈ l)
    ∧ scene (world_of o) = scene w
    ∧ user (world_of o) = user w
    ∧ fs_dirs (fs (world_of o)) = fs_dirs (fs w)
    ∧ fs_files (fs (world_of o)) = fs_files (fs w) ∖ list_to_set done
    ∧ (result_of o = Ok tt → done = l).
Proof.
  revert w. induction l as [|p l IH]; intros w.
  - exists []. cbn. repeat split; auto.
    apply set_eq. intros x. rewrite elem_of_difference, elem_of_empty. tauto.
  - cbn [for_each]. rewrite bind_run, remove_run.
    destruct (bool_decide (p ∈ fs_files (fs w))).
    + cbn [result_of world_of trace_of fst snd].
      destruct (IH (set_fs (λ f, {| fs_files := fs_files f ∖ {[p]};
                                    fs_dirs := fs_dirs f |}) w))
        as (done & Ht & Hsub & Hsc & Hu & Hd & Hf & Hok).
      exists (p :: done). cbv zeta in *. cbn [result_of world_of trace_of fst snd].
      rewrite Ht, Hsc, Hu, Hd, Hf. cbn.
      split; [reflexivity|]. split.
      { intros f Hin. apply elem_of_cons in Hin as [->|Hin];
          [apply list_elem_of_here|apply list_elem_of_further, Hsub, Hin]. }
      do 3 (split; [reflexivity|]). split.
      { apply set_eq. intros x.
        rewrite !elem_of_difference, elem_of_union, elem_of_singleton. tauto. }
      intros Hr. f_equal. apply Hok, Hr.
    + exists []. cbn. repeat split; auto; try discriminate.
      * intros f Hf. inversion Hf.
      * apply set_eq. intros x. rewrite elem_of_difference, elem_of_empty. tauto.
Qed.


Lemma bind_assoc3 {A B C D} (m : M A) (f : A → M B) (g : A → M C) (h : M D) w :
  bind m (λ a, bind (f a) (λ _, bind (g a) (λ _, h))) w
  = bind (bind m (λ a, bind (f a) (λ _, g a))) (λ _, h) w.
Proof.
  unfold bind. destruct (m w) as [[[a|e] w1] t1]; [|reflexivity].
  destruct (f a w1) as [[[b|e] w2] t2]; [|reflexivity].
  destruct (g a w2) as [[[c|e] w3] t3]; [|rewrite ?app_assoc; reflexivity].
  destruct (h w3) as [[r w4] t4]. rewrite !app_assoc. reflexivity.
Qed.

Lemma export_fbxs_phases `{OsPath} (exportables : list Exportable) (dir_ : string)
    (range_ : Z * Z) (add_border_keys bake : bool) (roots : option (list string))
    (w : World) :
  _export_fbxs exportables dir_ range_ add_border_keys bake roots w
  = match exportables with
    | [] => (_notify "Nothing selected to export" "Confirm";; ret tt) w
    | _ =>
        (confirm_phase dir_ (to_delete w dir_ exportables);;
         export_loop range_ add_border_keys bake roots
           (export_paths w dir_ exportables)) w
    end.
Proof.
  unfold _export_fbxs, cmds.file_query_location. rewrite bind_gets.
  rewrite (bind_query _ _ _ _ (find_paths_run w dir_ exportables [] [])).
  cbn [app].
  destruct exportables as [|x l]; [reflexivity|].
  cbn [export_paths List.map Py.truthy_list negb].
  unfold confirm_phase. rewrite <- bind_assoc3. reflexivity.
Qed.

Lemma export_loop_emits `{OsPath} (P : Event → Prop) (range_ : Z * Z)
    (add_border_keys bake : bool) (roots : option (list string))
    (_exports : list (Exportable * string)) :
  (∀ ev, ¬ is_remove ev → ¬ is_confirmation ev → P ev) →
  emits P (export_loop range_ add_border_keys bake roots _exports).
Proof.
  intros HP. unfold export_loop. cbv zeta. apply emits_bind.
  - unfold _ProgressBar.__init__.
    apply emits_bind; [apply emits_emit, HP; cbn; tauto|intros _].
    apply emits_bind; [apply emits_emit, HP; cbn; tauto|intros _].
    apply emits_ret.
  - intros bar. apply emits_for_in; try (intros; apply HP; cbn; tauto).
    intros x. apply export_one_emits, HP.
Qed.


Lemma preceded_by_none (g : Event) (P : Event → Prop) (t : list Event) :
  Forall (λ ev, ¬ P ev) t → preceded_by g P t.
Proof.
  intros Hall pre ev post -> HP. exfalso.
  apply Forall_app in Hall as [_ Hall]. inversion Hall; subst. contradiction.
Qed.

Lemma preceded_by_head (g : Event) (P : Event → Prop) (t : list Event) :
  ¬ P g → preceded_by g P (g :: t).
Proof.
  intros Hg pre ev post Heq HP. destruct pre as [|x pre].
  - injection Heq as <- _. contradiction.
  - injection Heq as <- _. apply list_elem_of_here.
Qed.

Lemma create_is_not_replace (dir_ : string) (l : list string) :
  create_dir_msg dir_ ≠ replace_msg l.
Proof. unfold create_dir_msg, replace_msg. cbn. discriminate. Qed.

Lemma not_in_quiet (g : Event) (t : list Event) :
  is_confirmation g →
  Forall (λ ev, ¬ is_remove ev ∧ ¬ is_confirmation ev) t → g ∉ t.
Proof.
  intros Hg Hall Hin. rewrite Forall_forall in Hall.
  apply Hall in Hin. tauto.
Qed.

Lemma export_loop_quiet `{OsPath} (range_ : Z * Z) (add_border_keys bake : bool)
    (roots : option (list string)) (_exports : list (Exportable * string))
    (w : World) :
  Forall (λ ev, ¬ is_remove ev ∧ ¬ is_confirmation ev)
    (trace_of (export_loop range_ add_border_keys bake roots _exports w)).
Proof. apply export_loop_emits. auto. Qed.

Lemma ok_cancel_run_ok (msg : string) (w : World) :
  next_click w = 0%nat →
  _ok_cancel msg "Confirm" w
  = (Ok "Ok", after_click w, [MessageBoxExec "Confirm" msg ["Ok"; "Cancel"] 0]).
Proof. intros Hk. rewrite _ok_cancel_run, Hk. reflexivity. Qed.

Lemma ok_cancel_run_raise (msg : string) (w : World) :
  next_click w ≠ 0%nat →
  ∃ e, _ok_cancel msg "Confirm" w
       = (Raise e, after_click w,
          [MessageBoxExec "Confirm" msg ["Ok"; "Cancel"] (next_click w)])
       ∧ (next_click w = 1%nat → e = RuntimeError).
Proof.
  intros Hk. rewrite _ok_cancel_run. unfold clicked_result.
  destruct (next_click w) as [|[|k]]; [contradiction|..]; cbn; eauto.
  eexists. split; [reflexivity|]. discriminate.
Qed.

Lemma confirm_phase_create (dir_ : string) (w : World) :
  path_exists_in w dir_ = false → next_click w = 0%nat →
  confirm_phase dir_ [] w
  = (Ok tt, made_dir dir_ (after_click w), [create_dir_box dir_ 0; OsMakedirs dir_]).
Proof.
  intros Hex Hk. unfold confirm_phase, os.path_exists at 1. rewrite bind_gets.
  fold (path_exists_in w dir_). rewrite Hex. cbn [negb Py.truthy_list].
  eapply (bind_ok3 _ _ _ tt (made_dir dir_ (after_click w))
            [create_dir_box dir_ 0; OsMakedirs dir_] _ _ []);
    [|reflexivity|reflexivity].
  eapply (bind_ok2 _ _ _ _ _ [_]); [apply ok_cancel_run_ok, Hk|].
  apply makedirs_run. exact Hex.
Qed.

Lemma confirm_phase_create_cancel (dir_ : string) (D : list string) (w : World) :
  path_exists_in w dir_ = false → next_click w ≠ 0%nat →
  ∃ e, confirm_phase dir_ D w
       = (Raise e, after_click w, [create_dir_box dir_ (next_click w)])
       ∧ (next_click w = 1%nat → e = RuntimeError).
Proof.
  intros Hex Hk. unfold confirm_phase, os.path_exists at 1. rewrite bind_gets.
  fold (path_exists_in w dir_). rewrite Hex. cbn [negb].
  destruct (ok_cancel_run_raise (create_dir_msg dir_) w Hk) as (e & Hrun & He).
  exists e. split; [|exact He].
  apply bind_raise. apply bind_raise. exact Hrun.
Qed.

Lemma confirm_phase_nothing (dir_ : string) (w : World) :
  path_exists_in w dir_ = true →
  confirm_phase dir_ [] w = (Ok tt, w, []).
Proof.
  intros Hex. unfold confirm_phase, os.path_exists at 1. rewrite bind_gets.
  fold (path_exists_in w dir_). rewrite Hex. reflexivity.
Qed.

Lemma confirm_phase_replace_cancel (dir_ : string) (D : list string) (w : World) :
  path_exists_in w dir_ = true → D ≠ [] → next_click w ≠ 0%nat →
  ∃ e, confirm_phase dir_ D w
       = (Raise e, after_click w, [replace_box D (next_click w)])
       ∧ (next_click w = 1%nat → e = RuntimeError).
Proof.
  intros Hex HD Hk. unfold confirm_phase, os.path_exists at 1. rewrite bind_gets.
  fold (path_exists_in w dir_). rewrite Hex. cbn [negb]. rewrite bind_ret_l.
  destruct D as [|d D]; [contradiction|]. cbn [Py.truthy_list].
  destruct (ok_cancel_run_raise (replace_msg (d :: D)) w Hk) as (e & Hrun & He).
  exists e. split; [|exact He]. apply bind_raise. exact Hrun.
Qed.

Lemma confirm_phase_replace (dir_ : string) (D : list string) (w : World) :
  path_exists_in w dir_ = true → D ≠ [] → next_click w = 0%nat →
  confirm_phase dir_ D w
  = (result_of (for_each D os.remove (after_click w)),
     world_of (for_each D os.remove (after_click w)),
     replace_box D 0 :: trace_of (for_each D os.remove (after_click w))).
Proof.
  intros Hex HD Hk. unfold confirm_phase, os.path_exists at 1. rewrite bind_gets.
  fold (path_exists_in w dir_). rewrite Hex. cbn [negb]. rewrite bind_ret_l.
  destruct D as [|d D]; [contradiction|]. cbn [Py.truthy_list].
  eapply (bind_ok2 _ _ _ _ _ [_]); [apply ok_cancel_run_ok, Hk|].
  apply outcome_eta.
Qed.


(** The shapes of a run of the export on a file system where the files to
    replace imply the export directory. *)
Lemma export_fbxs_shape `{OsPath} (exportables : list Exportable)
    (dir_ : string) (range_ : Z * Z) (add_border_keys bake : bool)
    (roots : option (list string)) (w : World) :
  (to_delete w dir_ exportables ≠ [] → path_exists_in w dir_ = true) →
  let o := _export_fbxs exportables dir_ range_ add_border_keys bake roots w in
  let D := to_delete w dir_ exportables in
  (exportables = []
   ∧ trace_of o = [MessageBoxExec "Confirm" "Nothing selected to export"
                     ["Ok"; "Cancel"] (next_click w)])
  ∨ (next_click w ≠ 0%nat
     ∧ (trace_of o = [create_dir_box dir_ (next_click w)]
        ∨ trace_of o = [replace_box D (next_click w)])
     ∧ world_of o = after_click w
     ∧ ∃ e, result_of o = Raise e ∧ (next_click w = 1%nat → e = RuntimeError))
  ∨ (path_exists_in w dir_ = false
     ∧ ∃ tl, trace_of o = create_dir_box dir_ 0 :: OsMakedirs dir_ :: tl ∧ quiet_loop tl)
  ∨ (path_exists_in w dir_ = true ∧ quiet_loop (trace_of o))
  ∨ (path_exists_in w dir_ = true
     ∧ ∃ done tl, trace_of o = replace_box D 0 :: List.map OsRemove done ++ tl
                  ∧ (∀ f, f ∈ done → f ∈ D) ∧ quiet_loop tl).
Proof.
  intros Hfs. cbv zeta. rewrite export_fbxs_phases.
  set (D := to_delete w dir_ exportables) in *.
  destruct exportables as [|x l].
  { left. split; [reflexivity|].
    rewrite bind_run, _notify_run. cbn [result_of world_of trace_of fst snd].
    destruct (clicked_result _ _); reflexivity. }
  right.
  set (loop := export_loop range_ add_border_keys bake roots
                 (export_paths w dir_ (x :: l))).
  assert (Hloop : ∀ w', quiet_loop (trace_of (loop w')))
    by (intros w'; apply export_loop_quiet).
  destruct (path_exists_in w dir_) eqn:Hex.
  - (* the export directory exists *)
    destruct D as [|d D'] eqn:HD.
    + right. right. left. split; [reflexivity|].
      rewrite (bind_query _ _ _ _ (confirm_phase_nothing dir_ w Hex)). apply Hloop.
    + destruct (decide (next_click w = 0%nat)) as [Hk|Hk].
      * right. right. right. split; [reflexivity|].
        rewrite bind_run, (confirm_phase_replace dir_ (d :: D') w Hex) by (congruence || exact Hk).
        cbn [result_of world_of trace_of fst snd].
        destruct (remove_all_run (d :: D') (after_click w))
          as (done & Ht & Hsub & _ & _ & _ & _ & _).
        cbv zeta in Ht.
        destruct (result_of (for_each (d :: D') os.remove (after_click w))).
        -- exists done, (trace_of (loop (world_of (for_each (d :: D') os.remove (after_click w))))).
           cbn [trace_of snd app]. rewrite Ht. repeat split; [exact Hsub|apply Hloop].
        -- exists done, []. cbn [trace_of snd]. rewrite Ht, app_nil_r.
           repeat split; [exact Hsub|constructor].
      * left.
        destruct (confirm_phase_replace_cancel dir_ (d :: D') w Hex) as (e & Hrun & He);
          [congruence|exact Hk|].
        rewrite (bind_raise _ _ _ _ _ _ Hrun). cbn [result_of world_of trace_of fst snd].
        repeat split; eauto.
  - (* the export directory is missing: no file to replace *)
    assert (HD : D = []).
    { destruct D; [reflexivity|]. discriminate Hfs. discriminate. }
    rewrite HD.
    destruct (decide (next_click w = 0%nat)) as [Hk|Hk].
    + right. left. split; [reflexivity|].
      rewrite bind_run, (confirm_phase_create dir_ w Hex Hk).
      cbn [result_of world_of trace_of fst snd app].
      eexists. split; [reflexivity|apply Hloop].
    + left.
      destruct (confirm_phase_create_cancel dir_ [] w Hex Hk) as (e & Hrun & He).
      rewrite (bind_raise _ _ _ _ _ _ Hrun). cbn [result_of world_of trace_of fst snd].
      repeat split; eauto.
Qed.


Lemma quiet_loop_no_remove (t : list Event) :
  quiet_loop t → Forall (λ ev, ¬ is_remove ev) t.
Proof. intros Hq. eapply Forall_impl; [exact Hq|]. cbn. tauto. Qed.

Lemma quiet_loop_not_in (g : Event) (t : list Event) :
  is_remove g ∨ is_confirmation g → quiet_loop t → g ∉ t.
Proof.
  intros Hg Hall Hin. unfold quiet_loop in Hall. rewrite Forall_forall in Hall.
  apply Hall in Hin. tauto.
Qed.

Lemma in_map_remove (f : string) (done : list string) :
  OsRemove f ∈ List.map OsRemove done → f ∈ done.
Proof.
  intros Hin. apply list_elem_of_In, in_map_iff in Hin as (x & Heq & Hx).
  injection Heq as ->. apply list_elem_of_In, Hx.
Qed.

(** C2: in every run of the export, on a file system where a file to
    replace exists only if the export directory exists, a file is removed
    only after the overwrite dialog was closed with Ok, and only if the
    dialog listed it; when the export directory is missing, a directory is
    created only after the create-dir dialog was closed with Ok; and when
    the user closes one of the two dialogs with Cancel the export stops with
    RuntimeError, with the file system and the scene as they were and no
    file or directory created, removed or written. *)
Theorem confirmations_guard_files `{OsPath} (exportables : list Exportable)
    (dir_ : string) (range_ : Z * Z) (add_border_keys bake : bool)
    (roots : option (list string)) (w : World) :
  (to_delete w dir_ exportables ≠ [] → path_exists_in w dir_ = true) →
  let o := _export_fbxs exportables dir_ range_ add_border_keys bake roots w in
  let _to_delete := to_delete w dir_ exportables in
  preceded_by (replace_box _to_delete 0) is_remove (trace_of o)
  ∧ (∀ f, OsRemove f ∈ trace_of o → f ∈ _to_delete)
  ∧ (path_exists_in w dir_ = false →
       preceded_by (create_dir_box dir_ 0) is_makedirs (trace_of o))
  ∧ (create_dir_box dir_ 1 ∈ trace_of o ∨ replace_box _to_delete 1 ∈ trace_of o →
       result_of o = Raise RuntimeError
       ∧ fs (world_of o) = fs w
       ∧ scene (world_of o) = scene w
       ∧ Forall (λ ev, ¬ changes_files ev) (trace_of o)).
Proof.
  intros Hfs.
  pose proof (export_fbxs_shape exportables dir_ range_ add_border_keys bake roots w Hfs)
    as Hshape.
  cbv zeta in *.
  set (o := _export_fbxs exportables dir_ range_ add_border_keys bake roots w) in *.
  set (D := to_delete w dir_ exportables) in *.
  destruct Hshape as [(_ & Ht)|[(Hk & Ht & Hw & e & Hr & He)|[(Hex & tl & Ht & Hq)
    |[(Hex & Hq)|(Hex & done & tl & Ht & Hsub & Hq)]]]].
  - (* nothing selected *)
    rewrite Ht. split; [|split; [|split]].
    + apply preceded_by_none. repeat constructor; auto.
    + intros f Hin. apply list_elem_of_singleton in Hin. discriminate.
    + intros _. apply preceded_by_none. repeat constructor; auto.
    + intros [Hin|Hin]; apply list_elem_of_singleton in Hin; discriminate.
  - (* the first confirmation is not closed with Ok *)
    assert (Hone : ∃ ev, trace_of o = [ev] ∧ is_confirmation ev
                         ∧ (create_dir_box dir_ 1 = ev ∨ replace_box D 1 = ev
                            → next_click w = 1%nat)).
    { destruct Ht as [Ht|Ht]; rewrite Ht; eexists; (split; [reflexivity|]);
        (split; [reflexivity|]); intros [Heq|Heq]; injection Heq; auto. }
    destruct Hone as (ev & Hone & Hconf & Hclick). rewrite Hone.
    split; [|split; [|split]].
    + apply preceded_by_none. repeat constructor. destruct ev; auto.
    + intros f Hin. apply list_elem_of_singleton in Hin. subst ev. destruct Hconf.
    + intros _. apply preceded_by_none. repeat constructor. destruct ev; auto.
    + intros Hin.
      assert (Hk1 : next_click w = 1%nat).
      { apply Hclick. destruct Hin as [Hin|Hin];
          apply list_elem_of_singleton in Hin; auto. }
      rewrite Hr, Hw, (He Hk1). repeat split.
      repeat constructor. destruct ev; auto.
  - (* the directory is created after the confirmation *)
    rewrite Ht. split; [|split; [|split]].
    + apply preceded_by_none. repeat constructor; auto.
      apply quiet_loop_no_remove, Hq.
    + intros f Hin. exfalso.
      apply elem_of_cons in Hin as [Hin|Hin]; [discriminate|].
      apply elem_of_cons in Hin as [Hin|Hin]; [discriminate|].
      revert Hin. apply quiet_loop_not_in; [left; exact I|exact Hq].
    + intros _. apply preceded_by_head. auto.
    + intros [Hin|Hin]; exfalso.
      all: apply elem_of_cons in Hin as [Hin|Hin]; [discriminate|].
      all: apply elem_of_cons in Hin as [Hin|Hin]; [discriminate|].
      all: revert Hin; apply quiet_loop_not_in; [right; reflexivity|exact Hq].
  - (* no confirmation is due *)
    split; [|split; [|split]].
    + apply preceded_by_none, quiet_loop_no_remove, Hq.
    + intros f Hin. exfalso. revert Hin.
      apply quiet_loop_not_in; [left; exact I|exact Hq].
    + congruence.
    + intros [Hin|Hin]; exfalso; revert Hin;
        apply quiet_loop_not_in; solve [right; reflexivity | exact Hq].
  - (* the files are replaced after the confirmation *)
    rewrite Ht. split; [|split; [|split]].
    + apply preceded_by_head. auto.
    + intros f Hin.
      apply elem_of_cons in Hin as [Hin|Hin]; [discriminate|].
      apply elem_of_app in Hin as [Hin|Hin]; [apply Hsub, in_map_remove, Hin|].
      exfalso. revert Hin. apply quiet_loop_not_in; [left; exact I|exact Hq].
    + congruence.
    + intros Hin. exfalso.
      assert (Hno : ∀ g, is_confirmation g → g ≠ replace_box D 0 →
                         g ∉ replace_box D 0 :: List.map OsRemove done ++ tl).
      { intros g Hg Hne Hg_in.
        apply elem_of_cons in Hg_in as [Hg_in|Hg_in]; [contradiction|].
        apply elem_of_app in Hg_in as [Hg_in|Hg_in].
        - apply list_elem_of_In, in_map_iff in Hg_in as (y & <- & _). destruct Hg.
        - revert Hg_in. apply quiet_loop_not_in; [right; exact Hg|exact Hq]. }
      destruct Hin as [Hin|Hin]; revert Hin; apply Hno;
        solve [reflexivity | discriminate].
Qed.


Lemma confirmations_guard_files_witness :
  (to_delete (H := Shot.platform) shot_cancel_first "/out"
     [Rig Shot.prop; Rig Shot.hero] ≠ []
   → path_exists_in shot_cancel_first "/out" = true)
  ∧ result_of
      (_export_fbxs (H := Shot.platform) [Rig Shot.prop; Rig Shot.hero] "/out"
         (1, 24)%Z true true (Some ["JNT_Grp"]) shot_cancel_first)
    = Raise RuntimeError
  ∧ fs (world_of
          (_export_fbxs (H := Shot.platform) [Rig Shot.prop; Rig Shot.hero] "/out"
             (1, 24)%Z true true (Some ["JNT_Grp"]) shot_cancel_first))
    = fs shot_cancel_first.
Proof.
  assert (Hfs : to_delete (H := Shot.platform) shot_cancel_first "/out"
                  [Rig Shot.prop; Rig Shot.hero] ≠ []
                → path_exists_in shot_cancel_first "/out" = true).
  { intros _. vm_compute. reflexivity. }
  split; [exact Hfs|].
  assert (Hin : replace_box
                  (to_delete (H := Shot.platform) shot_cancel_first "/out"
                     [Rig Shot.prop; Rig Shot.hero]) 1
                ∈ trace_of
                    (_export_fbxs (H := Shot.platform) [Rig Shot.prop; Rig Shot.hero]
                       "/out" (1, 24)%Z true true (Some ["JNT_Grp"])
                       shot_cancel_first)).
  { assert (Ht : trace_of
                   (_export_fbxs (H := Shot.platform) [Rig Shot.prop; Rig Shot.hero]
                      "/out" (1, 24)%Z true true (Some ["JNT_Grp"]) shot_cancel_first)
                 = [replace_box
                      (to_delete (H := Shot.platform) shot_cancel_first "/out"
                         [Rig Shot.prop; Rig Shot.hero]) 1])
      by (vm_compute; reflexivity).
    rewrite Ht. apply list_elem_of_here. }
  destruct (confirmations_guard_files (H := Shot.platform)
              [Rig Shot.prop; Rig Shot.hero] "/out" (1, 24)%Z true true
              (Some ["JNT_Grp"]) shot_cancel_first Hfs)
    as (_ & _ & _ & Hcancel).
  destruct (Hcancel (or_intror Hin)) as (Hr & Hf & _).
  split; assumption.
Defined.

(** ** One file per exportable *)

Lemma exported_files_app (t1 t2 : list Event) :
  exported_files (t1 ++ t2) = exported_files t1 ++ exported_files t2.
Proof. unfold exported_files. apply flat_map_app. Qed.

Lemma exported_files_quiet (t : list Event) :
  Forall (λ ev, ¬ is_export ev) t → exported_files t = [].
Proof.
  induction 1 as [|ev t Hev _ IH]; [reflexivity|].
  cbn [exported_files flat_map]. fold (exported_files t). rewrite IH.
  destruct ev; cbn in Hev |- *; first [reflexivity | contradiction Hev; exact I].
Qed.

Lemma emits_quiet {A} (m : M A) (w : World) :
  emits (λ ev, ¬ is_export ev) m → exported_files (trace_of (m w)) = [].
Proof. intros Hm. apply exported_files_quiet, Hm. Qed.

Lemma set_namespace_trace_quiet (ns : string) (clean : bool) (w : World) :
  exported_files (set_namespace_trace ns clean w) = [].
Proof.
  unfold set_namespace_trace.
  destruct clean, (matching (ns +:+ ":*") w), (namespace_known w ns); reflexivity.
Qed.

Lemma connections_quiet (w : World) (shp dshp : string) (attrs : list string) :
  exported_files (connections w shp dshp attrs) = [].
Proof.
  unfold connections. induction attrs as [|a attrs IH]; [reflexivity|].
  cbn [flat_map]. rewrite exported_files_app, IH.
  destruct (Py.mem _ _); reflexivity.
Qed.

Lemma export_prelude_no_export `{OsPath} (fbx : string) (s e : Z) (abk : bool)
    (w : World) :
  exported_files (export_prelude fbx s e abk w) = [].
Proof.
  apply exported_files_quiet.
  eapply Forall_impl; [apply export_prelude_quiet|].
  intros ev Hev Hex. apply Hev. destruct ev; cbn in *; tauto.
Qed.

Lemma world_space_trace_exports `{OsPath} (w : World) (c : _Camera.t) (fbx : string)
    (s e : Z) (abk cleanup : bool) (attrs : list string) :
  exported_files (world_space_trace w c fbx s e abk cleanup attrs) = [fbx].
Proof.
  unfold world_space_trace.
  rewrite !exported_files_app, !set_namespace_trace_quiet, connections_quiet,
    export_prelude_no_export.
  destruct (Py.truthy_list _), cleanup;
    rewrite ?set_namespace_trace_quiet; reflexivity.
Qed.


Lemma cleaned_subset (w : World) (n : string) :
  n ∈ scene_nodes (scene (namespace_cleaned ":export_tmp" true w)) →
  n ∈ scene_nodes (scene w) ∧ cmds.ls_match ":export_tmp:*" n = false.
Proof.
  intros Hin.
  assert (Hnot : cmds.ls_match ":export_tmp:*" n = false).
  { destruct (cmds.ls_match ":export_tmp:*" n) eqn:Hm; [|reflexivity].
    exfalso. pose proof (cleaned_no_tmp w) as Hno.
    assert (Hn : In n (tmp_nodes (namespace_cleaned ":export_tmp" true w))).
    { apply filter_In. split; [apply list_elem_of_In, Hin|exact Hm]. }
    rewrite Hno in Hn. destruct Hn. }
  split; [|exact Hnot].
  unfold namespace_cleaned in Hin.
  destruct (matching (":export_tmp" +:+ ":*") w); [exact Hin|].
  unfold deleted in Hin. cbn [scene set_scene cmds.with_nodes scene_nodes] in Hin.
  apply list_elem_of_In, filter_In in Hin as [Hin _]. apply list_elem_of_In, Hin.
Qed.

Lemma same_host_refl (w : World) : same_host w w.
Proof. unfold same_host. repeat split. Qed.

Lemma same_host_trans (w1 w2 w3 : World) :
  same_host w1 w2 → same_host w2 w3 → same_host w1 w3.
Proof.
  unfold same_host.
  intros (a1&a2&a3&a4&a5&a6&a7&a8&a9&a10&a11&a12)
         (b1&b2&b3&b4&b5&b6&b7&b8&b9&b10&b11&b12).
  repeat split; congruence.
Qed.

Lemma namespace_entered_facts (ns : string) (w : World) :
  same_host w (namespace_entered ns w)
  ∧ fs (namespace_entered ns w) = fs w
  ∧ user (namespace_entered ns w) = user w.
Proof. unfold namespace_entered, same_host. cbn. repeat split. Qed.

Lemma namespace_cleaned_facts (ns : string) (clean : bool) (w : World) :
  same_host w (namespace_cleaned ns clean w)
  ∧ fs (namespace_cleaned ns clean w) = fs w
  ∧ user (namespace_cleaned ns clean w) = user w.
Proof.
  unfold namespace_cleaned, deleted, same_host.
  destruct clean, (matching (ns +:+ ":*") w); cbn; repeat split.
Qed.

Lemma exported_host `{OsPath} (fbx : string) (abk : bool) (chosen : list string)
    (w : World) :
  same_host w (exported fbx abk chosen w)
  ∧ fs_files (fs (exported fbx abk chosen w)) = {[fbx]} ∪ fs_files (fs w)
  ∧ user (exported fbx abk chosen w) = user w.
Proof.
  unfold exported, written, made_dir, static_deleted, same_host.
  destruct (path_exists_in _ _), abk; cbn; repeat split.
Qed.

Lemma world_final_facts `{OsPath} (w : World) (c : _Camera.t) (fbx : string)
    (add_border_keys cleanup : bool) :
  same_host w (world_final w c fbx add_border_keys cleanup)
  ∧ fs_files (fs (world_final w c fbx add_border_keys cleanup))
    = {[fbx]} ∪ fs_files (fs w)
  ∧ user (world_final w c fbx add_border_keys cleanup) = user w.
Proof.
  destruct (world_baked_facts w c) as (Hh1 & _ & Hf1 & Hu1).
  destruct (exported_host fbx add_border_keys [dup_tfm w c; dup_shp w c]
              (world_baked w c)) as (Hh2 & Hf2 & Hu2).
  fold (world_exported w c fbx add_border_keys) in Hh2, Hf2, Hu2.
  rewrite Hf1 in Hf2. rewrite Hu1 in Hu2.
  pose proof (same_host_trans _ _ _ Hh1 Hh2) as Hh.
  unfold world_final. cbv zeta.
  set (w8 := world_exported w c fbx add_border_keys) in *.
  set (w9 := if cleanup
             then namespace_entered ":export_tmp" (namespace_cleaned ":export_tmp" true w8)
             else w8).
  assert (H9 : same_host w8 w9 ∧ fs w9 = fs w8 ∧ user w9 = user w8).
  { subst w9. destruct cleanup; [|split; [apply same_host_refl|split; reflexivity]].
    destruct (namespace_cleaned_facts ":export_tmp" true w8) as (Ha & Hb & Hc).
    destruct (namespace_entered_facts ":export_tmp"
                (namespace_cleaned ":export_tmp" true w8)) as (Ha' & Hb' & Hc').
    split; [eapply same_host_trans; eassumption|]. split; congruence. }
  destruct H9 as (Hh9 & Hf9 & Hu9).
  destruct (namespace_entered_facts ":" w9) as (Hh0 & Hf0 & Hu0).
  split; [eapply same_host_trans; [exact Hh|eapply same_host_trans; eassumption]|].
  split; [rewrite Hf0, Hf9; exact Hf2|congruence].
Qed.


Lemma exported_nodes `{OsPath} (fbx : string) (abk : bool) (chosen : list string)
    (w : World) :
  scene_nodes (scene (exported fbx abk chosen w)) = scene_nodes (scene w).
Proof.
  unfold exported, written, made_dir, static_deleted.
  destruct (path_exists_in _ _), abk; reflexivity.
Qed.

Lemma world_dup_nodes (w : World) (c : _Camera.t) (n : string) :
  n ∈ scene_nodes (scene (world_dup w c)) →
  n ∈ scene_nodes (scene (world_tmp w)) ∨ cmds.ls_match ":export_tmp:*" n = true.
Proof.
  destruct (world_tmp_facts w) as (Hns & _).
  unfold world_dup, duplicated, parented_world.
  destruct (Py.truthy_list _);
    cbn [scene set_scene cmds.with_nodes cmds.with_relatives scene_nodes];
    rewrite Hns; intros Hin.
  all: apply elem_of_app in Hin as [Hin|Hin]; [left; exact Hin|right].
  all: apply elem_of_cons in Hin as [->|Hin]; [apply tmp_name_matches|].
  all: destruct (scene_shapes (scene (world_tmp w)) (_Camera.tfm c)) as [l|];
    [|inversion Hin].
  all: cbn in Hin; apply list_elem_of_In, in_map_iff in Hin as (x & <- & _).
  all: apply tmp_name_matches.
Qed.

Lemma world_final_nodes_back `{OsPath} (w : World) (c : _Camera.t) (fbx : string)
    (add_border_keys : bool) (n : string) :
  n ∈ scene_nodes (scene (world_final w c fbx add_border_keys true)) →
  n ∈ scene_nodes (scene w).
Proof.
  intros Hin. unfold world_final in Hin. cbv zeta in Hin.
  change (scene_nodes (scene (namespace_entered ":" ?x)))
    with (scene_nodes (scene x)) in Hin.
  change (scene_nodes (scene (namespace_entered ":export_tmp" ?x)))
    with (scene_nodes (scene x)) in Hin.
  apply cleaned_subset in Hin as [Hin Hn].
  unfold world_exported in Hin. rewrite exported_nodes in Hin.
  unfold world_baked, static_deleted, deleted, constrained in Hin.
  cbn [scene set_scene cmds.with_nodes cmds.with_anim_curves scene_nodes] in Hin.
  apply list_elem_of_In, filter_In in Hin as [Hin _]. apply list_elem_of_In in Hin.
  apply elem_of_app in Hin as [Hin|Hin].
  2:{ apply list_elem_of_singleton in Hin. subst n.
      unfold dup_constraint in Hn. rewrite tmp_name_matches in Hn. discriminate. }
  apply elem_of_app in Hin as [Hin|Hin].
  2:{ apply list_elem_of_singleton in Hin. subst n.
      unfold dup_constraint in Hn. rewrite tmp_name_matches in Hn. discriminate. }
  apply world_dup_nodes in Hin as [Hin|Hin]; [|congruence].
  apply (cleaned_subset w n Hin).
Qed.

Lemma world_final_same_scene `{OsPath} (w : World) (c : _Camera.t) (fbx : string)
    (add_border_keys : bool) :
  tmp_nodes w = [] →
  same_scene w (world_final w c fbx add_border_keys true).
Proof.
  intros Htmp. split; [apply world_final_facts|].
  intros n. split; [apply world_final_nodes_back|].
  intros Hin. apply world_final_nodes; [exact Hin|].
  destruct (cmds.ls_match ":export_tmp:*" n) eqn:Hm; [|reflexivity].
  assert (Hn : In n (tmp_nodes w)).
  { apply filter_In. split; [apply list_elem_of_In, Hin|exact Hm]. }
  rewrite Htmp in Hn. destruct Hn.
Qed.


Lemma same_scene_refl (w : World) : same_scene w w.
Proof. split; [apply same_host_refl|tauto]. Qed.

Lemma same_scene_trans (w1 w2 w3 : World) :
  same_scene w1 w2 → same_scene w2 w3 → same_scene w1 w3.
Proof.
  intros [Hh1 Hn1] [Hh2 Hn2]. split; [eapply same_host_trans; eassumption|].
  intros n. rewrite Hn2. apply Hn1.
Qed.

Lemma same_scene_tmp (w w' : World) :
  same_scene w w' → tmp_nodes w = [] → tmp_nodes w' = [].
Proof.
  intros [_ Hn] Htmp. unfold tmp_nodes in *.
  destruct (List.filter _ (scene_nodes (scene w'))) as [|n l] eqn:Hf; [reflexivity|].
  assert (Hin : In n (List.filter (cmds.ls_match ":export_tmp:*") (scene_nodes (scene w')))).
  { rewrite Hf. left. reflexivity. }
  apply filter_In in Hin as [Hin Hm].
  apply list_elem_of_In, Hn, list_elem_of_In in Hin.
  assert (Hin' : In n (List.filter (cmds.ls_match ":export_tmp:*") (scene_nodes (scene w)))).
  { apply filter_In. split; assumption. }
  rewrite Htmp in Hin'. destruct Hin'.
Qed.

Lemma same_scene_namespace (w w' : World) (r : _Rig.t) :
  same_host w w' → rig_namespace w' r = rig_namespace w r.
Proof.
  unfold same_host, rig_namespace.
  intros (_&_&_&_&_&_&Hf&_&_&Hns&_). rewrite Hf, Hns. reflexivity.
Qed.

Lemma same_scene_existing (w w' : World) (r : _Rig.t) (roots : list string) :
  same_scene w w' →
  existing_nodes w' (possible_nodes w' r roots)
  = existing_nodes w (possible_nodes w r roots).
Proof.
  intros [Hh Hn]. unfold existing_nodes, possible_nodes.
  rewrite (same_scene_namespace w w' r Hh).
  apply filter_ext. intros n. apply bool_decide_ext, Hn.
Qed.

Lemma same_scene_skipped (w w' : World) (roots : option (list string))
    (e : Exportable) :
  same_scene w w' → skipped w' roots e = skipped w roots e.
Proof.
  intros Hs. unfold skipped. destruct e as [c|r]; [reflexivity|].
  destruct roots as [[|root roots']|]; try reflexivity.
  rewrite (same_scene_existing w w' r _ Hs). reflexivity.
Qed.

Lemma same_scene_user (w : World) (f : User → User) : same_scene w (set_user f w).
Proof. split; [unfold same_host; repeat split|tauto]. Qed.

Lemma exported_facts `{OsPath} (fbx : string) (abk : bool) (chosen : list string)
    (w : World) :
  same_scene w (exported fbx abk chosen w)
  ∧ fs_files (fs (exported fbx abk chosen w)) = {[fbx]} ∪ fs_files (fs w).
Proof.
  unfold exported, written, made_dir, static_deleted, same_scene, same_host.
  destruct (path_exists_in _ _), abk; cbn; repeat split; tauto.
Qed.

Lemma result_bind_ok {A B} (m : M A) (k : A → M B) w a w1 t1 :
  m w = (Ok a, w1, t1) → result_of (bind m k w) = result_of (k a w1).
Proof.
  intros Hm. unfold bind. rewrite Hm. destruct (k a w1) as [[r w2] t2]. reflexivity.
Qed.

Lemma result_bind_raise {A B} (m : M A) (k : A → M B) w e w1 t1 :
  m w = (Raise e, w1, t1) → result_of (bind m k w) = Raise e.
Proof. intros Hm. unfold bind. rewrite Hm. reflexivity. Qed.


Lemma camera_init_dup_run (c : _Camera.t) (w : World) :
  _Camera.__init__ (dup_tfm w c) (duplicated (_Camera.tfm c) (world_tmp w))
  = (match dup_shapes w c with
     | None => Raise TypeError
     | Some [] => Raise IndexError
     | Some (x :: _) => Ok {| _Camera.tfm := dup_tfm w c; _Camera.shp := x |}
     end, duplicated (_Camera.tfm c) (world_tmp w), []).
Proof.
  destruct (world_tmp_facts w) as (Hns1 & Hhost1 & Hsh1 & Hpar1 & _).
  unfold same_host in Hhost1.
  destruct Hhost1 as (_&_&_&_&_&_&_&_&_&_&Hleaf1&_).
  unfold _Camera.__init__, cmds.listRelatives_shapes. rewrite bind_gets.
  unfold duplicated. cbn [scene set_scene cmds.with_nodes cmds.with_relatives scene_shapes].
  rewrite Hns1, Hleaf1, Hsh1. fold (dup_tfm w c).
  rewrite bool_decide_eq_true_2 by reflexivity.
  unfold dup_shapes.
  destruct (scene_shapes (scene w) (_Camera.tfm c)) as [[|x l]|]; reflexivity.
Qed.

Lemma world_space_ok `{OsPath} (c : _Camera.t) (fbx : string) (s e : Z)
    (add_border_keys cleanup : bool) (w : World) :
  result_of (export_fbx_in_world_space c fbx (s, e) add_border_keys cleanup w) = Ok tt →
  ∃ shp0 shps attrs,
    _Camera.tfm c ∈ scene_nodes (scene (world_tmp w))
    ∧ scene_shapes (scene w) (_Camera.tfm c) = Some (shp0 :: shps)
    ∧ scene_keyable (scene w) (_Camera.shp c) = Some attrs.
Proof.
  intros Hok.
  destruct (decide (_Camera.tfm c ∈ scene_nodes (scene (world_tmp w)))) as [Hcam|Hcam].
  2:{ unfold export_fbx_in_world_space in Hok.
      erewrite result_bind_ok in Hok by (apply _set_namespace_run; reflexivity).
      fold (world_tmp w) in Hok.
      erewrite result_bind_raise in Hok by (apply duplicate_missing; exact Hcam).
      discriminate Hok. }
  destruct (world_tmp_facts w) as (Hns1 & Hhost1 & Hsh1 & Hpar1 & _).
  destruct (world_dup_facts w c) as (_ & Hhost3 & _).
  unfold same_host in Hhost1, Hhost3.
  destruct Hhost1 as (_&_&Hkey1&_&_&_&_&_&_&_&Hleaf1&_).
  clear Hhost3.
  unfold export_fbx_in_world_space in Hok.
  erewrite result_bind_ok in Hok by (apply _set_namespace_run; reflexivity).
  fold (world_tmp w) in Hok.
  erewrite result_bind_ok in Hok by (apply duplicate_run; exact Hcam).
  rewrite Hns1, Hleaf1 in Hok. fold (dup_tfm w c) in Hok.
  erewrite result_bind_ok in Hok by reflexivity.
  pose proof (camera_init_dup_run c w) as Hinit. unfold dup_shapes in Hinit.
  destruct (scene_shapes (scene w) (_Camera.tfm c)) as [[|shp0 shps]|] eqn:Hshapes;
    cbn [fmap option_fmap option_map List.map] in Hinit.
  2:{ erewrite result_bind_ok in Hok by exact Hinit.
      cbn [_Camera.tfm _Camera.shp] in Hok.
      unfold cmds.listRelatives_parent in Hok. rewrite bind_gets in Hok.
      assert (Hstep : ∀ b : bool,
        (if b then cmds.parent_world (dup_tfm w c) else ret tt)
          (duplicated (_Camera.tfm c) (world_tmp w))
        = (Ok tt, if b then parented_world (dup_tfm w c)
                              (duplicated (_Camera.tfm c) (world_tmp w))
                  else duplicated (_Camera.tfm c) (world_tmp w),
           if b then [CmdsParentWorld (dup_tfm w c)] else [])).
      { intros []; reflexivity. }
      erewrite result_bind_ok in Hok by apply Hstep.
      unfold cmds.listAttr_keyable in Hok. rewrite bind_gets in Hok.
      assert (Hkey : ∀ b : bool,
        scene_keyable
          (scene (if b then parented_world (dup_tfm w c)
                              (duplicated (_Camera.tfm c) (world_tmp w))
                  else duplicated (_Camera.tfm c) (world_tmp w)))
        = scene_keyable (scene w)).
      { intros []; exact Hkey1. }
      rewrite Hkey in Hok.
      destruct (scene_keyable (scene w) (_Camera.shp c)) as [attrs|]; [eauto 6|].
      discriminate Hok. }
  all: erewrite result_bind_raise in Hok by exact Hinit; discriminate.
Qed.


Lemma export_fbx_ok `{OsPath} (self : Exportable) (fbx : string) (range_ : Z * Z)
    (nodes : option (list string)) (add_border_keys : bool) (w : World) :
  let o := _Exportable.export_fbx self fbx range_ nodes add_border_keys w in
  result_of o = Ok tt
  ∧ exported_files (trace_of o) = [fbx]
  ∧ fs_files (fs (world_of o)) = {[fbx]} ∪ fs_files (fs w)
  ∧ same_scene w (world_of o).
Proof.
  destruct range_ as [s e]. cbv zeta.
  rewrite (export_fbx_run_world self fbx s e nodes add_border_keys w _
             (find_nodes_run self w)).
  cbn [result_of world_of trace_of fst snd].
  split; [reflexivity|]. split.
  - change (CmdsSelect ?l :: ?t) with ([CmdsSelect l] ++ t).
    rewrite !exported_files_app, export_prelude_no_export. reflexivity.
  - split; apply exported_facts.
Qed.

Lemma export_one_ok `{OsPath} (range_ : Z * Z) (add_border_keys bake : bool)
    (roots : option (list string)) (e : Exportable) (fbx : string) (w0 w : World) :
  same_scene w0 w →
  tmp_nodes w0 = [] →
  let o := export_one range_ add_border_keys bake roots (e, fbx) w in
  result_of o = Ok tt →
  exported_files (trace_of o) = (if skipped w0 roots e then [] else [fbx])
  ∧ fs_files (fs (world_of o)) = list_to_set (exported_files (trace_of o)) ∪ fs_files (fs w)
  ∧ same_scene w0 (world_of o).
Proof.
  intros Hs Htmp o Hok.
  assert (Hplain : ∀ nodes,
    o = _Exportable.export_fbx e fbx range_ nodes add_border_keys w →
    skipped w0 roots e = false →
    exported_files (trace_of o) = (if skipped w0 roots e then [] else [fbx])
    ∧ fs_files (fs (world_of o)) = list_to_set (exported_files (trace_of o)) ∪ fs_files (fs w)
    ∧ same_scene w0 (world_of o)).
  { intros nodes Ho Hskip. rewrite Hskip.
    destruct (export_fbx_ok e fbx range_ nodes add_border_keys w) as (_ & Ht & Hf & Hsc).
    rewrite <- Ho in Ht, Hf, Hsc. rewrite Ht. split; [reflexivity|].
    split; [|eapply same_scene_trans; eassumption].
    rewrite Hf. cbn [list_to_set]. f_equal. apply set_eq. intros x.
    rewrite elem_of_union, elem_of_empty. tauto. }
  destruct e as [c|r].
  - destruct bake.
    + (* a camera in world space *)
      destruct range_ as [s e'].
      assert (Ho : o = export_fbx_in_world_space c fbx (s, e') add_border_keys true w)
        by reflexivity.
      rewrite Ho in Hok |- *.
      destruct (world_space_ok c fbx s e' add_border_keys true w Hok)
        as (shp0 & shps & attrs & Hcam & Hsh & Hkey).
      rewrite (world_space_run c fbx s e' add_border_keys true w shp0 shps attrs
                 Hcam Hsh Hkey).
      cbn [result_of world_of trace_of fst snd skipped].
      rewrite world_space_trace_exports. split; [reflexivity|].
      split.
      * destruct (world_final_facts w c fbx add_border_keys true) as (_ & Hf & _).
        rewrite Hf. cbn [list_to_set]. f_equal. apply set_eq. intros x.
        rewrite elem_of_union, elem_of_empty. tauto.
      * eapply same_scene_trans; [exact Hs|].
        apply world_final_same_scene. eapply same_scene_tmp; eassumption.
    + apply (Hplain None); [|reflexivity].
      unfold o, export_one. destruct roots as [[|? ?]|]; reflexivity.
  - destruct roots as [[|root roots']|].
    2:{ (* a rig and root names *)
      pose proof (export_one_rig_run range_ add_border_keys bake root roots' r fbx w)
        as Hrun.
      fold o in Hrun.
      pose proof (same_scene_existing w0 w r (root :: roots') Hs) as Hex.
      destruct (existing_nodes w (possible_nodes w r (root :: roots'))) as [|n ns] eqn:Hn.
      - rewrite Hrun. cbn [result_of world_of trace_of fst snd skipped].
        rewrite <- Hex. cbn [Py.truthy_list negb exported_files flat_map app].
        split; [reflexivity|]. split.
        + cbn [list_to_set]. unfold after_click. cbn. apply set_eq. intros x.
          rewrite elem_of_union, elem_of_empty. tauto.
        + eapply same_scene_trans; [exact Hs|]. apply same_scene_user.
      - apply (Hplain (Some (n :: ns))); [exact Hrun|].
        cbn [skipped]. rewrite <- Hex. reflexivity. }
    all: apply (Hplain None); [|reflexivity].
    all: unfold o, export_one; destruct bake; reflexivity.
Qed.


Lemma for_in_nil {A} (body : A → M unit) (total : nat) (w : World) :
  _ProgressBar.for_in 1
    {| _ProgressBar.items := []; _ProgressBar.n_items := total |} body w
  = (Ok tt, w, [ProcessEvents; ProgressClose]).
Proof. reflexivity. Qed.

Lemma for_in_cons_run {A} (body : A → M unit) (total : nat) (x : A) (rest : list A)
    (w : World) :
  let bar items := {| _ProgressBar.items := items; _ProgressBar.n_items := total |} in
  let o := _ProgressBar.for_in (S (S (length rest))) (bar (x :: rest)) body w in
  match result_of (body x w) with
  | Ok _ =>
      let o' := _ProgressBar.for_in (S (length rest)) (bar rest) body
                  (world_of (body x w)) in
      result_of o = result_of o'
      ∧ world_of o = world_of o'
      ∧ ∃ p, trace_of o = ProcessEvents :: ProgressSetValue p
                          :: trace_of (body x w) ++ trace_of o'
  | Raise e => result_of o = Raise e
  end.
Proof.
  cbv beta zeta. rewrite for_in_cons, !bind_emit, bind_run.
  cbn [result_of world_of trace_of fst snd].
  destruct (result_of (body x w)) as [[]|e]; [|reflexivity].
  cbn [result_of world_of trace_of fst snd].
  split; [reflexivity|]. split; [reflexivity|]. eexists. reflexivity.
Qed.

Lemma expected_files_paths `{OsPath} (w : World) (dir_ : string)
    (roots : option (list string)) (exportables : list Exportable) :
  List.map snd
    (List.filter (λ item, negb (skipped w roots (fst item)))
       (export_paths w dir_ exportables))
  = expected_files w dir_ roots exportables.
Proof.
  unfold expected_files, export_paths.
  induction exportables as [|e l IH]; [reflexivity|].
  cbn [List.map List.filter fst]. destruct (skipped w roots e); cbn [negb List.map snd];
    rewrite IH; reflexivity.
Qed.

Lemma export_loop_ok `{OsPath} (range_ : Z * Z) (add_border_keys bake : bool)
    (roots : option (list string)) (total : nat) (w0 : World) :
  tmp_nodes w0 = [] →
  ∀ (items : list (Exportable * string)) (w : World),
    same_scene w0 w →
    let o := _ProgressBar.for_in (S (length items))
               {| _ProgressBar.items := items; _ProgressBar.n_items := total |}
               (export_one range_ add_border_keys bake roots) w in
    result_of o = Ok tt →
    exported_files (trace_of o)
    = List.map snd (List.filter (λ item, negb (skipped w0 roots (fst item))) items)
    ∧ fs_files (fs (world_of o))
      = list_to_set (exported_files (trace_of o)) ∪ fs_files (fs w).
Proof.
  intros Htmp. induction items as [|[e fbx] rest IH]; intros w Hs o Hok.
  - unfold o. cbn [length]. rewrite for_in_nil. cbn. split; [reflexivity|].
    apply set_eq. intros x. rewrite elem_of_union, elem_of_empty. tauto.
  - pose proof (for_in_cons_run (export_one range_ add_border_keys bake roots)
                  total (e, fbx) rest w) as Hstep.
    cbv beta zeta in Hstep. unfold o in *. clear o. cbn [length] in Hok |- *.
    destruct (result_of (export_one range_ add_border_keys bake roots (e, fbx) w))
      as [[]|err] eqn:Hbody; [|congruence].
    destruct Hstep as (Hr & Hw & p & Ht).
    destruct (export_one_ok range_ add_border_keys bake roots e fbx w0 w Hs Htmp Hbody)
      as (Hex1 & Hfs1 & Hs1).
    rewrite Hr in Hok.
    destruct (IH _ Hs1 Hok) as (Hex2 & Hfs2).
    rewrite Ht, Hw, Hfs2, Hfs1.
    change (ProcessEvents :: ProgressSetValue p :: ?t)
      with ([ProcessEvents; ProgressSetValue p] ++ t).
    rewrite !exported_files_app. cbn [exported_files flat_map app].
    fold (exported_files (trace_of (export_one range_ add_border_keys bake roots (e, fbx) w))).
    split.
    + rewrite Hex1, Hex2. cbn [List.filter fst].
      destruct (skipped w0 roots e); reflexivity.
    + rewrite list_to_set_app_L. apply set_eq. intros x.
      rewrite !elem_of_union. tauto.
Qed.


Lemma same_scene_eq (w w' : World) : scene w' = scene w → same_scene w w'.
Proof. intros Hsc. unfold same_scene, same_host. rewrite Hsc. repeat split; tauto. Qed.

Lemma exported_files_removes (l : list string) :
  exported_files (List.map OsRemove l) = [].
Proof. induction l as [|x l IH]; [reflexivity|exact IH]. Qed.

Lemma replace_phase_ok (D : list string) (w : World) :
  let o := (if Py.truthy_list D then
              _ok_cancel (replace_msg D) "Confirm";;
              for_each D os.remove
            else ret tt) w in
  result_of o = Ok tt →
  scene (world_of o) = scene w
  ∧ fs_files (fs (world_of o)) = fs_files (fs w) ∖ list_to_set D
  ∧ exported_files (trace_of o) = [].
Proof.
  destruct D as [|d D']; cbn [Py.truthy_list]; cbv zeta.
  { intros _. cbn. repeat split. apply set_eq. intros x.
    rewrite elem_of_difference, elem_of_empty. tauto. }
  rewrite bind_run, _ok_cancel_run. cbn [result_of world_of trace_of fst snd].
  destruct (clicked_result ["Ok"; "Cancel"] (next_click w)) as [b|e];
    [|discriminate].
  cbn [result_of world_of trace_of fst snd]. intros Hok.
  destruct (remove_all_run (d :: D') (after_click w))
    as (done & Ht & _ & Hsc & _ & _ & Hf & Hdone).
  cbv zeta in Ht, Hsc, Hf, Hdone. specialize (Hdone Hok). subst done.
  rewrite Hsc, Hf, Ht. split; [reflexivity|]. split; [reflexivity|].
  change (?x :: ?t) with ([x] ++ t) at 1.
  rewrite exported_files_app, exported_files_removes. reflexivity.
Qed.

Lemma confirm_phase_ok (dir_ : string) (D : list string) (w : World) :
  let o := confirm_phase dir_ D w in
  result_of o = Ok tt →
  scene (world_of o) = scene w
  ∧ fs_files (fs (world_of o)) = fs_files (fs w) ∖ list_to_set D
  ∧ exported_files (trace_of o) = [].
Proof.
  cbv zeta. unfold confirm_phase, os.path_exists. rewrite bind_gets.
  fold (path_exists_in w dir_).
  destruct (path_exists_in w dir_) eqn:Hex; cbn [negb].
  { rewrite bind_ret_l. apply replace_phase_ok. }
  rewrite bind_run.
  assert (Hfirst : (_ok_cancel (create_dir_msg dir_) "Confirm";; os.makedirs dir_) w
                   = match clicked_result ["Ok"; "Cancel"] (next_click w) with
                     | Ok _ => (Ok tt, made_dir dir_ (after_click w),
                                [create_dir_box dir_ (next_click w); OsMakedirs dir_])
                     | Raise e => (Raise e, after_click w,
                                   [create_dir_box dir_ (next_click w)])
                     end).
  { rewrite bind_run, _ok_cancel_run. cbn [result_of world_of trace_of fst snd].
    destruct (clicked_result _ _); [|reflexivity].
    rewrite (makedirs_run dir_ (after_click w)) by exact Hex. reflexivity. }
  rewrite Hfirst.
  destruct (clicked_result ["Ok"; "Cancel"] (next_click w)) as [b|e];
    cbn [result_of world_of trace_of fst snd]; [|discriminate].
  intros Hok.
  destruct (replace_phase_ok D (made_dir dir_ (after_click w)) Hok) as (Hsc & Hf & Ht).
  rewrite Hsc, Hf. split; [reflexivity|]. split; [reflexivity|].
  change (?x :: ?y :: ?t) with ([x; y] ++ t).
  rewrite exported_files_app, Ht. reflexivity.
Qed.

Lemma export_loop_run `{OsPath} (range_ : Z * Z) (add_border_keys bake : bool)
    (roots : option (list string)) (items : list (Exportable * string)) (w : World) :
  let o := _ProgressBar.for_in (S (length items))
             {| _ProgressBar.items := items; _ProgressBar.n_items := length items |}
             (export_one range_ add_border_keys bake roots) w in
  export_loop range_ add_border_keys bake roots items w
  = (result_of o, world_of o,
     ProgressShow ("Exporting " +:+ pretty (length items) +:+ " fbxs")
     :: ProgressSetValue 0%float :: trace_of o).
Proof.
  cbv zeta. unfold export_loop, _ProgressBar.__init__.
  eapply (bind_ok3 _ _ _ _ w [_; _]); [reflexivity| |apply outcome_eta].
  reflexivity.
Qed.

(** C1 (as amended): when the export of a list runs to its end, and no node
    is in the temporary namespace at the start, the FBX writer is called
    once for each exportable that is not skipped, in the order of the list,
    with the path [dir/A_<scene>_<name>.fbx] of the exportable; a rig is
    skipped when root names are given and none of its root nodes exists.
    The files on disk afterwards are those written and the earlier ones
    that were not replaced. *)
Theorem one_file_per_exportable `{OsPath} (exportables : list Exportable)
    (dir_ : string) (range_ : Z * Z) (add_border_keys bake : bool)
    (roots : option (list string)) (w : World) :
  let o := _export_fbxs exportables dir_ range_ add_border_keys bake roots w in
  result_of o = Ok tt →
  tmp_nodes w = [] →
  exported_files (trace_of o) = expected_files w dir_ roots exportables
  ∧ fs_files (fs (world_of o))
    = list_to_set (expected_files w dir_ roots exportables)
      ∪ (fs_files (fs w) ∖ list_to_set (to_delete w dir_ exportables)).
Proof.
  cbv zeta. rewrite export_fbxs_phases.
  destruct exportables as [|x l].
  { intros _ _. rewrite bind_run, _notify_run.
    cbn [result_of world_of trace_of fst snd].
    destruct (clicked_result _ _); cbn; (split; [reflexivity|]).
    all: apply set_eq; intros y;
      rewrite elem_of_union, elem_of_difference, !elem_of_empty; tauto. }
  set (D := to_delete w dir_ (x :: l)).
  set (items := export_paths w dir_ (x :: l)).
  intros Hok Htmp. rewrite bind_run in Hok |- *.
  pose proof (confirm_phase_ok dir_ D w) as Hconfirm. cbv zeta in Hconfirm.
  destruct (confirm_phase dir_ D w) as [[[[]|err] w1] t1];
    cbn [result_of world_of trace_of fst snd] in *; [|discriminate].
  destruct (Hconfirm eq_refl) as (Hsc & Hf & Ht). clear Hconfirm.
  rewrite export_loop_run in Hok |- *.
  cbn [result_of world_of trace_of fst snd] in Hok |- *.
  destruct (export_loop_ok range_ add_border_keys bake roots (length items) w Htmp
              items w1 (same_scene_eq w w1 Hsc) Hok) as (Hex & Hfs).
  pose proof (expected_files_paths w dir_ roots (x :: l)) as Hexp.
  fold items in Hexp. rewrite Hexp in Hex.
  rewrite Hfs, Hf. rewrite exported_files_app, Ht.
  cbn [app exported_files flat_map].
  fold (exported_files (trace_of (_ProgressBar.for_in (S (length items))
          {| _ProgressBar.items := items; _ProgressBar.n_items := length items |}
          (export_one range_ add_border_keys bake roots) w1))).
  rewrite Hex. split; reflexivity.
Qed.


Lemma one_file_per_exportable_witness :
  result_of (_export_fbxs (H := Shot.platform)
               [Camera Shot.shotcam; Rig Shot.hero; Rig Shot.prop] "/out"
               (1, 24)%Z true true (Some ["JNT_Grp"]) Shot.world) = Ok tt
  ∧ tmp_nodes Shot.world = []
  ∧ exported_files
      (trace_of (_export_fbxs (H := Shot.platform)
                   [Camera Shot.shotcam; Rig Shot.hero; Rig Shot.prop] "/out"
                   (1, 24)%Z true true (Some ["JNT_Grp"]) Shot.world))
    = ["/out/A_sh010_shotcam.fbx"; "/out/A_sh010_hero.fbx"].
Proof.
  split; [vm_compute; reflexivity|]. split; [vm_compute; reflexivity|].
  refine (eq_trans (proj1 (one_file_per_exportable (H := Shot.platform)
    [Camera Shot.shotcam; Rig Shot.hero; Rig Shot.prop] "/out"
    (1, 24)%Z true true (Some ["JNT_Grp"]) Shot.world _ _)) _);
    vm_compute; reflexivity.
Defined.

(** C1 as the specification states it fails: in the shot, the rig [prop] is
    selected and the root name [JNT_Grp] is given; no node [prop:JNT_Grp]
    exists.  The export returns without an error and without a call of the
    FBX writer, and the file of the rig that was on disk before the export
    has been removed. *)
Lemma export_of_rig_writes_no_file :
  let o := _export_fbxs (H := Shot.platform) [Rig Shot.prop] "/out"
             (1, 24)%Z true true (Some ["JNT_Grp"]) Shot.world in
  result_of o = Ok tt
  ∧ exported_files (trace_of o) = []
  ∧ export_paths (H := Shot.platform) Shot.world "/out" [Rig Shot.prop]
    = [(Rig Shot.prop, "/out/A_sh010_prop.fbx")]
  ∧ bool_decide ("/out/A_sh010_prop.fbx" ∈ fs_files (fs Shot.world)) = true
  ∧ bool_decide ("/out/A_sh010_prop.fbx" ∈ fs_files (fs (world_of o))) = false.
Proof. vm_compute. repeat split. Qed.

(** * Further properties of the script *)

(** ** Strings *)

Lemma str_app_cons (x : ascii) (a b : string) :
  String x a +:+ b = String x (a +:+ b).
Proof. reflexivity. Qed.

Lemma str_app_assoc (a b c : string) : (a +:+ b) +:+ c = a +:+ (b +:+ c).
Proof.
  induction a as [|x a IH]; [reflexivity|].
  rewrite !str_app_cons, IH. reflexivity.
Qed.

Lemma str_app_nil_r (a : string) : a +:+ "" = a.
Proof.
  induction a as [|x a IH]; [reflexivity|].
  rewrite str_app_cons, IH. reflexivity.
Qed.

Lemma contains_app (c : ascii) (a b : string) :
  Py.contains c (a +:+ b) = Py.contains c a || Py.contains c b.
Proof.
  induction a as [|x a IH]; [reflexivity|].
  rewrite str_app_cons. cbn [Py.contains].
  destruct (Ascii.eqb x c); [reflexivity|exact IH].
Qed.

Lemma split_not_nil (c : ascii) (s : string) : Py.split c s ≠ [].
Proof.
  destruct s as [|a s]; [discriminate|]. cbn.
  destruct (Ascii.eqb a c); [discriminate|].
  destruct (Py.split c s); discriminate.
Qed.

Lemma split_no_sep (c : ascii) (s : string) :
  Py.contains c s = false → Py.split c s = [s].
Proof.
  induction s as [|a s IH]; [reflexivity|]. cbn.
  destruct (Ascii.eqb a c); [discriminate|].
  intros Hs. rewrite (IH Hs). reflexivity.
Qed.

Lemma split_sep (c : ascii) (a b : string) :
  Py.contains c a = false →
  Py.split c (a +:+ String c b) = a :: Py.split c b.
Proof.
  induction a as [|x a IH].
  - intros _. change ("" +:+ String c b) with (String c b).
    cbn [Py.split]. rewrite Ascii.eqb_refl. reflexivity.
  - rewrite str_app_cons. cbn [Py.split Py.contains].
    destruct (Ascii.eqb x c); [discriminate|].
    intros Ha. rewrite (IH Ha). reflexivity.
Qed.

Lemma split_pieces (c : ascii) (s : string) :
  Forall (λ t, Py.contains c t = false) (Py.split c s).
Proof.
  induction s as [|a s IH]; [repeat constructor|]. cbn.
  destruct (Ascii.eqb a c) eqn:Hac; [constructor; [reflexivity|exact IH]|].
  destruct (Py.split c s) as [|t ts]; [repeat constructor; cbn; rewrite Hac; reflexivity|].
  inversion IH as [|? ? Ht Hts]; subst.
  constructor; [cbn; rewrite Hac; exact Ht|exact Hts].
Qed.

Lemma split_join (c : ascii) (s : string) :
  Py.join (String c "") (Py.split c s) = s.
Proof.
  unfold Py.join. induction s as [|a s IH]; [reflexivity|]. cbn [Py.split].
  pose proof (split_not_nil c s) as Hne.
  destruct (Ascii.eqb a c) eqn:Hac.
  - apply Ascii.eqb_eq in Hac. subst a.
    destruct (Py.split c s) as [|t ts]; [contradiction|].
    cbn in IH |- *. rewrite IH. reflexivity.
  - destruct (Py.split c s) as [|t ts]; [contradiction|].
    destruct ts as [|t' ts].
    + cbn in IH |- *. rewrite IH. reflexivity.
    + change (String a t +:+ String c "" +:+ String.concat (String c "") (t' :: ts)
              = String a s).
      rewrite str_app_cons. f_equal. exact IH.
Qed.

Lemma split_two (c : ascii) (s : string) :
  Py.contains c s = true → ∃ t t' ts, Py.split c s = t :: t' :: ts.
Proof.
  induction s as [|a s IH]; [discriminate|]. cbn.
  pose proof (split_not_nil c s) as Hne.
  destruct (Ascii.eqb a c).
  - intros _. destruct (Py.split c s) as [|t ts]; [contradiction|]. eauto.
  - intros Hs. destruct (IH Hs) as (t & t' & ts & ->). eauto.
Qed.

Lemma concat_snoc (sep : string) (l : list string) (x : string) :
  l ≠ [] → String.concat sep (l ++ [x]) = String.concat sep l +:+ sep +:+ x.
Proof.
  induction l as [|a l IH]; [contradiction|]. intros _.
  destruct l as [|b l].
  - reflexivity.
  - change (String.concat sep ((a :: b :: l) ++ [x]))
      with (a +:+ sep +:+ String.concat sep ((b :: l) ++ [x])).
    rewrite IH by discriminate.
    change (String.concat sep (a :: b :: l))
      with (a +:+ sep +:+ String.concat sep (b :: l)).
    rewrite !str_app_assoc. reflexivity.
Qed.

Lemma init_last {A} (l : list A) (d : A) :
  l ≠ [] → l = Py.init l ++ [List.last l d].
Proof. intros Hl. apply app_removelast_last, Hl. Qed.


Lemma replace_removes (c d : ascii) (s : string) :
  c ≠ d → Py.contains c (Py.replace c d s) = false.
Proof.
  intros Hcd. induction s as [|a s IH]; [reflexivity|]. cbn.
  destruct (Ascii.eqb a c) eqn:Hac.
  - destruct (Ascii.eqb d c) eqn:Hdc; [|exact IH].
    apply Ascii.eqb_eq in Hdc. congruence.
  - rewrite Hac. exact IH.
Qed.

Lemma replace_absent (c d : ascii) (s : string) :
  Py.contains c s = false → Py.replace c d s = s.
Proof.
  induction s as [|a s IH]; [reflexivity|]. cbn.
  destruct (Ascii.eqb a c); [discriminate|].
  intros Hs. rewrite (IH Hs). reflexivity.
Qed.

Lemma split_last_sep (c : ascii) (a b d : string) :
  Py.contains c b = false →
  List.last (Py.split c (a +:+ String c b)) d = b.
Proof.
  intros Hb. induction a as [|x a IH].
  - change ("" +:+ String c b) with (String c b). cbn [Py.split].
    rewrite Ascii.eqb_refl, (split_no_sep c b Hb). reflexivity.
  - rewrite str_app_cons. cbn [Py.split].
    destruct (split_two c (a +:+ String c b)) as (t & t' & ts & Hsplit).
    { rewrite contains_app. cbn [Py.contains]. rewrite Ascii.eqb_refl.
      apply orb_true_r. }
    rewrite Hsplit in IH |- *.
    destruct (Ascii.eqb x c); exact IH.
Qed.

Lemma split_hd_sep (c : ascii) (a b : string) :
  Py.contains c a = false → hd "" (Py.split c (a +:+ String c b)) = a.
Proof. intros Ha. rewrite (split_sep c a b Ha). reflexivity. Qed.

Lemma split_hd_no_sep (c : ascii) (s : string) :
  Py.contains c (hd "" (Py.split c s)) = false.
Proof.
  pose proof (split_pieces c s) as Hall.
  destruct (Py.split c s) as [|t ts]; [reflexivity|].
  inversion Hall; subst. assumption.
Qed.

Lemma last_elem_of {A} (l : list A) (d : A) : l ≠ [] → List.last l d ∈ l.
Proof.
  intros Hl. rewrite (init_last l d Hl) at 2.
  apply elem_of_app. right. apply list_elem_of_here.
Qed.

(** X1: [_Path] cuts the file name of a path at its last dot: with a dot in
    the file name, the extension has no dot and the file name is the
    basename, a dot and the extension; without one there is no extension
    and the basename is the file name. *)
Theorem path_cut_at_last_dot `{OsPath} (p : string) :
  let f := os_path_basename p in
  let P := _Path.__init__ p in
  _Path.path P = p
  ∧ _Path.dir P = os_path_dirname p
  ∧ _Path.filename P = f
  ∧ match _Path.extn P with
    | Some x =>
        Py.contains "." f = true
        ∧ Py.contains "." x = false
        ∧ f = _Path.basename P +:+ "." +:+ x
    | None => Py.contains "." f = false ∧ _Path.basename P = f
    end.
Proof.
  cbv zeta. unfold _Path.__init__.
  destruct (Py.contains "." (os_path_basename p)) eqn:Hdot;
    cbn [_Path.path _Path.dir _Path.filename _Path.extn _Path.basename];
    repeat (split; [reflexivity|]); [|split; reflexivity].
  set (f := os_path_basename p) in *.
  destruct (split_two "." f Hdot) as (t & t' & ts & Hsplit).
  pose proof (init_last (Py.split "." f) "" (split_not_nil "." f)) as Hcut.
  split.
  - pose proof (split_pieces "." f) as Hall. rewrite Forall_forall in Hall.
    apply Hall, last_elem_of, split_not_nil.
  - pose proof (split_join "." f) as Hjoin. unfold Py.join in *.
    rewrite Hcut in Hjoin at 1. rewrite concat_snoc in Hjoin.
    + symmetry. exact Hjoin.
    + rewrite Hsplit. discriminate.
Qed.

(** X2: the path that [_abs_path] returns contains no backslash, and it is
    the absolute path itself when that has none. *)
Theorem abs_path_forward_slashes `{OsPath} (path : string) :
  Py.contains Py.backslash (_abs_path path) = false
  ∧ (Py.contains Py.backslash (os_path_abspath path) = false →
     _abs_path path = os_path_abspath path).
Proof.
  unfold _abs_path. split.
  - apply replace_removes. discriminate.
  - apply replace_absent.
Qed.

(** X3: the namespace that [_get_ns] reads off a node name contains neither
    [:] nor [|]; for a name [parent|ns:rest] it is [ns], whatever further
    colons [rest] has; and for a name without [:] and [|] it is the name
    itself. *)
Theorem get_ns_outer_namespace (node : string) :
  Py.contains ":" (_get_ns node) = false
  ∧ Py.contains "|" (_get_ns node) = false
  ∧ (∀ parent ns rest,
       Py.contains ":" ns = false → Py.contains "|" ns = false →
       Py.contains "|" rest = false →
       node = parent +:+ "|" +:+ ns +:+ ":" +:+ rest → _get_ns node = ns)
  ∧ (Py.contains ":" node = false → Py.contains "|" node = false →
     _get_ns node = node).
Proof.
  unfold _get_ns. split; [apply split_hd_no_sep|]. split.
  - set (leaf := List.last (Py.split "|" node) "").
    assert (Hleaf : Py.contains "|" leaf = false).
    { pose proof (split_pieces "|" node) as Hall. rewrite Forall_forall in Hall.
      apply Hall, last_elem_of, split_not_nil. }
    pose proof (split_join ":" leaf) as Hjoin.
    assert (Hall : Forall (λ t, Py.contains "|" t = false) (Py.split ":" leaf)).
    { clear Hjoin. revert Hleaf. generalize leaf. clear.
      induction leaf as [|a s IH]; intros Hs; [repeat constructor|].
      cbn [Py.split]. cbn [Py.contains] in Hs.
      destruct (Ascii.eqb a "|") eqn:Hbar; [discriminate|].
      specialize (IH Hs).
      destruct (Ascii.eqb a ":"); [constructor; [reflexivity|exact IH]|].
      destruct (Py.split ":" s) as [|t ts]; [repeat constructor; cbn; rewrite Hbar; reflexivity|].
      inversion IH; subst. constructor; [cbn; rewrite Hbar; assumption|assumption]. }
    destruct (Py.split ":" leaf) as [|t ts]; [reflexivity|].
    inversion Hall; subst. assumption.
  - split.
    + intros parent ns rest Hns Hbar Hrest ->.
      change (parent +:+ "|" +:+ ns +:+ ":" +:+ rest)
        with (parent +:+ String "|" (ns +:+ ":" +:+ rest)).
      rewrite split_last_sep.
      * change (ns +:+ ":" +:+ rest) with (ns +:+ String ":" rest).
        apply split_hd_sep, Hns.
      * rewrite contains_app, Hbar. exact Hrest.
    + intros Hcolon Hbar. rewrite (split_no_sep "|" node Hbar). cbn [List.last].
      rewrite (split_no_sep ":" node Hcolon). reflexivity.
Qed.


(** ** Names and dialogs *)

(** X4: the display name of a camera has no colon: it is the transform when
    that has none, and the outermost namespace otherwise.  So all the
    cameras of one namespace have the same name, and the export gives them
    the same path. *)
Theorem camera_name_is_namespace `{OsPath} (c : _Camera.t) :
  Py.contains ":" (_Camera.name c) = false
  ∧ (Py.contains ":" (_Camera.tfm c) = false → _Camera.name c = _Camera.tfm c)
  ∧ (∀ ns rest, Py.contains ":" ns = false →
       _Camera.tfm c = ns +:+ ":" +:+ rest → _Camera.name c = ns)
  ∧ (∀ ns rest rest' c' w dir_,
       Py.contains ":" ns = false →
       _Camera.tfm c = ns +:+ ":" +:+ rest →
       _Camera.tfm c' = ns +:+ ":" +:+ rest' →
       List.map snd (export_paths w dir_ [Camera c; Camera c'])
       = [fbx_path dir_ (scene_location (scene w)) ns;
          fbx_path dir_ (scene_location (scene w)) ns]).
Proof.
  assert (Hns : ∀ (k : _Camera.t) ns rest,
            Py.contains ":" ns = false →
            _Camera.tfm k = ns +:+ ":" +:+ rest → _Camera.name k = ns).
  { intros k ns rest Hno Htfm. unfold _Camera.name. rewrite Htfm.
    change (ns +:+ ":" +:+ rest) with (ns +:+ String ":" rest).
    rewrite contains_app. cbn [Py.contains]. rewrite Ascii.eqb_refl, orb_true_r.
    apply split_hd_sep, Hno. }
  split; [|split; [|split]].
  - unfold _Camera.name.
    destruct (Py.contains ":" (_Camera.tfm c)) eqn:Hc; [|exact Hc].
    apply split_hd_no_sep.
  - intros Hc. unfold _Camera.name. rewrite Hc. reflexivity.
  - apply Hns.
  - intros ns rest rest' c' w dir_ Hno Hc Hc'.
    unfold export_paths. cbn [List.map snd export_name].
    rewrite (Hns c ns rest Hno Hc), (Hns c' ns rest' Hno Hc'). reflexivity.
Qed.

(** X5: the buttons of a message box always include [Cancel]: the given
    buttons come first and unchanged, and one [Cancel] (the hidden one) is
    appended exactly when there is none among them. *)
Theorem message_box_has_cancel (buttons : list string) :
  let _buttons := _MessageBox._add_buttons buttons in
  "Cancel" ∈ _buttons
  ∧ ("Cancel" ∈ buttons → _buttons = buttons)
  ∧ ("Cancel" ∉ buttons → _buttons = buttons ++ ["Cancel"])
  ∧ (∀ k b, buttons !! k = Some b → _buttons !! k = Some b)
  ∧ _MessageBox._add_buttons _buttons = _buttons.
Proof.
  cbv zeta. unfold _MessageBox._add_buttons, Py.mem.
  destruct (decide ("Cancel" ∈ buttons)) as [Hin|Hout].
  - rewrite !(bool_decide_eq_true_2 _ Hin). cbn [negb].
    rewrite ?(bool_decide_eq_true_2 _ Hin).
    repeat split; auto. contradiction.
  - rewrite !(bool_decide_eq_false_2 _ Hout). cbn [negb].
    assert (Hin : "Cancel" ∈ buttons ++ ["Cancel"]).
    { apply elem_of_app. right. apply list_elem_of_here. }
    rewrite (bool_decide_eq_true_2 _ Hin).
    repeat split; auto; try contradiction.
    intros k b Hk. apply lookup_app_l_Some, Hk.
Qed.

(** X6: a message box answers with the button the user clicked, and never
    with [Cancel]: a click on [Cancel] raises RuntimeError and a click that
    is no button of the box raises IndexError.  The box is shown once; the
    file system and the scene stay as they are. *)
Theorem message_box_result (box : _MessageBox.t) (w : World) :
  let o := _MessageBox.get_result box w in
  let clicked := _MessageBox.buttons box !! next_click w in
  (∀ b, result_of o = Ok b ↔ clicked = Some b ∧ b ≠ "Cancel")
  ∧ (result_of o = Raise RuntimeError ↔ clicked = Some "Cancel")
  ∧ (result_of o = Raise IndexError ↔ clicked = None)
  ∧ trace_of o
    = [MessageBoxExec (_MessageBox.title box) (_MessageBox.text box)
         (_MessageBox.buttons box) (next_click w)]
  ∧ fs (world_of o) = fs w
  ∧ scene (world_of o) = scene w
  ∧ user_seen (user (world_of o)) = S (user_seen (user w)).
Proof.
  cbv zeta. rewrite get_result_run. unfold clicked_result.
  cbn [result_of world_of trace_of fst snd].
  destruct (_MessageBox.buttons box !! next_click w) as [b|].
  - destruct (decide (b = "Cancel")) as [->|Hb].
    + cbn. repeat split; try congruence; try discriminate; try tauto.
      intros [Heq Hne]. congruence.
    + rewrite (bool_decide_eq_false_2 _ Hb).
      repeat split; try congruence; try discriminate; try tauto.
      intros [Heq _]. congruence.
  - repeat split; try congruence; try discriminate; try tauto.
    all: intros [Heq _]; discriminate.
Qed.

(** X7: [_ok_cancel] and [_notify] return only [Ok]: they return when the
    user clicks the first button, raise RuntimeError on [Cancel], which for
    [_notify] is the hidden button, and change neither the file system nor
    the scene. *)
Theorem dialogs_return_ok (msg title : string) (w : World) :
  Forall (λ dialog : string → string → M string,
    let o := dialog msg title w in
    (∀ b, result_of o = Ok b → b = "Ok")
    ∧ (result_of o = Ok "Ok" ↔ next_click w = 0%nat)
    ∧ (result_of o = Raise RuntimeError ↔ next_click w = 1%nat)
    ∧ fs (world_of o) = fs w
    ∧ scene (world_of o) = scene w)
    [_ok_cancel; _notify].
Proof.
  assert (Hboth : ∀ dialog : string → string → M string,
    dialog msg title w
    = (clicked_result ["Ok"; "Cancel"] (next_click w), after_click w,
       [MessageBoxExec title msg ["Ok"; "Cancel"] (next_click w)]) →
    let o := dialog msg title w in
    (∀ b, result_of o = Ok b → b = "Ok")
    ∧ (result_of o = Ok "Ok" ↔ next_click w = 0%nat)
    ∧ (result_of o = Raise RuntimeError ↔ next_click w = 1%nat)
    ∧ fs (world_of o) = fs w
    ∧ scene (world_of o) = scene w).
  { intros dialog Hrun. cbv zeta. rewrite Hrun.
    cbn [result_of world_of trace_of fst snd]. unfold clicked_result.
    destruct (next_click w) as [|[|k]]; cbn; repeat split; try congruence;
      try discriminate; try lia.
    all: try (intros b Hb; injection Hb; auto). }
  constructor; [apply Hboth, _ok_cancel_run|].
  constructor; [apply Hboth, _notify_run|constructor].
Qed.


(** ** Namespaces and the selection *)

Lemma cleaned_nodes (ns : string) (clean : bool) (w : World) (n : string) :
  n ∈ scene_nodes (scene (namespace_cleaned ns clean w))
  ↔ n ∈ scene_nodes (scene w)
    ∧ (clean = true → cmds.ls_match (ns +:+ ":*") n = false).
Proof.
  unfold namespace_cleaned. destruct clean.
  2:{ split; [intros Hin; split; [exact Hin|discriminate]|tauto]. }
  destruct (matching (ns +:+ ":*") w) as [|x l] eqn:Hm.
  - split; [|tauto]. intros Hin. split; [exact Hin|]. intros _.
    destruct (cmds.ls_match (ns +:+ ":*") n) eqn:Hn; [|reflexivity].
    assert (Hx : In n (matching (ns +:+ ":*") w)).
    { apply filter_In. split; [apply list_elem_of_In, Hin|exact Hn]. }
    rewrite Hm in Hx. destruct Hx.
  - rewrite <- Hm. unfold deleted, matching, Py.mem.
    cbn [scene set_scene cmds.with_nodes scene_nodes].
    rewrite !list_elem_of_In, filter_In, negb_true_iff, <- !list_elem_of_In.
    split.
    + intros [Hin Hnot]. split; [exact Hin|]. intros _.
      apply bool_decide_eq_false_1 in Hnot.
      destruct (cmds.ls_match (ns +:+ ":*") n) eqn:Hn; [|reflexivity].
      exfalso. apply Hnot, list_elem_of_In, filter_In.
      split; [apply list_elem_of_In, Hin|exact Hn].
    + intros [Hin Hn]. split; [exact Hin|].
      apply bool_decide_eq_false_2. intros Hx.
      apply list_elem_of_In, filter_In in Hx as [_ Hx].
      rewrite (Hn eq_refl) in Hx. discriminate.
Qed.

(** X8: [_set_namespace] refuses a namespace that does not start with a
    colon, with AssertionError and before any command.  Otherwise it
    returns with the namespace current and existing; it adds the namespace
    exactly when it did not exist; with [clean] the nodes left are those
    that do not match [namespace:*], without it every node is left; and
    the file system is as before. *)
Theorem set_namespace_enters (namespace : string) (clean : bool) (w : World) :
  let o := _set_namespace namespace clean w in
  if Py.startswith ":" namespace then
    result_of o = Ok tt
    ∧ scene_current_namespace (scene (world_of o)) = namespace
    ∧ namespace_known (world_of o) namespace = true
    ∧ (CmdsNamespaceAdd namespace ∈ trace_of o ↔ namespace_known w namespace = false)
    ∧ last (trace_of o) = Some (CmdsNamespaceSet namespace)
    ∧ (∀ n, n ∈ scene_nodes (scene (world_of o))
            ↔ n ∈ scene_nodes (scene w)
              ∧ (clean = true → cmds.ls_match (namespace +:+ ":*") n = false))
    ∧ fs (world_of o) = fs w
  else o = (Raise AssertionError, w, []).
Proof.
  cbv zeta. destruct (Py.startswith ":" namespace) eqn:Hns.
  2:{ unfold _set_namespace. rewrite Hns. reflexivity. }
  rewrite (_set_namespace_run namespace clean w Hns).
  cbn [result_of world_of trace_of fst snd].
  split; [reflexivity|]. split; [reflexivity|]. split.
  { unfold namespace_entered.
    destruct (namespace_known (namespace_cleaned namespace clean w) namespace) eqn:Hk.
    - unfold namespace_known in Hk |- *. exact Hk.
    - unfold namespace_known.
      cbn [scene set_scene cmds.with_namespaces scene_namespaces].
      apply orb_true_iff. right.
      apply bool_decide_eq_true_2, elem_of_app. right. apply list_elem_of_here. }
  split.
  { unfold set_namespace_trace. rewrite !elem_of_app, list_elem_of_singleton.
    destruct (namespace_known w namespace).
    - split; [|discriminate]. intros [Hin|[Hin|Hin]].
      + destruct clean; [|inversion Hin].
        destruct (matching _ w); [inversion Hin|].
        apply list_elem_of_singleton in Hin. discriminate.
      + inversion Hin.
      + discriminate.
    - split; [reflexivity|]. intros _. right. left. apply list_elem_of_here. }
  split.
  { unfold set_namespace_trace. rewrite !app_assoc. apply last_snoc. }
  split.
  { intros n. change (scene_nodes (scene (namespace_entered namespace ?x)))
      with (scene_nodes (scene x)). apply cleaned_nodes. }
  destruct (namespace_entered_facts namespace (namespace_cleaned namespace clean w))
    as (_ & Hf & _).
  destruct (namespace_cleaned_facts namespace clean w) as (_ & Hf' & _).
  congruence.
Qed.


Lemma existing_nodes_all (w : World) (l : list string) :
  (∀ n, n ∈ l → n ∈ scene_nodes (scene w)) → existing_nodes w l = l.
Proof.
  intros Hall. unfold existing_nodes. induction l as [|x l IH]; [reflexivity|].
  cbn [List.filter]. rewrite bool_decide_eq_true_2 by apply Hall, list_elem_of_here.
  rewrite IH; [reflexivity|]. intros n Hn. apply Hall, list_elem_of_further, Hn.
Qed.

(** X9: a function decorated with [_restore_sel] returns what the function
    returns.  After it, the nodes of the earlier selection that still exist
    are selected again, when there is one; when there is none (nothing was
    selected, or all of it was deleted) the selection is the one the
    function left.  When the function raises, the exception goes through
    and the selection is not restored. *)
Theorem restore_sel_restores {A} (func : M A) (w : World) :
  let f := func w in
  let o := _restore_sel func w in
  let kept := existing_nodes (world_of f) (scene_selection (scene w)) in
  match result_of f with
  | Ok r =>
      result_of o = Ok r
      ∧ trace_of o
        = trace_of f ++ (if Py.truthy_list kept then [CmdsSelect kept] else [])
      ∧ scene_selection (scene (world_of o))
        = (if Py.truthy_list kept then kept
           else scene_selection (scene (world_of f)))
      ∧ scene_nodes (scene (world_of o)) = scene_nodes (scene (world_of f))
      ∧ fs (world_of o) = fs (world_of f)
      ∧ ((∀ n, n ∈ scene_selection (scene w) →
               n ∈ scene_nodes (scene (world_of f))) →
         scene_selection (scene w) ≠ [] →
         scene_selection (scene (world_of o)) = scene_selection (scene w))
  | Raise e => o = (Raise e, world_of f, trace_of f)
  end.
Proof.
  cbv zeta. unfold _restore_sel, cmds.ls_selection. rewrite bind_gets.
  rewrite bind_run.
  destruct (func w) as [[[r|e] w1] t1]; cbn [result_of world_of trace_of fst snd];
    [|reflexivity].
  rewrite (bind_query _ _ _ _ (existing_nodes_run w1 (scene_selection (scene w)) [])).
  cbn [app].
  set (kept := existing_nodes w1 (scene_selection (scene w))).
  assert (Hrest : ((if Py.truthy_list kept then cmds.select kept else ret tt);; ret r) w1
                  = (Ok r,
                     if Py.truthy_list kept
                     then set_scene (cmds.with_selection kept) w1 else w1,
                     if Py.truthy_list kept then [CmdsSelect kept] else [])).
  { destruct (Py.truthy_list kept); [|reflexivity].
    eapply (bind_ok2 _ _ _ _ _ [_]); [apply select_run|]. reflexivity. }
  rewrite Hrest. cbn [result_of world_of trace_of fst snd].
  split; [reflexivity|]. split; [reflexivity|].
  assert (Hsel : scene_selection
                   (scene (if Py.truthy_list kept
                           then set_scene (cmds.with_selection kept) w1 else w1))
                 = (if Py.truthy_list kept then kept else scene_selection (scene w1))).
  { destruct (Py.truthy_list kept); reflexivity. }
  split; [exact Hsel|].
  split; [destruct (Py.truthy_list kept); reflexivity|].
  split; [destruct (Py.truthy_list kept); reflexivity|].
  intros Hall Hne. rewrite Hsel. unfold kept.
  rewrite (existing_nodes_all w1 _ Hall).
  destruct (scene_selection (scene w)); [contradiction|reflexivity].
Qed.


(** ** The cameras of the scene *)

Lemma find_cams_step (default : bool) (w : World) (shp : string)
    (acc : list _Camera.t) :
  ∃ r : Result (list _Camera.t),
    (let* parents := cmds.listRelatives_parent shp in
     let* _tfm := match parents with
                  | None => raise TypeError
                  | Some [] => raise IndexError
                  | Some (p :: _) => ret p
                  end in
     if negb default && Py.mem _tfm ["persp"; "top"; "front"; "side"] then ret acc
     else
       let* _cam := _Camera.__init__ _tfm in
       ret (acc ++ [_cam])) w = (r, w, [])
    ∧ match r with
      | Ok cams =>
          cams = acc ∧ (∀ c, ¬ camera_of w default shp c)
          ∨ ∃ c, cams = acc ++ [c] ∧ ∀ c', camera_of w default shp c' ↔ c' = c
      | Raise e => e = TypeError ∨ e = IndexError
      end.
Proof.
  unfold cmds.listRelatives_parent. rewrite bind_gets.
  destruct (scene_parent (scene w) shp) as [[|p rest]|] eqn:Hpar.
  - exists (Raise IndexError). split; [reflexivity|auto].
  - rewrite bind_ret_l.
    destruct (negb default && Py.mem p ["persp"; "top"; "front"; "side"]) eqn:Hskip.
    + exists (Ok acc). split; [reflexivity|]. left. split; [reflexivity|].
      intros c ((rest' & Hc) & Hdef & _).
      apply andb_true_iff in Hskip as [Hd Hmem].
      apply negb_true_iff in Hd. apply (bool_decide_eq_true_1 _) in Hmem.
      assert (_Camera.tfm c = p) by congruence. subst p.
      exact (Hdef Hd Hmem).
    + unfold _Camera.__init__, cmds.listRelatives_shapes.
      rewrite bind_assoc, bind_gets.
      destruct (scene_shapes (scene w) p) as [[|s rest']|] eqn:Hsh.
      * exists (Raise IndexError). split; [reflexivity|auto].
      * exists (Ok (acc ++ [{| _Camera.tfm := p; _Camera.shp := s |}])).
        split; [reflexivity|]. right. eexists. split; [reflexivity|].
        intros [tfm' shp']. unfold camera_of. cbn [_Camera.tfm _Camera.shp]. split.
        -- intros ((r1 & H1) & _ & (r2 & H2)).
           assert (tfm' = p) by congruence. subst tfm'.
           assert (shp' = s) by congruence. subst shp'. reflexivity.
        -- intros Heq. injection Heq as -> ->.
           split; [eauto|]. split; [|eauto].
           intros Hd Hmem. rewrite Hd in Hskip. cbn [negb andb] in Hskip.
           unfold Py.mem in Hskip. apply bool_decide_eq_false_1 in Hskip.
           contradiction.
      * exists (Raise TypeError). split; [reflexivity|auto].
  - exists (Raise TypeError). split; [reflexivity|auto].
Qed.

Lemma find_cams_loop (default : bool) (w : World) :
  ∀ (shapes : list string) (acc : list _Camera.t),
    let o := for_fold shapes acc (λ _shp _cams,
               let* parents := cmds.listRelatives_parent _shp in
               let* _tfm := match parents with
                            | None => raise TypeError
                            | Some [] => raise IndexError
                            | Some (p :: _) => ret p
                            end in
               if negb default && Py.mem _tfm ["persp"; "top"; "front"; "side"]
               then ret _cams
               else
                 let* _cam := _Camera.__init__ _tfm in
                 ret (_cams ++ [_cam])) w in
    world_of o = w ∧ trace_of o = []
    ∧ match result_of o with
      | Ok cams =>
          ∀ c, c ∈ cams ↔ c ∈ acc ∨ ∃ shp, shp ∈ shapes ∧ camera_of w default shp c
      | Raise e => e = TypeError ∨ e = IndexError
      end.
Proof.
  induction shapes as [|shp shapes IH]; intros acc; cbv zeta.
  - cbn. repeat split; auto. intros [H|(shp & H & _)]; [exact H|inversion H].
  - cbn [for_fold].
    destruct (find_cams_step default w shp acc) as (r & Hrun & Hr).
    rewrite bind_run, Hrun. cbn [result_of world_of trace_of fst snd].
    destruct r as [cams|e]; cbn [result_of world_of trace_of fst snd app];
      [|repeat split; exact Hr].
    specialize (IH cams). cbv zeta in IH. destruct IH as (Hw & Ht & Hres).
    split; [exact Hw|]. split; [exact Ht|].
    destruct (result_of (for_fold shapes cams _ w)) as [cams'|e]; [|exact Hres].
    intros c. rewrite Hres.
    destruct Hr as [[-> Hnone]|(c0 & -> & Hone)].
    + split.
      * intros [H|(s & Hs & Hc)]; [auto|]. right. exists s. split; [|exact Hc].
        apply list_elem_of_further, Hs.
      * intros [H|(s & Hs & Hc)]; [auto|].
        apply elem_of_cons in Hs as [->|Hs]; [destruct (Hnone c Hc)|eauto].
    + rewrite elem_of_app, list_elem_of_singleton. split.
      * intros [[H|H]|(s & Hs & Hc)]; [auto| |].
        -- right. exists shp. split; [apply list_elem_of_here|]. apply Hone, H.
        -- right. exists s. split; [apply list_elem_of_further, Hs|exact Hc].
      * intros [H|(s & Hs & Hc)]; [auto|].
        apply elem_of_cons in Hs as [->|Hs]; [|eauto].
        left. right. apply Hone, Hc.
Qed.

(** X10: [_find_cams] only reads the scene.  When it returns, it lists
    exactly the cameras of the camera shapes of the scene: for each shape,
    the first parent of the shape with the first shape of that parent,
    except the cameras [persp], [top], [front] and [side] unless the default
    cameras are asked for.  When a camera shape has no parent or a parent
    has no shape it raises TypeError or IndexError. *)
Theorem find_cams_lists_cameras (is_camera : string → bool) (default : bool)
    (w : World) :
  let o := _find_cams is_camera default w in
  world_of o = w
  ∧ trace_of o = []
  ∧ match result_of o with
    | Ok cams =>
        ∀ c, c ∈ cams
             ↔ ∃ shp, shp ∈ scene_nodes (scene w) ∧ is_camera shp = true
                      ∧ camera_of w default shp c
    | Raise e => e = TypeError ∨ e = IndexError
    end.
Proof.
  cbv zeta. unfold _find_cams, cmds_ls_type_camera. rewrite bind_gets.
  pose proof (find_cams_loop default w
                (List.filter is_camera (scene_nodes (scene w))) []) as Hloop.
  cbv zeta in Hloop. destruct Hloop as (Hw & Ht & Hres).
  split; [exact Hw|]. split; [exact Ht|].
  destruct (result_of _) as [cams|e]; [|exact Hres].
  intros c. rewrite Hres. split.
  - intros [H|(shp & Hs & Hc)]; [inversion H|].
    apply list_elem_of_In, filter_In in Hs as [Hs Hcam].
    exists shp. split; [apply list_elem_of_In, Hs|]. split; assumption.
  - intros (shp & Hs & Hcam & Hc). right. exists shp. split; [|exact Hc].
    apply list_elem_of_In, filter_In. split; [apply list_elem_of_In, Hs|exact Hcam].
Qed.


(** ** The settings of the dialog, continued *)

Section MoreSettings.
Import _FbxExporterUi.

Lemma for_attrs_keeps (R : t → t → Prop) (body : string → t → Result t) :
  (∀ s, R s s) → (∀ s1 s2 s3, R s1 s2 → R s2 s3 → R s1 s3) →
  (∀ a s s', body a s = Ok s' → R s s') →
  ∀ attrs s s', for_attrs attrs s body = Ok s' → R s s'.
Proof.
  intros Hrefl Htrans Hbody. induction attrs as [|a attrs IH]; intros s s' Hrun.
  - injection Hrun as <-. apply Hrefl.
  - cbn [for_attrs] in Hrun. destruct (body a s) as [s1|e] eqn:Hstep; [|discriminate].
    eapply Htrans; [apply (Hbody a s s1 Hstep)|apply IH, Hrun].
Qed.

Lemma setChecked_keeps (attr : string) (b : bool) (ui : t) :
  start (setChecked attr b ui) = start ui
  ∧ end_ (setChecked attr b ui) = end_ ui
  ∧ _settings (setChecked attr b ui) = _settings ui.
Proof. repeat split. Qed.

Lemma setText_keeps (attr : string) (s : string) (ui : t) :
  start (setText attr s ui) = start ui
  ∧ end_ (setText attr s ui) = end_ ui
  ∧ _settings (setText attr s ui) = _settings ui.
Proof. repeat split. Qed.

(** X11: loading the settings never changes the stored settings nor the two
    frame fields; and with none of the five keys stored, as at the first
    launch, it leaves the whole form as it is. *)
Theorem load_settings_keeps (ui : t) :
  (∀ loaded, load_settings ui = Ok loaded →
     _settings loaded = _settings ui
     ∧ start loaded = start ui
     ∧ end_ loaded = end_ ui)
  ∧ ((∀ k, k ∈ _save_attrs → _settings ui !! k = None) →
     load_settings ui = Ok ui).
Proof.
  split.
  - intros loaded Hload.
    apply (for_attrs_keeps
             (λ s s', _settings s' = _settings s ∧ start s' = start s
                      ∧ end_ s' = end_ s)) in Hload; [exact Hload|auto|..].
    + intros s1 s2 s3 (H1 & H2 & H3) (H4 & H5 & H6). repeat split; congruence.
    + intros a s s' Hbody.
      destruct (getattr s a) as [[checked|text|value|]|]; try discriminate;
        destruct (_settings s !! a) as [v|]; try discriminate;
        try (injection Hbody as <-; auto).
      * destruct (true_false_get v); injection Hbody as <-; auto.
      * destruct v; [discriminate|]. injection Hbody as <-. auto.
  - intros Hnone. unfold load_settings, _save_attrs in *.
    assert (Hstep : ∀ a, a ∈ ["add_border_keys"; "bake_cams_in_world"; "path";
                              "show_default_cams"; "roots"] →
              match getattr ui a with
              | None => Raise AttributeError
              | Some _elem =>
                  match _settings ui !! a with
                  | None => Ok ui
                  | Some _val =>
                      match _elem with
                      | QCheckBox _ =>
                          match true_false_get _val with
                          | VBool b => Ok (setChecked a b ui)
                          | VString _ => Ok ui
                          end
                      | QLineEdit _ =>
                          match _val with
                          | VString s => Ok (setText a s ui)
                          | VBool _ => Raise TypeError
                          end
                      | _ => Raise ValueError
                      end
                  end
              end = Ok ui).
    { intros a Ha. rewrite (Hnone a Ha).
      repeat (apply elem_of_cons in Ha as [->|Ha]; [reflexivity|]). inversion Ha. }
    cbn [for_attrs].
    rewrite Hstep by (repeat first [apply list_elem_of_here|apply list_elem_of_further]).
    rewrite Hstep by (repeat first [apply list_elem_of_here|apply list_elem_of_further]).
    rewrite Hstep by (repeat first [apply list_elem_of_here|apply list_elem_of_further]).
    rewrite Hstep by (repeat first [apply list_elem_of_here|apply list_elem_of_further]).
    rewrite Hstep by (repeat first [apply list_elem_of_here|apply list_elem_of_further]).
    reflexivity.
Qed.

(** X12: saving the settings changes no widget of the form, and saving
    again right after changes nothing. *)
Theorem save_settings_idempotent (ui : t) :
  ∃ saved,
    save_settings ui = Ok saved
    ∧ path saved = path ui ∧ roots saved = roots ui
    ∧ start saved = start ui ∧ end_ saved = end_ ui
    ∧ show_default_cams saved = show_default_cams ui
    ∧ bake_cams_in_world saved = bake_cams_in_world ui
    ∧ add_border_keys saved = add_border_keys ui
    ∧ save_settings saved = Ok saved.
Proof.
  eexists. split; [apply save_settings_run|].
  do 7 (split; [reflexivity|]).
  rewrite save_settings_run. f_equal.
  unfold with_settings. cbn [path roots start end_ show_default_cams
    bake_cams_in_world add_border_keys _settings].
  f_equal. apply map_eq. intros k.
  destruct (decide (k = "roots")) as [->|H1];
    [rewrite !lookup_insert_eq; reflexivity|].
  rewrite !(lookup_insert_ne _ "roots") by congruence.
  destruct (decide (k = "show_default_cams")) as [->|H2];
    [rewrite !lookup_insert_eq; reflexivity|].
  rewrite !(lookup_insert_ne _ "show_default_cams") by congruence.
  destruct (decide (k = "path")) as [->|H3];
    [rewrite !lookup_insert_eq; reflexivity|].
  rewrite !(lookup_insert_ne _ "path") by congruence.
  destruct (decide (k = "bake_cams_in_world")) as [->|H4];
    [rewrite !lookup_insert_eq; reflexivity|].
  rewrite !(lookup_insert_ne _ "bake_cams_in_world") by congruence.
  destruct (decide (k = "add_border_keys")) as [->|H5];
    [rewrite !lookup_insert_eq; reflexivity|].
  rewrite !lookup_insert_ne by congruence. reflexivity.
Qed.

End MoreSettings.


(** ** The export button *)

Lemma re_split_not_nil (s : string) : re.split_space_comma s ≠ [].
Proof.
  destruct s as [|a s]; [discriminate|]. cbn.
  destruct (Ascii.eqb a " " || Ascii.eqb a ","); [discriminate|].
  destruct (re.split_space_comma s); discriminate.
Qed.

(** X13: the root names that the dialog reads from its text field are never
    an empty list, so a rig exported from the dialog always goes through the
    test for its root nodes: the FBX writer is called, if at all, with the
    existing root nodes of the rig selected and with the path of the rig,
    and when no root node exists the only event is the warning. *)
Theorem dialog_roots_guard_rigs `{OsPath} (text : string) (range_ : Z * Z)
    (add_border_keys bake : bool) (r : _Rig.t) (fbx : string) (w : World) :
  let roots := re.split_space_comma text in
  let o := export_one range_ add_border_keys bake (Some roots) (Rig r, fbx) w in
  let found := existing_nodes w (possible_nodes w r roots) in
  roots ≠ []
  ∧ (found = [] → trace_of o = [no_roots_warning w r roots])
  ∧ (∀ script p sel, FbxExport script p sel ∈ trace_of o →
       found ≠ [] ∧ sel = found ∧ p = fbx ∧ script = fbx_script fbx).
Proof.
  cbv zeta. pose proof (re_split_not_nil text) as Hne.
  split; [exact Hne|].
  destruct (re.split_space_comma text) as [|root roots'] eqn:Hroots; [contradiction|].
  rewrite export_one_rig_run.
  destruct (existing_nodes w (possible_nodes w r (root :: roots'))) as [|n ns] eqn:Hfound.
  - split; [reflexivity|]. cbn [trace_of snd].
    intros script p sel Hin. apply list_elem_of_singleton in Hin. discriminate.
  - split; [discriminate|]. destruct range_ as [s e].
    rewrite (export_fbx_run_world (Rig r) fbx s e (Some (n :: ns)) add_border_keys w _
               (find_nodes_run (Rig r) w)).
    cbn [trace_of snd chosen_nodes].
    intros script p sel Hin.
    apply elem_of_cons in Hin as [Hin|Hin]; [discriminate|].
    apply elem_of_app in Hin as [Hin|Hin].
    + exfalso. pose proof (export_prelude_quiet fbx s e add_border_keys
                             (set_scene (cmds.with_selection (n :: ns)) w)) as Hq.
      rewrite Forall_forall in Hq. apply (Hq _ Hin). exact I.
    + apply elem_of_cons in Hin as [Hin|Hin]; [discriminate|].
      apply list_elem_of_singleton in Hin. injection Hin as -> -> ->.
      repeat split. discriminate.
Qed.

(** X14: the export button saves the settings first, whatever becomes of
    the export: the form comes back with the five keys stored and no widget
    changed.  The export then runs on the selected exportables with the
    absolute path of the path field, the range of the two frame fields, the
    two options of the checkboxes, and the root names of the text field. *)
Theorem export_button_saves_settings `{OsPath} (ui : _FbxExporterUi.t)
    (selected : list Exportable) (w : World) :
  ∃ saved,
    _FbxExporter._callback__export ui selected w
    = Ok (saved,
          _export_fbxs selected (_abs_path (_FbxExporterUi.path ui))
            (_FbxExporterUi.start ui, _FbxExporterUi.end_ ui)
            (_FbxExporterUi.add_border_keys ui)
            (_FbxExporterUi.bake_cams_in_world ui)
            (Some (re.split_space_comma (_FbxExporterUi.roots ui))) w)
    ∧ _FbxExporterUi.save_settings ui = Ok saved
    ∧ _FbxExporterUi._settings saved !! "path"
      = Some (_FbxExporterUi.VString (_FbxExporterUi.path ui))
    ∧ _FbxExporterUi._settings saved !! "roots"
      = Some (_FbxExporterUi.VString (_FbxExporterUi.roots ui))
    ∧ _FbxExporterUi._settings saved !! "add_border_keys"
      = Some (_FbxExporterUi.VBool (_FbxExporterUi.add_border_keys ui))
    ∧ _FbxExporterUi._settings saved !! "bake_cams_in_world"
      = Some (_FbxExporterUi.VBool (_FbxExporterUi.bake_cams_in_world ui))
    ∧ _FbxExporterUi._settings saved !! "show_default_cams"
      = Some (_FbxExporterUi.VBool (_FbxExporterUi.show_default_cams ui)).
Proof.
  eexists. unfold _FbxExporter._callback__export.
  rewrite save_settings_run. split; [reflexivity|]. split; [reflexivity|].
  cbn [_FbxExporterUi._settings _FbxExporterUi.with_settings].
  repeat split;
    rewrite ?lookup_insert_ne by done; rewrite lookup_insert_eq; reflexivity.
Qed.


(** ** The export of the selection and of a list, continued *)

(** X15: when [_fbx_export_selection] returns, it has written the file
    [fbx] and removed none; it has called [os.makedirs] on the directory of
    [fbx], without asking, exactly when that path did not exist, and the
    path exists afterwards; its last command is the FBX export of the nodes
    selected at the call; the nodes and the selection of the scene are as
    before, and without border keys the whole scene is. *)
Theorem fbx_export_selection_writes `{OsPath} (fbx : string) (range_ : Z * Z)
    (add_border_keys : bool) (w : World) :
  let o := _fbx_export_selection fbx range_ add_border_keys w in
  let _dir := os_path_dirname fbx in
  result_of o = Ok tt →
  fs_files (fs (world_of o)) = {[fbx]} ∪ fs_files (fs w)
  ∧ path_exists_in (world_of o) _dir = true
  ∧ (OsMakedirs _dir ∈ trace_of o ↔ path_exists_in w _dir = false)
  ∧ last (trace_of o)
    = Some (FbxExport (fbx_script fbx) fbx (scene_selection (scene w)))
  ∧ exported_files (trace_of o) = [fbx]
  ∧ scene_nodes (scene (world_of o)) = scene_nodes (scene w)
  ∧ scene_selection (scene (world_of o)) = scene_selection (scene w)
  ∧ (add_border_keys = false →
     scene (world_of o) = scene w
     ∧ trace_of o
       = (if path_exists_in w _dir then [] else [OsMakedirs _dir])
         ++ [CmdsLoadPlugin "fbxmaya";
             FbxExport (fbx_script fbx) fbx (scene_selection (scene w))]).
Proof.
  destruct range_ as [s e]. cbv zeta. rewrite _fbx_export_selection_run. cbv zeta.
  cbn [result_of world_of trace_of fst snd].
  intros _. split.
  { destruct (path_exists_in w _), add_border_keys; reflexivity. }
  split.
  { unfold path_exists_in, written, made_dir, static_deleted.
    destruct (bool_decide (os_path_dirname fbx ∈ fs_files (fs w))
              || bool_decide (os_path_dirname fbx ∈ fs_dirs (fs w))) eqn:Hex.
    - apply orb_true_iff in Hex as [Hex|Hex]; apply (bool_decide_eq_true_1 _) in Hex;
        apply orb_true_iff; [left|right];
        destruct add_border_keys; cbn; apply bool_decide_eq_true_2;
        rewrite ?elem_of_union; auto.
    - apply orb_true_iff. right.
      destruct add_border_keys; cbn; apply bool_decide_eq_true_2;
        apply elem_of_union; left; apply elem_of_singleton; reflexivity. }
  split.
  { rewrite !elem_of_app.
    destruct (path_exists_in w (os_path_dirname fbx)).
    - split; [|discriminate]. intros [Hin|[Hin|Hin]].
      + destruct add_border_keys; [|inversion Hin].
        apply elem_of_cons in Hin as [Hin|Hin]; [discriminate|].
        pose proof (border_keys_quiet s e (border_chans w)) as Hq.
        clear -Hin. exfalso. induction (border_chans w) as [|c l IH]; [inversion Hin|].
        cbn in Hin.
        repeat (apply elem_of_cons in Hin as [Hin|Hin]; [discriminate|]).
        exact (IH Hin).
      + inversion Hin.
      + repeat (apply elem_of_cons in Hin as [Hin|Hin]; [discriminate|]).
        inversion Hin.
    - split; [reflexivity|]. intros _. right. left. apply list_elem_of_here. }
  split.
  { rewrite !app_assoc.
    change [CmdsLoadPlugin "fbxmaya"; ?x] with ([CmdsLoadPlugin "fbxmaya"] ++ [x]).
    rewrite app_assoc. apply last_snoc. }
  split.
  { rewrite !exported_files_app.
    assert (Hk : exported_files
                   (if add_border_keys
                    then MelEval "DeleteAllStaticChannels"
                         :: border_keys s e (border_chans w)
                    else []) = []).
    { apply exported_files_quiet. destruct add_border_keys; [|constructor].
      constructor; [auto|].
      eapply Forall_impl; [apply border_keys_quiet|].
      intros ev Hev Hex. apply Hev. destruct ev; cbn in *; tauto. }
    rewrite Hk. destruct (path_exists_in w _); reflexivity. }
  split; [destruct (path_exists_in w _), add_border_keys; reflexivity|].
  split; [destruct (path_exists_in w _), add_border_keys; reflexivity|].
  intros ->. split; [destruct (path_exists_in w _); reflexivity|reflexivity].
Qed.

Lemma fbx_export_selection_writes_witness :
  fs_files
    (fs (world_of
           (_fbx_export_selection (H := Shot.platform) "/new/A_sh010_persp.fbx"
              (1, 24)%Z true Shot.world)))
  = {["/new/A_sh010_persp.fbx"]} ∪ fs_files (fs Shot.world).
Proof.
  apply (fbx_export_selection_writes (H := Shot.platform) "/new/A_sh010_persp.fbx"
           (1, 24)%Z true Shot.world).
  vm_compute. reflexivity.
Defined.


Lemma emits_for_each_in {A} (P : Event → Prop) (body : A → M unit) (l : list A) :
  (∀ x, x ∈ l → emits P (body x)) → emits P (for_each l body).
Proof.
  induction l as [|x l IH]; intros Hbody; [apply emits_ret|].
  cbn [for_each]. apply emits_bind; [apply Hbody, list_elem_of_here|intros _].
  apply IH. intros y Hy. apply Hbody, list_elem_of_further, Hy.
Qed.

Lemma emits_for_in_items {A} (P : Event → Prop) (body : A → M unit) :
  P ProcessEvents → P ProgressClose → (∀ v, P (ProgressSetValue v)) →
  ∀ fuel bar,
    (∀ x, x ∈ _ProgressBar.items bar → emits P (body x)) →
    emits P (_ProgressBar.for_in fuel bar body).
Proof.
  intros Hpe Hclose Hset. induction fuel as [|fuel IH]; intros bar Hbody.
  - apply emits_raise.
  - cbn [_ProgressBar.for_in]. intros w.
    unfold bind, try_except, _ProgressBar.next, emit, ret, raise.
    destruct bar as [items total]. cbn [_ProgressBar.items _ProgressBar.n_items] in *.
    destruct items as [|x rest].
    + cbn. repeat constructor; assumption.
    + cbn -[_ProgressBar.for_in PrimFloat.mul PrimFloat.sub PrimFloat.div Py.float].
      pose proof (Hbody x (list_elem_of_here _ _) w) as Hx.
      destruct (body x w) as [[[[]|e] w1] t1]; cbn [trace_of snd] in Hx |- *.
      * assert (Hrest : emits P (_ProgressBar.for_in fuel
                  {| _ProgressBar.items := rest; _ProgressBar.n_items := total |} body)).
        { apply IH. intros y Hy. apply Hbody, list_elem_of_further, Hy. }
        specialize (Hrest w1).
        destruct (_ProgressBar.for_in fuel _ body w1) as [[r w2] t2].
        cbn [trace_of snd] in Hrest |- *.
        constructor; [exact Hpe|]. constructor; [apply Hset|].
        apply Forall_app. split; assumption.
      * constructor; [exact Hpe|]. constructor; [apply Hset|]. exact Hx.
Qed.

Lemma export_one_on_targets `{OsPath} (dir_ : string) (targets : list string)
    (range_ : Z * Z) (add_border_keys bake : bool) (roots : option (list string))
    (e : Exportable) (fbx : string) :
  fbx ∈ targets →
  emits (on_targets dir_ targets)
    (export_one range_ add_border_keys bake roots (e, fbx)).
Proof.
  intros Hin.
  emits_script ltac:(cbn;
    first [ exact I
          | split; [exact Hin|reflexivity]
          | right; exists fbx; split; [exact Hin|reflexivity] ]).
Qed.

Lemma confirm_phase_on_targets `{OsPath} (dir_ : string) (targets D : list string) :
  (∀ p, p ∈ D → p ∈ targets) →
  emits (on_targets dir_ targets) (confirm_phase dir_ D).
Proof.
  intros Hsub. unfold confirm_phase.
  apply emits_bind; [apply emits_gets|intros ex].
  apply emits_bind; [|intros _].
  - destruct (negb ex); [|apply emits_ret].
    apply emits_bind; [|intros _].
    + emits_script ltac:(cbn; exact I).
    + emits_script ltac:(cbn; left; reflexivity).
  - destruct (Py.truthy_list D); [|apply emits_ret].
    apply emits_bind; [|intros _].
    + emits_script ltac:(cbn; exact I).
    + apply emits_for_each_in. intros p Hp.
      emits_script ltac:(cbn; apply Hsub, Hp).
Qed.

Lemma emits_run {A} (P : Event → Prop) (m : M A) (w : World) :
  emits P m → Forall P (trace_of (m w)).
Proof. intros Hm. apply Hm. Qed.

(** X16: in every run of the export, whatever the user answers and whatever
    fails, the files written and the files removed are target paths
    [dir/A_<scene>_<name>.fbx] of the given exportables, each file is written
    by the export script of its own path, every file removed existed at the
    start, and every call of [os.makedirs] has as its argument the export
    directory or the directory of a target path. *)
Theorem export_stays_on_targets `{OsPath} (exportables : list Exportable)
    (dir_ : string) (range_ : Z * Z) (add_border_keys bake : bool)
    (roots : option (list string)) (w : World) :
  let o := _export_fbxs exportables dir_ range_ add_border_keys bake roots w in
  let targets :=
    List.map (λ e, fbx_path dir_ (scene_location (scene w)) (export_name w e))
      exportables in
  Forall (on_targets dir_ targets) (trace_of o)
  ∧ ∀ p, OsRemove p ∈ trace_of o → path_exists_in w p = true.
Proof.
  cbv zeta.
  assert (Htargets : List.map snd (export_paths w dir_ exportables)
                     = List.map (λ e, fbx_path dir_ (scene_location (scene w))
                                        (export_name w e)) exportables).
  { unfold export_paths. rewrite List.map_map. reflexivity. }
  rewrite <- Htargets. clear Htargets.
  assert (HD : ∀ p, p ∈ to_delete w dir_ exportables →
                    p ∈ List.map snd (export_paths w dir_ exportables)
                    ∧ path_exists_in w p = true).
  { intros p Hp. apply list_elem_of_In, filter_In in Hp as [Hp Hex].
    split; [apply list_elem_of_In, Hp|exact Hex]. }
  assert (Hboth : ∀ P : Event → Prop,
            P ProcessEvents → P ProgressClose →
            (∀ v, P (ProgressSetValue v)) → (∀ title, P (ProgressShow title)) →
            (∀ title text buttons k, P (MessageBoxExec title text buttons k)) →
            emits P (confirm_phase dir_ (to_delete w dir_ exportables)) →
            (∀ e fbx, (e, fbx) ∈ export_paths w dir_ exportables →
                      emits P (export_one range_ add_border_keys bake roots (e, fbx))) →
            Forall P (trace_of (_export_fbxs exportables dir_ range_ add_border_keys
                                  bake roots w))).
  { clear HD. intros P Hpe Hclose Hset Hshow Hbox Hconfirm Hone.
    rewrite export_fbxs_phases.
    destruct exportables as [|x l].
    { apply (emits_run P (_notify "Nothing selected to export" "Confirm";; ret tt)).
      apply emits_bind; [|intros; apply emits_ret].
      emits_script ltac:(apply Hbox). }
    rewrite bind_run.
    pose proof (Hconfirm w) as Hc.
    destruct (result_of (confirm_phase dir_ (to_delete w dir_ (x :: l)) w)) as [[]|err];
      cbn [trace_of snd]; [|exact Hc].
    apply Forall_app. split; [exact Hc|].
    rewrite export_loop_run. cbn [trace_of snd].
    constructor; [apply Hshow|]. constructor; [apply Hset|].
    apply emits_for_in_items; [exact Hpe|exact Hclose|exact Hset|].
    cbn [_ProgressBar.items]. intros [e fbx] Hx. apply Hone, Hx. }
  set (targets := List.map snd (export_paths w dir_ exportables)) in *.
  set (D := to_delete w dir_ exportables) in *.
  split.
  - apply Hboth; try (intros; exact I).
    + apply confirm_phase_on_targets. intros p Hp. apply HD, Hp.
    + intros e fbx Hin. apply export_one_on_targets.
      unfold targets. apply list_elem_of_In, in_map_iff.
      exists (e, fbx). split; [reflexivity|apply list_elem_of_In, Hin].
  - assert (Hrem : Forall (λ ev, ∀ p, ev = OsRemove p → p ∈ D)
                     (trace_of (_export_fbxs exportables dir_ range_ add_border_keys
                                  bake roots w))).
    { apply Hboth; try (intros; discriminate).
      + pose proof (confirm_phase_on_targets dir_ D D (λ p Hp, Hp)) as Hc.
        intros w'. eapply Forall_impl; [apply Hc|].
        intros ev Hev p ->. exact Hev.
      + intros e fbx _.
        apply export_one_emits. intros ev Hr _ p ->. exfalso. apply Hr. exact I. }
    intros p Hin. rewrite Forall_forall in Hrem.
    apply HD, (Hrem _ Hin). reflexivity.
Qed.


(** ** The rigs of the scene, continued *)

Lemma find_rigs_ordered (roots : list string) (w : World) :
  ∀ (refs : list string) (acc : list _Rig.t),
    ∃ rigs : list _Rig.t,
      for_fold refs acc (find_rigs_body roots 0) w = (Ok (acc ++ rigs), w, [])
      ∧ List.map _Rig.ref_node rigs `sublist_of` refs
      ∧ Forall (λ r, listed_as_rig w roots (_Rig.ref_node r)) rigs.
Proof.
  induction refs as [|r refs IH]; intros acc.
  - exists []. rewrite app_nil_r. split; [reflexivity|].
    split; [constructor|constructor].
  - cbn [for_fold].
    destruct (find_rigs_body_run roots w r acc) as (b & Hrun & Hb).
    rewrite (bind_query _ _ _ _ Hrun).
    destruct (IH (if b then acc ++ [_Rig.__init__ r] else acc)) as (rigs & Hloop & Hsub & Hall).
    destruct b.
    + exists (_Rig.__init__ r :: rigs). rewrite Hloop, <- app_assoc.
      split; [reflexivity|]. split.
      * cbn [List.map _Rig.ref_node _Rig.__init__]. apply sublist_skip, Hsub.
      * constructor; [apply Hb; reflexivity|exact Hall].
    + exists rigs. split; [exact Hloop|]. split; [apply sublist_cons, Hsub|exact Hall].
Qed.

(** X17: [_find_rigs] lists the rigs in the order in which the host lists
    the reference nodes, none more often than the host lists its node; and
    with an empty list of root names it lists no rig. *)
Theorem find_rigs_in_scene_order (roots : list string) (w : World) :
  ∃ rigs : list _Rig.t,
    _find_rigs roots 0 w = (Ok rigs, w, [])
    ∧ List.map _Rig.ref_node rigs `sublist_of` scene_references (scene w)
    ∧ (NoDup (scene_references (scene w)) → NoDup rigs)
    ∧ (roots = [] → rigs = []).
Proof.
  unfold _find_rigs, cmds.ls_type_reference. rewrite bind_gets.
  destruct (find_rigs_ordered roots w (scene_references (scene w)) [])
    as (rigs & Hrun & Hsub & Hall).
  exists rigs. split; [exact Hrun|]. split; [exact Hsub|]. split.
  - intros Hnd. apply (NoDup_fmap_1 _Rig.ref_node).
    eapply sublist_NoDup; [exact Hnd|exact Hsub].
  - intros ->. destruct rigs as [|r rigs]; [reflexivity|].
    inversion Hall as [|? ? Hr _]; subst.
    destruct Hr as (_ & _ & _ & _ & (root & Hin & _)). inversion Hin.
Qed.


(** ** The progress bar, continued *)

Lemma pumped_loop_closes {A} (body : A → M unit) (total : nat) :
  (∀ x, emits (λ ev, ev ≠ ProgressClose) (body x)) →
  ∀ (l : list A) (w : World),
    let o := pumped_loop total l body w in
    (ProgressClose ∈ trace_of o ↔ result_of o = Ok tt)
    ∧ (result_of o = Ok tt → last (trace_of o) = Some ProgressClose).
Proof.
  intros Hbody. induction l as [|x rest IH]; intros w; cbv zeta.
  - cbn. split; [|reflexivity]. split; [reflexivity|].
    intros _. apply list_elem_of_further, list_elem_of_here.
  - cbn [pumped_loop]. rewrite !bind_emit, bind_run.
    cbn [result_of world_of trace_of fst snd].
    pose proof (Hbody x w) as Hx. rewrite Forall_forall in Hx.
    destruct (result_of (body x w)) as [[]|e];
      cbn [result_of world_of trace_of fst snd].
    + specialize (IH (world_of (body x w))). cbv zeta in IH.
      destruct IH as (Hiff & Hlast).
      set (o' := pumped_loop total rest body (world_of (body x w))) in *.
      split.
      * rewrite <- Hiff. split.
        -- intros Hin.
           apply elem_of_cons in Hin as [Hin|Hin]; [discriminate|].
           apply elem_of_cons in Hin as [Hin|Hin]; [discriminate|].
           apply elem_of_app in Hin as [Hin|Hin]; [|exact Hin].
           destruct (Hx _ Hin). reflexivity.
        -- intros Hin. do 2 apply list_elem_of_further.
           apply elem_of_app. right. exact Hin.
      * intros Hok. specialize (Hlast Hok).
        change (ProcessEvents :: ?y :: ?t) with ([ProcessEvents; y] ++ t).
        rewrite !app_assoc. rewrite last_app, Hlast. reflexivity.
    + split; [|discriminate]. split; [|discriminate].
      intros Hin.
      apply elem_of_cons in Hin as [Hin|Hin]; [discriminate|].
      apply elem_of_cons in Hin as [Hin|Hin]; [discriminate|].
      destruct (Hx _ Hin). reflexivity.
Qed.

(** X18: a loop over the progress bar, with a body that does not close the
    dialog itself, closes the progress dialog exactly when it runs to its
    end, as its last event; when the body raises at an item the dialog is
    left open. *)
Theorem progress_bar_closes_at_end {A} (items : list A) (title : string)
    (body : A → M unit) (w : World) :
  (∀ x, emits (λ ev, ev ≠ ProgressClose) (body x)) →
  let o := (let* bar := _ProgressBar.__init__ items title in
            _ProgressBar.for_in (S (length items)) bar body) w in
  (ProgressClose ∈ trace_of o ↔ result_of o = Ok tt)
  ∧ (result_of o = Ok tt → last (trace_of o) = Some ProgressClose).
Proof.
  intros Hbody. cbv zeta.
  assert (Hrun : (let* bar := _ProgressBar.__init__ items title in
                  _ProgressBar.for_in (S (length items)) bar body) w
                 = (result_of (pumped_loop (length items) items body w),
                    world_of (pumped_loop (length items) items body w),
                    ProgressShow title :: ProgressSetValue 0%float
                    :: trace_of (pumped_loop (length items) items body w))).
  { unfold _ProgressBar.__init__.
    eapply (bind_ok3 _ _ _ _ w [_; _]); [reflexivity| |].
    2:{ rewrite (for_in_pumped body (length items) items w).
        apply outcome_eta. }
    reflexivity. }
  rewrite Hrun. cbn [result_of world_of trace_of fst snd].
  destruct (pumped_loop_closes body (length items) Hbody items w) as (Hiff & Hlast).
  cbv zeta in Hiff, Hlast. split.
  - rewrite <- Hiff. split.
    + intros Hin. repeat (apply elem_of_cons in Hin as [Hin|Hin]; [discriminate|]).
      exact Hin.
    + intros Hin. do 2 apply list_elem_of_further. exact Hin.
  - intros Hok. specialize (Hlast Hok).
    change (ProgressShow title :: ?y :: ?t) with ([ProgressShow title; y] ++ t).
    rewrite last_app, Hlast. reflexivity.
Qed.

Lemma progress_bar_closes_at_end_witness :
  (∀ x : nat, emits (λ ev, ev ≠ ProgressClose) ((λ _, ret tt) x))
  ∧ last (trace_of
            ((let* bar := _ProgressBar.__init__ [1; 2]%nat "Progress" in
              _ProgressBar.for_in 3 bar (λ _, ret tt)) Shot.world))
    = Some ProgressClose.
Proof.
  assert (Hbody : ∀ x : nat, emits (λ ev, ev ≠ ProgressClose) ((λ _, ret tt) x))
    by (intros x; apply emits_ret).
  split; [exact Hbody|].
  apply (proj2 (progress_bar_closes_at_end [1; 2]%nat "Progress" (λ _, ret tt)
                  Shot.world Hbody)).
  reflexivity.
Defined.


(** ** The export in world space, continued *)

Lemma world_space_prefix `{OsPath} (c : _Camera.t) (fbx : string) (s e : Z)
    (add_border_keys cleanup : bool) (w : World) :
  _Camera.tfm c ∈ scene_nodes (scene (world_tmp w)) →
  export_fbx_in_world_space c fbx (s, e) add_border_keys cleanup w
  = match dup_shapes w c with
    | None =>
        (Raise TypeError, duplicated (_Camera.tfm c) (world_tmp w),
         set_namespace_trace ":export_tmp" true w
         ++ [CmdsDuplicate (_Camera.tfm c) (dup_tfm w c)])
    | Some [] =>
        (Raise IndexError, duplicated (_Camera.tfm c) (world_tmp w),
         set_namespace_trace ":export_tmp" true w
         ++ [CmdsDuplicate (_Camera.tfm c) (dup_tfm w c)])
    | Some (_ :: _) =>
        match scene_keyable (scene w) (_Camera.shp c) with
        | None =>
            (Raise TypeError, world_dup w c,
             set_namespace_trace ":export_tmp" true w
             ++ [CmdsDuplicate (_Camera.tfm c) (dup_tfm w c)]
             ++ (if Py.truthy_list (default [] (scene_parent (scene w) (_Camera.tfm c)))
                 then [CmdsParentWorld (dup_tfm w c)] else []))
        | Some attrs =>
            (Ok tt, world_final w c fbx add_border_keys cleanup,
             world_space_trace w c fbx s e add_border_keys cleanup attrs)
        end
    end.
Proof.
  intros Hcam.
  destruct (world_tmp_facts w) as (Hns1 & Hhost1 & Hsh1 & Hpar1 & _).
  unfold same_host in Hhost1.
  destruct Hhost1 as (_&_&Hkey1&_&_&_&_&_&_&_&Hleaf1&_).
  pose proof (camera_init_dup_run c w) as Hinit.
  destruct (dup_shapes w c) as [[|dshp dshps]|] eqn:Hdup.
  2:{ unfold dup_shapes in Hdup.
      destruct (scene_shapes (scene w) (_Camera.tfm c)) as [[|shp0 shps]|] eqn:Hsh;
        try discriminate.
      destruct (scene_keyable (scene w) (_Camera.shp c)) as [attrs|] eqn:Hkey.
      { apply (world_space_run c fbx s e add_border_keys cleanup w shp0 shps attrs
                 Hcam Hsh Hkey). }
      unfold export_fbx_in_world_space.
      eapply bind_ok2; [apply _set_namespace_run; reflexivity|].
      fold (world_tmp w).
      eapply (bind_ok2 _ _ _ [dup_tfm w c] (duplicated (_Camera.tfm c) (world_tmp w))).
      { rewrite (duplicate_run _ _ Hcam), Hns1, Hleaf1. reflexivity. }
      rewrite bind_ret_l.
      rewrite (bind_query _ _ _ _ Hinit).
      cbn [_Camera.tfm _Camera.shp].
      unfold cmds.listRelatives_parent. rewrite bind_gets.
      assert (Hpar2 : scene_parent (scene (duplicated (_Camera.tfm c) (world_tmp w)))
                        (dup_tfm w c)
                      = scene_parent (scene w) (_Camera.tfm c)).
      { unfold duplicated.
        cbn [scene set_scene cmds.with_nodes cmds.with_relatives scene_parent].
        rewrite Hns1, Hleaf1, Hpar1. fold (dup_tfm w c).
        rewrite bool_decide_eq_true_2 by reflexivity. reflexivity. }
      rewrite Hpar2.
      eapply (bind_ok3 _ _ _ tt (world_dup w c)
                (if Py.truthy_list (default [] (scene_parent (scene w) (_Camera.tfm c)))
                 then [CmdsParentWorld (dup_tfm w c)] else []) _ _ []).
      { unfold world_dup.
        destruct (Py.truthy_list (default [] (scene_parent (scene w) (_Camera.tfm c))));
          reflexivity. }
      { rewrite app_nil_r. reflexivity. }
      unfold cmds.listAttr_keyable. rewrite bind_gets.
      destruct (world_dup_facts w c) as (_ & Hhost3 & _).
      unfold same_host in Hhost3. destruct Hhost3 as (_&_&Hkey3&_).
      rewrite Hkey3, Hkey. reflexivity. }
  all: unfold export_fbx_in_world_space;
    (eapply bind_ok2; [apply _set_namespace_run; reflexivity|]);
    fold (world_tmp w);
    (eapply (bind_ok3 _ _ _ [dup_tfm w c] (duplicated (_Camera.tfm c) (world_tmp w))
               [CmdsDuplicate (_Camera.tfm c) (dup_tfm w c)] _ _ []);
       [rewrite (duplicate_run _ _ Hcam), Hns1, Hleaf1; reflexivity|reflexivity|]);
    rewrite bind_ret_l;
    apply (bind_raise _ _ _ _ _ _ Hinit).
Qed.

Lemma duplicated_tmp_facts (w : World) (c : _Camera.t) :
  let w2 := duplicated (_Camera.tfm c) (world_tmp w) in
  scene_current_namespace (scene w2) = ":export_tmp"
  ∧ dup_tfm w c ∈ scene_nodes (scene w2)
  ∧ fs w2 = fs w.
Proof.
  destruct (world_tmp_facts w) as (Hns1 & Hhost1 & _ & _ & Hfs1 & _).
  unfold same_host in Hhost1.
  destruct Hhost1 as (_&_&_&_&_&_&_&_&_&_&Hleaf1&_).
  cbv zeta. unfold duplicated.
  cbn [scene set_scene cmds.with_nodes cmds.with_relatives scene_nodes
       scene_current_namespace fs].
  rewrite Hns1, Hleaf1. fold (dup_tfm w c).
  split; [reflexivity|]. split; [|exact Hfs1].
  apply elem_of_app. right. apply list_elem_of_here.
Qed.

Lemma world_dup_has_duplicate (w : World) (c : _Camera.t) :
  dup_tfm w c ∈ scene_nodes (scene (world_dup w c)).
Proof.
  destruct (duplicated_tmp_facts w c) as (_ & Hin & _). cbv zeta in Hin.
  unfold world_dup. destruct (Py.truthy_list _); exact Hin.
Qed.

(** X19: for a camera of the scene outside [:export_tmp] that has no shape,
    or whose shape has no keyable attributes, the export in world space
    raises TypeError or IndexError after the camera was duplicated and
    before any export: nothing is written, the duplicate stays in the scene
    and the temporary namespace [:export_tmp] stays the current one. *)
Theorem world_space_failure_keeps_duplicate `{OsPath} (c : _Camera.t)
    (fbx : string) (s e : Z) (add_border_keys cleanup : bool) (w : World) :
  _Camera.tfm c ∈ scene_nodes (scene w) →
  cmds.ls_match ":export_tmp:*" (_Camera.tfm c) = false →
  scene_shapes (scene w) (_Camera.tfm c) = None
  ∨ scene_shapes (scene w) (_Camera.tfm c) = Some []
  ∨ scene_keyable (scene w) (_Camera.shp c) = None →
  let o := export_fbx_in_world_space c fbx (s, e) add_border_keys cleanup w in
  ∃ err,
    result_of o = Raise err
    ∧ (err = TypeError ∨ err = IndexError)
    ∧ scene_current_namespace (scene (world_of o)) = ":export_tmp"
    ∧ dup_tfm w c ∈ scene_nodes (scene (world_of o))
    ∧ CmdsDuplicate (_Camera.tfm c) (dup_tfm w c) ∈ trace_of o
    ∧ exported_files (trace_of o) = []
    ∧ fs (world_of o) = fs w.
Proof.
  intros Hin Hout Hfail. cbv zeta.
  rewrite (world_space_prefix c fbx s e add_border_keys cleanup w
             (world_tmp_keeps w _ Hin Hout)).
  destruct (duplicated_tmp_facts w c) as (Hns2 & Hin2 & Hfs2). cbv zeta in *.
  destruct (world_dup_facts w c) as (Hns3 & _ & _ & Hfs3 & _).
  pose proof (world_dup_has_duplicate w c) as Hin3.
  assert (Hdupev : ∀ t1 t2, CmdsDuplicate (_Camera.tfm c) (dup_tfm w c)
                            ∈ t1 ++ [CmdsDuplicate (_Camera.tfm c) (dup_tfm w c)] ++ t2).
  { intros t1 t2. apply elem_of_app. right. apply list_elem_of_here. }
  unfold dup_shapes.
  destruct (scene_shapes (scene w) (_Camera.tfm c)) as [[|shp0 shps]|] eqn:Hsh;
    cbn [fmap option_fmap option_map List.map result_of world_of trace_of fst snd].
  - exists IndexError. split; [reflexivity|].
    split; [auto|]. split; [exact Hns2|]. split; [exact Hin2|].
    split; [apply (Hdupev _ [])|]. split; [|exact Hfs2].
    rewrite exported_files_app, set_namespace_trace_quiet. reflexivity.
  - destruct Hfail as [Hf|[Hf|Hf]]; try discriminate Hf.
    rewrite Hf. cbn [result_of world_of trace_of fst snd].
    exists TypeError. split; [reflexivity|].
    split; [auto|]. split; [exact Hns3|]. split; [exact Hin3|].
    split; [apply Hdupev|]. split; [|exact Hfs3].
    rewrite !exported_files_app, set_namespace_trace_quiet.
    destruct (Py.truthy_list _); reflexivity.
  - exists TypeError. split; [reflexivity|].
    split; [auto|]. split; [exact Hns2|]. split; [exact Hin2|].
    split; [apply (Hdupev _ [])|]. split; [|exact Hfs2].
    rewrite exported_files_app, set_namespace_trace_quiet. reflexivity.
Qed.

Lemma world_space_failure_keeps_duplicate_witness :
  ∃ err,
    result_of
      (export_fbx_in_world_space (H := Shot.platform)
         {| _Camera.tfm := "shotcam"; _Camera.shp := "hero:notes" |}
         "/out/A_sh010_shotcam.fbx" (1, 24)%Z true true Shot.world)
    = Raise err.
Proof.
  assert (Hin : "shotcam" ∈ scene_nodes (scene Shot.world))
    by (apply (bool_decide_unpack _); vm_compute; exact I).
  destruct (world_space_failure_keeps_duplicate (H := Shot.platform)
              {| _Camera.tfm := "shotcam"; _Camera.shp := "hero:notes" |}
              "/out/A_sh010_shotcam.fbx" 1 24 true true Shot.world
              Hin eq_refl (or_intror (or_intror eq_refl)))
    as (err & Herr & _).
  exists err. exact Herr.
Defined.
